(** * Open digraphs and boolean circuits: a shallow embedding of
      [modules/open_digraph.py]

    The Python module keeps every [Node], every [dict] held by a node and
    every [OpenDigraph] as a mutable object that may be reached through
    several references.  The embedding therefore works over an explicit
    heap of such objects; a method of the source becomes a computation in a
    small state-and-exception monad over that heap.  Python [int]s are [Z],
    labels are [string]s, a [dict] is an insertion-ordered association list
    (iteration order is part of the language since Python 3.7). *)

From Stdlib Require Import ZArith List String Bool Lia.
Import ListNotations.
Open Scope string_scope.
Open Scope list_scope.
Open Scope Z_scope.

(* ===================================================================== *)
(** ** Python dictionaries                                                 *)
(* ===================================================================== *)

Module PyDict.

(** Keys are Python ints; the list is in insertion order and holds each
    key at most once. *)
Definition t (V : Type) : Type := list (Z * V).

Section Ops.
Context {V : Type}.

(** [d[k]], [None] standing for the KeyError raised by the caller. *)
Fixpoint get (k : Z) (d : t V) : option V :=
  match d with
  | [] => None
  | (k', v) :: d' => if k' =? k then Some v else get k d'
  end.

(** [k in d] *)
Definition contains (k : Z) (d : t V) : bool :=
  match get k d with Some _ => true | None => false end.

(** [d[k] = v]: an existing key keeps its position, a new key goes
    last. *)
Fixpoint set (k : Z) (v : V) (d : t V) : t V :=
  match d with
  | [] => [(k, v)]
  | (k', v') :: d' =>
      if k' =? k then (k', v) :: d' else (k', v') :: set k v d'
  end.

(** [del d[k]] on a key known to be present (absent: unchanged). *)
Fixpoint del (k : Z) (d : t V) : t V :=
  match d with
  | [] => []
  | (k', v') :: d' => if k' =? k then d' else (k', v') :: del k d'
  end.

Definition keys (d : t V) : list Z := map fst d.
Definition values (d : t V) : list V := map snd d.
Definition len (d : t V) : Z := Z.of_nat (List.length d).
End Ops.

(** [d1 == d2] on int-valued dictionaries: same size, and every key of
    [d1] is bound to the same value in [d2] (order is irrelevant). *)
Definition eqb (d1 d2 : t Z) : bool :=
  (len d1 =? len d2) &&
  forallb (fun kv => match get (fst kv) d2 with
                     | Some v => v =? snd kv
                     | None => false
                     end) d1.

End PyDict.

(* ===================================================================== *)
(** ** Objects, heap, exceptions                                           *)
(* ===================================================================== *)

(** A reference is the position of the object in its heap. *)
Definition ref := nat.

(** [class Node]: the two dictionaries are separate objects, held by
    reference (two nodes can share one, see [Node.copy]). *)
Record node_obj : Type := mk_node {
  node_id : Z;
  node_label : string;
  node_parents : ref;
  node_children : ref
}.

(** [class OpenDigraph]: [self.inputs], [self.outputs] and the dictionary
    [self.nodes], which maps an id to a reference to a [Node] object.
    The two interface lists are held by value: a list object shared by the
    two attributes or by two graphs (as [identity] builds one) is not
    represented.  Rebinding an attribute to a new list ([set_inputs],
    [remove_id], [shift_indices], [copy]) is covered by this; the in-place
    [append] of [add_input_id] and [add_output_id] only for a graph whose
    lists are its own, and nothing is stated below about the list they
    leave behind. *)
Record graph_obj : Type := mk_graph {
  inputs : list Z;
  outputs : list Z;
  nodes : PyDict.t ref
}.

Record heap : Type := mk_heap {
  h_dicts : list (PyDict.t Z);
  h_nodes : list node_obj;
  h_graphs : list graph_obj
}.

Definition empty_heap : heap := mk_heap [] [] [].

(** The exceptions the modelled code can raise.  A KeyError carries the
    offending key ([None] for the Python value [None]). *)
Inductive exn : Type :=
| KeyError (k : option Z)
| ValueError (msg : string)
| IndexError
| RuntimeError (msg : string).

(** Result of running a method: normal return, a raised exception (the heap
    keeps the mutations done so far), a dangling reference (impossible in
    Python, the model's own failure) or exhausted loop fuel. *)
Inductive outcome (A : Type) : Type :=
| Done (a : A) (h : heap)
| Raise (e : exn) (h : heap)
| Dangling
| OutOfFuel.
Arguments Done {A} a h.
Arguments Raise {A} e h.
Arguments Dangling {A}.
Arguments OutOfFuel {A}.

Definition M (A : Type) : Type := heap -> outcome A.

Definition ret {A} (a : A) : M A := fun h => Done a h.
Definition raise {A} (e : exn) : M A := fun h => Raise e h.
Definition out_of_fuel {A} : M A := fun _ => OutOfFuel.
Definition bind {A B} (c : M A) (k : A -> M B) : M B :=
  fun h => match c h with
           | Done a h' => k a h'
           | Raise e h' => Raise e h'
           | Dangling => Dangling
           | OutOfFuel => OutOfFuel
           end.

Declare Scope py_scope.
Delimit Scope py_scope with py.
Notation "x <- c ;; k" := (bind c (fun x => k))
  (at level 61, c at next level, right associativity) : py_scope.
Notation "c ;;; k" := (bind c (fun _ => k))
  (at level 61, right associativity) : py_scope.
Open Scope py_scope.

(** Replace position [n] of a list (no effect out of range). *)
Fixpoint update {A} (n : nat) (x : A) (l : list A) : list A :=
  match l, n with
  | [], _ => []
  | _ :: l', O => x :: l'
  | y :: l', S n' => y :: update n' x l'
  end.

Definition of_option {A} (o : option A) : M A :=
  fun h => match o with Some a => Done a h | None => Dangling end.

Definition read_dict (r : ref) : M (PyDict.t Z) :=
  fun h => of_option (nth_error (h_dicts h) r) h.
Definition write_dict (r : ref) (d : PyDict.t Z) : M unit :=
  fun h => Done tt (mk_heap (update r d (h_dicts h)) (h_nodes h) (h_graphs h)).
Definition new_dict (d : PyDict.t Z) : M ref :=
  fun h => Done (List.length (h_dicts h))
                (mk_heap (h_dicts h ++ [d]) (h_nodes h) (h_graphs h)).

Definition read_node (r : ref) : M node_obj :=
  fun h => of_option (nth_error (h_nodes h) r) h.
Definition write_node (r : ref) (n : node_obj) : M unit :=
  fun h => Done tt (mk_heap (h_dicts h) (update r n (h_nodes h)) (h_graphs h)).
Definition new_node (n : node_obj) : M ref :=
  fun h => Done (List.length (h_nodes h))
                (mk_heap (h_dicts h) (h_nodes h ++ [n]) (h_graphs h)).

Definition read_graph (r : ref) : M graph_obj :=
  fun h => of_option (nth_error (h_graphs h) r) h.
Definition write_graph (r : ref) (g : graph_obj) : M unit :=
  fun h => Done tt (mk_heap (h_dicts h) (h_nodes h) (update r g (h_graphs h))).
Definition new_graph (g : graph_obj) : M ref :=
  fun h => Done (List.length (h_graphs h))
                (mk_heap (h_dicts h) (h_nodes h) (h_graphs h ++ [g])).

(** *** Loops *)

(** [for x in l: body(x)] over a list value. *)
Fixpoint for_each {A} (l : list A) (body : A -> M unit) : M unit :=
  match l with
  | [] => ret tt
  | x :: l' => body x ;;; for_each l' body
  end.

(** The same loop when the body may [return] from the enclosing function:
    [Some r] leaves the loop with result [r]. *)
Fixpoint for_return {A R} (l : list A) (body : A -> M (option R))
  : M (option R) :=
  match l with
  | [] => ret None
  | x :: l' =>
      r <- body x ;;
      match r with
      | Some v => ret (Some v)
      | None => for_return l' body
      end
  end.

(** [for x in l] collecting one value per element. *)
Fixpoint map_M {A B} (f : A -> M B) (l : list A) : M (list B) :=
  match l with
  | [] => ret []
  | x :: l' => y <- f x ;; ys <- map_M f l' ;; ret (y :: ys)
  end.

Definition changed_size : exn :=
  RuntimeError "dictionary changed size during iteration".

Fixpoint dict_iter {R} (d : ref) (n : Z) (ks : list Z)
  (body : Z -> M (option R)) : M (option R) :=
  match ks with
  | [] => ret None
  | k :: ks' =>
      r <- body k ;;
      match r with
      | Some v => ret (Some v)
      | None =>
          now <- read_dict d ;;
          if PyDict.len now =? n then dict_iter d n ks' body
          else raise changed_size
      end
  end.

(** [for k in d: body(k)] over the dictionary object [d]: the iterator
    walks the keys in insertion order and raises RuntimeError as soon as it
    is advanced after the body changed the size of [d].  (A body that
    deletes one key and inserts another in the same pass is not covered;
    none of the loops below does.) *)
Definition for_dict_return {R} (d : ref) (body : Z -> M (option R))
  : M (option R) :=
  now <- read_dict d ;;
  dict_iter d (PyDict.len now) (PyDict.keys now) body.

Definition for_dict (d : ref) (body : Z -> M unit) : M unit :=
  for_dict_return (R := unit) d (fun k => body k ;;; ret None) ;;; ret tt.

(* ===================================================================== *)
(** ** class Node                                                          *)
(* ===================================================================== *)

Module Node.

(** [Node(identity, label, parents, children)]: the two dictionaries are
    the objects passed by the caller. *)
Definition init (identity : Z) (label : string) (parents children : ref)
  : M ref :=
  new_node (mk_node identity label parents children).

Definition get_id (self : ref) : M Z :=
  n <- read_node self ;; ret (node_id n).
Definition get_label (self : ref) : M string :=
  n <- read_node self ;; ret (node_label n).
Definition get_parents (self : ref) : M ref :=
  n <- read_node self ;; ret (node_parents n).
Definition get_children (self : ref) : M ref :=
  n <- read_node self ;; ret (node_children n).

Definition set_id (self : ref) (new_identity : Z) : M unit :=
  n <- read_node self ;;
  write_node self
    (mk_node new_identity (node_label n) (node_parents n) (node_children n)).

Definition set_label (self : ref) (new_label : string) : M unit :=
  n <- read_node self ;;
  write_node self
    (mk_node (node_id n) new_label (node_parents n) (node_children n)).

(** Shared body of [add_parent_id] and [add_child_id] on the dictionary
    object [d]: increase the multiplicity or insert 1. *)
Definition incr (d : ref) (k : Z) : M unit :=
  m <- read_dict d ;;
  match PyDict.get k m with
  | Some c => write_dict d (PyDict.set k (c + 1) m)
  | None => write_dict d (PyDict.set k 1 m)
  end.

Definition add_parent_id (self : ref) (parent_id : Z) : M unit :=
  p <- get_parents self ;; incr p parent_id.

Definition add_child_id (self : ref) (child_id : Z) : M unit :=
  c <- get_children self ;; incr c child_id.

(** [__eq__] *)
Definition eq (self other : ref) : M bool :=
  a <- read_node self ;;
  b <- read_node other ;;
  if negb (node_id a =? node_id b) then ret false
  else if negb (String.eqb (node_label a) (node_label b)) then ret false
  else
    pa <- read_dict (node_parents a) ;;
    pb <- read_dict (node_parents b) ;;
    if negb (PyDict.eqb pa pb) then ret false
    else
      ca <- read_dict (node_children a) ;;
      cb <- read_dict (node_children b) ;;
      ret (PyDict.eqb ca cb).

(** [copy]: a new Node object over the same two dictionary objects. *)
Definition copy (self : ref) : M ref :=
  i <- get_id self ;;
  l <- get_label self ;;
  p <- get_parents self ;;
  c <- get_children self ;;
  init i l p c.

(** Shared body of [remove_parent_once] and [remove_child_once]. *)
Definition decr (d : ref) (identity : Z) : M unit :=
  m <- read_dict d ;;
  match PyDict.get identity m with
  | Some c =>
      if c <=? 1 then write_dict d (PyDict.del identity m)
      else write_dict d (PyDict.set identity (c - 1) m)
  | None => ret tt
  end.

Definition remove_parent_once (self : ref) (identity : Z) : M unit :=
  p <- get_parents self ;; decr p identity.

Definition remove_child_once (self : ref) (identity : Z) : M unit :=
  c <- get_children self ;; decr c identity.

(** Shared body of [remove_parent_id] and [remove_child_id]. *)
Definition drop (d : ref) (identity : Z) : M unit :=
  m <- read_dict d ;;
  if PyDict.contains identity m then write_dict d (PyDict.del identity m)
  else ret tt.

Definition remove_parent_id (self : ref) (identity : Z) : M unit :=
  p <- get_parents self ;; drop p identity.

Definition remove_child_id (self : ref) (identity : Z) : M unit :=
  c <- get_children self ;; drop c identity.

Definition indegree (self : ref) : M Z :=
  p <- get_parents self ;; m <- read_dict p ;; ret (PyDict.len m).

Definition outdegree (self : ref) : M Z :=
  c <- get_children self ;; m <- read_dict c ;; ret (PyDict.len m).

Definition degree (self : ref) : M Z :=
  i <- indegree self ;; o <- outdegree self ;; ret (i + o).

End Node.

(* ===================================================================== *)
(** ** class OpenDigraph: structure and mutation                           *)
(* ===================================================================== *)

(** [x in l] for a list of ints. *)
Definition mem (x : Z) (l : list Z) : bool := existsb (Z.eqb x) l.

(** [l1 == l2] for lists of ints. *)
Fixpoint list_eqb (l1 l2 : list Z) : bool :=
  match l1, l2 with
  | [], [] => true
  | x :: l1', y :: l2' => (x =? y) && list_eqb l1' l2'
  | _, _ => false
  end.

(** [max(l)] on a non-empty collection [x, l]. *)
Definition max_of (x : Z) (l : list Z) : Z := fold_left Z.max l x.

Module OpenDigraph.

(** [{node.id: node for node in nodes}] *)
Fixpoint index_nodes (ns : list ref) (acc : PyDict.t ref)
  : M (PyDict.t ref) :=
  match ns with
  | [] => ret acc
  | n :: ns' =>
      i <- Node.get_id n ;; index_nodes ns' (PyDict.set i n acc)
  end.

(** [OpenDigraph(inputs, outputs, nodes)] with the three arguments
    given. *)
Definition init (ins outs : list Z) (ns : list ref) : M ref :=
  d <- index_nodes ns [] ;;
  new_graph (mk_graph ins outs d).

Definition empty : M ref := init [] [] [].

Definition get_input_ids (self : ref) : M (list Z) :=
  g <- read_graph self ;; ret (inputs g).
Definition get_output_ids (self : ref) : M (list Z) :=
  g <- read_graph self ;; ret (outputs g).
Definition get_id_node_map (self : ref) : M (PyDict.t ref) :=
  g <- read_graph self ;; ret (nodes g).
Definition get_nodes (self : ref) : M (list ref) :=
  g <- read_graph self ;; ret (PyDict.values (nodes g)).
Definition get_node_ids (self : ref) : M (list Z) :=
  g <- read_graph self ;; ret (PyDict.keys (nodes g)).

(** [self.nodes[node_id]] *)
Definition get_node_by_id (self : ref) (node_id : Z) : M ref :=
  g <- read_graph self ;;
  match PyDict.get node_id (nodes g) with
  | Some n => ret n
  | None => raise (KeyError (Some node_id))
  end.

(** [[self.nodes[node_id] for node_id in ids if node_id in self.nodes]] *)
Fixpoint select_nodes (d : PyDict.t ref) (ids : list Z) : list ref :=
  match ids with
  | [] => []
  | i :: ids' =>
      match PyDict.get i d with
      | Some n => n :: select_nodes d ids'
      | None => select_nodes d ids'
      end
  end.

Definition get_nodes_by_ids (self : ref) (ids : list Z) : M (list ref) :=
  g <- read_graph self ;; ret (select_nodes (nodes g) ids).

(** [self.get_node_by_id(k).get_children()] and
    [self.get_node_by_id(k).get_parents()], read as they are at that
    moment. *)
Definition children_of (self : ref) (k : Z) : M (PyDict.t Z) :=
  n <- get_node_by_id self k ;;
  c <- Node.get_children n ;;
  read_dict c.

Definition parents_of (self : ref) (k : Z) : M (PyDict.t Z) :=
  n <- get_node_by_id self k ;;
  p <- Node.get_parents n ;;
  read_dict p.

Definition id_missing : exn := ValueError "A given ID doesn't exist".

Definition set_inputs (self : ref) (new_inputs : list Z) : M unit :=
  ns <- get_node_ids self ;;
  for_each new_inputs
    (fun i => if negb (mem i ns) then raise id_missing else ret tt) ;;;
  g <- read_graph self ;;
  write_graph self (mk_graph new_inputs (outputs g) (nodes g)).

Definition set_outputs (self : ref) (new_outputs : list Z) : M unit :=
  ns <- get_node_ids self ;;
  for_each new_outputs
    (fun i => if negb (mem i ns) then raise id_missing else ret tt) ;;;
  g <- read_graph self ;;
  write_graph self (mk_graph (inputs g) new_outputs (nodes g)).

(** The [else] branch of the source builds a ValueError without raising
    it.  The [append] is rendered on the list value of this graph (see
    [graph_obj]). *)
Definition add_input_id (self : ref) (input_id : Z) : M unit :=
  g <- read_graph self ;;
  if negb (mem input_id (inputs g)) then
    if mem input_id (PyDict.keys (nodes g)) then
      write_graph self (mk_graph (inputs g ++ [input_id]) (outputs g) (nodes g))
    else ret tt
  else ret tt.

Definition add_output_id (self : ref) (output_id : Z) : M unit :=
  g <- read_graph self ;;
  if negb (mem output_id (outputs g)) then
    if mem output_id (PyDict.keys (nodes g)) then
      write_graph self (mk_graph (inputs g) (outputs g ++ [output_id]) (nodes g))
    else ret tt
  else ret tt.

(** [l1 == l2] on two lists of Node objects. *)
Fixpoint nodes_eq (l1 l2 : list ref) : M bool :=
  match l1, l2 with
  | [], [] => ret true
  | a :: l1', b :: l2' =>
      e <- Node.eq a b ;;
      if e then nodes_eq l1' l2' else ret false
  | _, _ => ret false
  end.

(** [__eq__] *)
Definition eq (self other : ref) : M bool :=
  a <- read_graph self ;;
  b <- read_graph other ;;
  if negb (list_eqb (inputs a) (inputs b)) then ret false
  else if negb (list_eqb (outputs a) (outputs b)) then ret false
  else if negb (List.length (nodes a) =? List.length (nodes b))%nat
  then ret false
  else nodes_eq (PyDict.values (nodes a)) (PyDict.values (nodes b)).

(** [copy]: fresh input and output lists and a fresh id-to-node
    dictionary over the Node objects of [self]. *)
Definition copy (self : ref) : M ref :=
  ins <- get_input_ids self ;;
  outs <- get_output_ids self ;;
  ids <- get_node_ids self ;;
  ns <- get_nodes_by_ids self ids ;;
  init ins outs ns.

Definition new_id (self : ref) : M Z :=
  ins <- get_input_ids self ;;
  outs <- get_output_ids self ;;
  ids <- get_node_ids self ;;
  match ins ++ outs ++ ids with
  | [] => ret 0
  | x :: l => ret (max_of x l + 1)
  end.

Definition no_endpoint : exn := ValueError "src or tgt doesn't exist".

Definition add_edge (self : ref) (src tgt : Z) : M unit :=
  ns <- get_node_ids self ;;
  if mem src ns && mem tgt ns then
    s <- get_node_by_id self src ;;
    Node.add_child_id s tgt ;;;
    t <- get_node_by_id self tgt ;;
    Node.add_parent_id t src
  else raise no_endpoint.

Definition add_edges (self : ref) (edges : list (Z * Z)) : M unit :=
  for_each edges (fun e => add_edge self (fst e) (snd e)).

Definition remove_edge (self : ref) (src tgt : Z) : M unit :=
  ns <- get_node_ids self ;;
  if mem src ns && mem tgt ns then
    t <- get_node_by_id self tgt ;;
    Node.remove_child_once t src ;;;
    s <- get_node_by_id self src ;;
    Node.remove_parent_once s tgt
  else raise no_endpoint.

Definition remove_edges (self : ref) (edges : list (Z * Z)) : M unit :=
  for_each edges (fun e => remove_edge self (fst e) (snd e)).

Definition remove_parallel_edges (self : ref) (src tgt : Z) : M unit :=
  ns <- get_node_ids self ;;
  if mem src ns && mem tgt ns then
    t <- get_node_by_id self tgt ;;
    Node.remove_parent_id t src ;;;
    s <- get_node_by_id self src ;;
    Node.remove_child_id s tgt
  else raise no_endpoint.

(** [add_node(label, parents, children)]; [None] for an argument left at
    its default. *)
Definition add_node (self : ref) (label : string)
  (parents children : option (list Z)) : M Z :=
  ns <- get_node_ids self ;;
  i <- new_id self ;;
  p <- new_dict [] ;;
  c <- new_dict [] ;;
  n <- Node.init i label p c ;;
  match parents with
  | Some ps =>
      for_each ps (fun parent =>
        if mem parent ns then Node.add_parent_id n parent
        else raise (ValueError "One parent doesn't exist"))
  | None => ret tt
  end ;;;
  match children with
  | Some cs =>
      for_each cs (fun child =>
        if mem child ns then Node.add_child_id n child
        else raise (ValueError "One child doesn't exist"))
  | None => ret tt
  end ;;;
  k <- Node.get_id n ;;
  g <- read_graph self ;;
  write_graph self (mk_graph (inputs g) (outputs g) (PyDict.set k n (nodes g))) ;;;
  Node.get_id n.

(** [self.nodes[node_id] = node] *)
Definition store_node (self : ref) (node_id : Z) (n : ref) : M unit :=
  g <- read_graph self ;;
  write_graph self
    (mk_graph (inputs g) (outputs g) (PyDict.set node_id n (nodes g))).

Definition add_input_node (self : ref) (node_id child_id : Z) : M unit :=
  ns <- get_node_ids self ;;
  if mem node_id ns then raise (ValueError "Node already exists")
  else if negb (mem child_id ns) then raise (ValueError "Child doesn't exist")
  else
    p <- new_dict [] ;;
    c <- new_dict [] ;;
    n <- Node.init node_id "" p c ;;
    store_node self node_id n ;;;
    add_input_id self node_id ;;;
    add_edge self node_id child_id.

Definition add_output_node (self : ref) (node_id parent_id : Z) : M unit :=
  ns <- get_node_ids self ;;
  if mem node_id ns then raise (ValueError "Node already exists")
  else if negb (mem parent_id ns) then raise (ValueError "Parent doesn't exist")
  else
    p <- new_dict [] ;;
    c <- new_dict [] ;;
    n <- Node.init node_id "" p c ;;
    store_node self node_id n ;;;
    add_output_id self node_id ;;;
    add_edge self parent_id node_id.

(** [self.nodes.pop(identity)] / [del self.nodes[identity]] *)
Definition pop_node (self : ref) (identity : Z) : M unit :=
  g <- read_graph self ;;
  if PyDict.contains identity (nodes g) then
    write_graph self
      (mk_graph (inputs g) (outputs g) (PyDict.del identity (nodes g)))
  else raise (KeyError (Some identity)).

Definition remove_id (self : ref) (identity : Z) : M unit :=
  ns <- get_node_ids self ;;
  if mem identity ns then
    pd <- parents_of self identity ;;
    let parents := PyDict.keys pd in
    cd <- children_of self identity ;;
    let children := PyDict.keys cd in
    for_each parents (fun parent => remove_parallel_edges self parent identity) ;;;
    for_each children (fun child => remove_parallel_edges self identity child) ;;;
    pop_node self identity ;;;
    ins <- get_input_ids self ;;
    outs <- get_output_ids self ;;
    if mem identity ins then
      set_inputs self (filter (fun node => negb (node =? identity)) ins)
    else if mem identity outs then
      set_inputs self (filter (fun node => negb (node =? identity)) outs)
    else ret tt
  else ret tt.

Definition remove_nodes_by_id (self : ref) (ids : list Z) : M unit :=
  for_each ids (remove_id self).

(** [self.nodes[k]] *)
Definition node_at (self : ref) (k : Z) : M ref := get_node_by_id self k.

(** [merge_nodes(node_id1, node_id2, label)]; [None] for the default
    label. *)
Definition merge_nodes (self : ref) (node_id1 node_id2 : Z)
  (label : option string) : M Z :=
  g <- read_graph self ;;
  if negb (PyDict.contains node_id1 (nodes g))
     || negb (PyDict.contains node_id2 (nodes g))
  then raise (ValueError "Node IDs must be valid nodes in the graph")
  else
    match label with
    | None =>
        n1 <- node_at self node_id1 ;;
        l <- Node.get_label n1 ;;
        n1' <- node_at self node_id1 ;;
        Node.set_label n1' l
    | Some l =>
        n1 <- node_at self node_id1 ;;
        Node.set_label n1 l
    end ;;;
    n2 <- node_at self node_id2 ;;
    cs <- Node.get_children n2 ;;
    for_dict cs (fun child_id =>
      n1 <- node_at self node_id1 ;;
      Node.add_child_id n1 child_id ;;;
      ch <- node_at self child_id ;;
      Node.add_parent_id ch node_id1) ;;;
    n2' <- node_at self node_id2 ;;
    ps <- Node.get_parents n2' ;;
    for_dict ps (fun parent_id =>
      n1 <- node_at self node_id1 ;;
      Node.add_parent_id n1 parent_id ;;;
      pa <- node_at self parent_id ;;
      Node.add_child_id pa node_id1) ;;;
    pop_node self node_id2 ;;;
    ret node_id1.


(** [{i + n: d[i] for i in d}], built by successive assignments. *)
Definition shifted (n : Z) (d : PyDict.t Z) : PyDict.t Z :=
  fold_left (fun acc kv => PyDict.set (fst kv + n) (snd kv) acc) d [].

(** [shift_indices(n)]: new interface lists, and for every node a new id
    and two new dictionaries; the keys of [self.nodes] stay as they
    are. *)
Definition shift_indices (self : ref) (n : Z) : M unit :=
  gr <- read_graph self ;;
  write_graph self (mk_graph (map (fun i => i + n) (inputs gr))
                             (outputs gr) (nodes gr)) ;;;
  gr' <- read_graph self ;;
  write_graph self (mk_graph (inputs gr')
                             (map (fun i => i + n) (outputs gr'))
                             (nodes gr')) ;;;
  ns <- get_nodes self ;;
  for_each ns (fun node =>
    i <- Node.get_id node ;;
    Node.set_id node (i + n) ;;;
    pr <- Node.get_parents node ;;
    pd <- read_dict pr ;;
    new_parents <- new_dict (shifted n pd) ;;
    nd <- read_node node ;;
    write_node node
      (mk_node (node_id nd) (node_label nd) new_parents (node_children nd)) ;;;
    cr <- Node.get_children node ;;
    cd <- read_dict cr ;;
    new_children <- new_dict (shifted n cd) ;;
    nd' <- read_node node ;;
    write_node node
      (mk_node (node_id nd') (node_label nd') (node_parents nd') new_children)).

(** *** Well-formedness *)

(** Continue with [k] unless the loop [c] has already returned. *)
Definition unless_returned {R} (c : M (option R)) (k : M R) : M R :=
  r <- c ;; match r with Some v => ret v | None => k end.

(** Property 2 (and 3 with the roles swapped) for one interface node:
    the dictionary [one] has exactly one entry, of multiplicity 1, and
    the dictionary [none] is empty. *)
Definition port_ok (one none : PyDict.t Z) : option bool :=
  if negb (PyDict.len one =? 1) || (PyDict.len none >? 0) then Some false
  else if forallb (fun m => m =? 1) (PyDict.values one) then None
  else Some false.

(** Property 5 for one direction: every entry [(other_id, multiplicity)]
    of [mine] is mirrored in the dictionary that [pick] selects in the
    node [other_id]. *)
Definition mirrored (self : ref) (node_id : Z) (mine : ref)
  (pick : ref -> M ref) : M (option bool) :=
  d <- read_dict mine ;;
  for_return d (fun entry =>
    other <- get_node_by_id self (fst entry) ;;
    back <- pick other ;;
    bd <- read_dict back ;;
    match PyDict.get node_id bd with
    | None => ret (Some false)
    | Some m => if negb (m =? snd entry) then ret (Some false) else ret None
    end).

Definition is_well_formed (self : ref) : M bool :=
  node_ids <- get_node_ids self ;;
  input_ids <- get_input_ids self ;;
  output_ids <- get_output_ids self ;;
  (* Property 1 *)
  unless_returned (for_return input_ids (fun input_id =>
    if negb (mem input_id node_ids) then ret (Some false) else ret None)) (
  unless_returned (for_return output_ids (fun output_id =>
    if negb (mem output_id node_ids) then ret (Some false) else ret None)) (
  (* Property 2 *)
  unless_returned (for_return input_ids (fun input_id =>
    input_node <- get_node_by_id self input_id ;;
    cr <- Node.get_children input_node ;;
    children <- read_dict cr ;;
    pr <- Node.get_parents input_node ;;
    parents <- read_dict pr ;;
    ret (port_ok children parents))) (
  (* Property 3 *)
  unless_returned (for_return output_ids (fun output_id =>
    output_node <- get_node_by_id self output_id ;;
    cr <- Node.get_children output_node ;;
    children <- read_dict cr ;;
    pr <- Node.get_parents output_node ;;
    parents <- read_dict pr ;;
    ret (port_ok parents children))) (
  (* Property 4 *)
  items <- get_id_node_map self ;;
  unless_returned (for_return items (fun item =>
    i <- Node.get_id (snd item) ;;
    if negb (i =? fst item) then ret (Some false) else ret None)) (
  (* Property 5 *)
  items' <- get_id_node_map self ;;
  unless_returned (for_return items' (fun item =>
    cr <- Node.get_children (snd item) ;;
    r <- mirrored self (fst item) cr Node.get_parents ;;
    match r with
    | Some b => ret (Some b)
    | None =>
        pr <- Node.get_parents (snd item) ;;
        mirrored self (fst item) pr Node.get_children
    end)) (
  ret true)))))).

Definition assert_is_well_formed (self : ref) : M unit :=
  ok <- is_well_formed self ;;
  if negb ok then raise (ValueError "Graph not well-formed") else ret tt.

(** *** Cycle detection *)

(** [d[k]] on a local dictionary. *)
Definition lookup {V} (k : Z) (d : PyDict.t V) : M V :=
  match PyDict.get k d with
  | Some v => ret v
  | None => raise (KeyError (Some k))
  end.

(** [dfs_util(node_id, v, s)]: the two marker dictionaries are local to
    [is_cyclic] and are threaded through the recursion; [fuel] bounds the
    recursion depth. *)
Fixpoint dfs_util (fuel : nat) (self : ref) (node_id : Z)
  (v s : PyDict.t bool) : M (bool * (PyDict.t bool * PyDict.t bool)) :=
  match fuel with
  | O => out_of_fuel
  | S fuel' =>
      let v0 := PyDict.set node_id true v in
      let s0 := PyDict.set node_id true s in
      cd <- children_of self node_id ;;
      (fix neighbours (ks : list Z) (v s : PyDict.t bool) :=
         match ks with
         | [] => ret (false, (v, PyDict.set node_id false s))
         | neighbor_id :: ks' =>
             seen <- lookup neighbor_id v ;;
             if negb seen then
               r <- dfs_util fuel' self neighbor_id v s ;;
               if fst r then ret r
               else neighbours ks' (fst (snd r)) (snd (snd r))
             else
               on_stack <- lookup neighbor_id s ;;
               if on_stack then ret (true, (v, s))
               else neighbours ks' v s
         end) (PyDict.keys cd) v0 s0
  end.

Definition is_cyclic_fuel (fuel : nat) (self : ref) : M bool :=
  ids <- get_node_ids self ;;
  let visited := map (fun i => (i, false)) ids in
  let stack := map (fun i => (i, false)) ids in
  (fix roots (l : list Z) (v s : PyDict.t bool) :=
     match l with
     | [] => ret false
     | node_id :: l' =>
         seen <- lookup node_id v ;;
         if negb seen then
           r <- dfs_util fuel self node_id v s ;;
           if fst r then ret true
           else roots l' (fst (snd r)) (snd (snd r))
         else roots l' v s
     end) ids visited stack.

(** The recursion of [dfs_util] is at most as deep as the number of
    nodes, each call marking a fresh node visited. *)
Definition is_cyclic (self : ref) : M bool :=
  ids <- get_node_ids self ;;
  is_cyclic_fuel (S (List.length ids)) self.


(** *** Unit-weight Dijkstra *)

(** A distance: an int or [float('inf')]. *)
Inductive num : Type := Fin (z : Z) | Inf.

Definition num_ltb (a b : num) : bool :=
  match a, b with
  | Fin x, Fin y => x <? y
  | Fin _, Inf => true
  | Inf, _ => false
  end.

Definition num_succ (a : num) : num :=
  match a with Fin x => Fin (x + 1) | Inf => Inf end.

(** [min_distance(dist, q)]: [None] when no node of [q] has a finite
    distance. *)
Fixpoint min_scan (dist : PyDict.t num) (q : list Z)
  (min_dist : num) (min_node : option Z) : M (option Z) :=
  match q with
  | [] => ret min_node
  | node :: q' =>
      d <- lookup node dist ;;
      if num_ltb d min_dist then min_scan dist q' d (Some node)
      else min_scan dist q' min_dist min_node
  end.

Definition min_distance (dist : PyDict.t num) (q : list Z) : M (option Z) :=
  min_scan dist q Inf None.

(** [x == y] on values that are an int or [None]. *)
Definition opt_eqb (x y : option Z) : bool :=
  match x, y with
  | Some a, Some b => a =? b
  | None, None => true
  | _, _ => false
  end.

(** [q.remove(u)] *)
Fixpoint list_remove (u : Z) (q : list Z) : M (list Z) :=
  match q with
  | [] => raise (ValueError "list.remove(x): x not in list")
  | x :: q' =>
      if x =? u then ret q'
      else r <- list_remove u q' ;; ret (x :: r)
  end.

(** The three local variables of [dijkstra]. *)
Record search : Type := mk_search {
  queue : list Z;
  dist : PyDict.t num;
  prev : PyDict.t Z
}.

(** [for v in neighbors: ...], the relaxation of the edges out of [u]. *)
Fixpoint relax (u : Z) (vs : list Z) (st : search) : M search :=
  match vs with
  | [] => ret st
  | v :: vs' =>
      let st1 :=
        if negb (PyDict.contains v (dist st)) then
          mk_search (queue st ++ [v]) (PyDict.set v Inf (dist st)) (prev st)
        else st in
      dv <- lookup v (dist st1) ;;
      du <- lookup u (dist st1) ;;
      if num_ltb (num_succ du) dv then
        relax u vs'
          (mk_search (queue st1) (PyDict.set v (num_succ du) (dist st1))
                     (PyDict.set v u (prev st1)))
      else relax u vs' st1
  end.

(** [self.get_node_by_id(u)] for [u] an int or [None]. *)
Definition node_of (self : ref) (u : option Z) : M ref :=
  match u with
  | Some i => get_node_by_id self i
  | None => raise (KeyError None)
  end.

(** The neighbour dictionary chosen by [direction]: [None] both ways,
    [Some (-1)] parents, [Some 1] children.  In the first case
    [neighbors] IS the children dictionary of [u], and the parents are
    written into it. *)
Definition neighbors_of (self : ref) (u : option Z) (direction : option Z)
  : M ref :=
  match direction with
  | None =>
      n <- node_of self u ;;
      neighbors <- Node.get_children n ;;
      n' <- node_of self u ;;
      parents <- Node.get_parents n' ;;
      for_dict parents (fun p =>
        pd <- read_dict parents ;;
        m <- lookup p pd ;;
        nd <- read_dict neighbors ;;
        write_dict neighbors (PyDict.set p m nd)) ;;;
      ret neighbors
  | Some d =>
      if d =? -1 then n <- node_of self u ;; Node.get_parents n
      else if d =? 1 then n <- node_of self u ;; Node.get_children n
      else raise (ValueError "La direction doit être None, -1 ou 1")
  end.

(** [dijkstra(src, direction, tgt)]; [fuel] bounds the iterations of the
    [while] loop. *)
Fixpoint dijkstra_loop (fuel : nat) (self : ref) (direction tgt : option Z)
  (st : search) : M (PyDict.t num * PyDict.t Z) :=
  match queue st with
  | [] => ret (dist st, prev st)
  | _ :: _ =>
      match fuel with
      | O => out_of_fuel
      | S fuel' =>
          u <- min_distance (dist st) (queue st) ;;
          if opt_eqb u tgt then ret (dist st, prev st)
          else
            neighbors <- neighbors_of self u direction ;;
            nd <- read_dict neighbors ;;
            match u with
            | None => raise (KeyError None)
            | Some u' =>
                st' <- relax u' (PyDict.keys nd) st ;;
                q' <- list_remove u' (queue st') ;;
                dijkstra_loop fuel' self direction tgt
                  (mk_search q' (dist st') (prev st'))
            end
      end
  end.

Definition dijkstra (fuel : nat) (self : ref) (src : Z)
  (direction tgt : option Z) : M (PyDict.t num * PyDict.t Z) :=
  dijkstra_loop fuel self direction tgt (mk_search [src] [(src, Fin 0)] []).

(** The [while v != u] walk of [shortest_path] along [prev]. *)
Fixpoint walk_back (fuel : nat) (prev : PyDict.t Z) (u v : Z)
  (path : list Z) : M (list Z) :=
  if negb (v =? u) then
    match fuel with
    | O => out_of_fuel
    | S fuel' =>
        v' <- lookup v prev ;;
        walk_back fuel' prev u v' (v' :: path)
    end
  else ret path.

Definition shortest_path (fuel : nat) (self : ref) (u v : Z) : M (list Z) :=
  r <- dijkstra fuel self u None (Some v) ;;
  walk_back fuel (snd r) u v [v].


(** *** Leveled topological sort *)

(** A Python [set] of ints is a duplicate-free list.  The order in which
    Python iterates over a set is not fixed by the language (CPython walks
    the hash slots); here it is the order of first insertion, and no result
    below depends on the order within a set of several ids. *)
Definition set_add (x : Z) (s : list Z) : list Z :=
  if mem x s then s else s ++ [x].

Definition set_of (l : list Z) : list Z :=
  fold_left (fun s x => set_add x s) l [].

(** [for child_id in ...get_children(): if all(...): new_co_leaves.add] *)
Fixpoint eligible_children (self : ref) (children current_set : list Z)
  (new_co_leaves : list Z) : M (list Z) :=
  match children with
  | [] => ret new_co_leaves
  | child_id :: rest =>
      pd <- parents_of self child_id ;;
      if forallb (fun parent_id => negb (mem parent_id current_set))
                 (PyDict.keys pd)
      then eligible_children self rest current_set (set_add child_id new_co_leaves)
      else eligible_children self rest current_set new_co_leaves
  end.

(** [for node_id in co_leaves: ...], returning [current_set] and
    [new_co_leaves]. *)
Fixpoint level (self : ref) (co_leaves current_set new_co_leaves : list Z)
  : M (list Z * list Z) :=
  match co_leaves with
  | [] => ret (current_set, new_co_leaves)
  | node_id :: rest =>
      let current_set' := set_add node_id current_set in
      cd <- children_of self node_id ;;
      new' <- eligible_children self (PyDict.keys cd) current_set' new_co_leaves ;;
      level self rest current_set' new'
  end.

Definition cyclic : exn := ValueError "Graph is cyclic".

Fixpoint sort_loop (fuel : nat) (self : ref) (co_leaves : list Z)
  (topological_sequence : list (list Z)) : M (list (list Z)) :=
  match co_leaves with
  | [] => ret topological_sequence
  | _ :: _ =>
      match fuel with
      | O => out_of_fuel
      | S fuel' =>
          r <- level self co_leaves [] [] ;;
          let current_set := fst r in
          let new_co_leaves := snd r in
          ids <- get_node_ids self ;;
          if match new_co_leaves with [] => true | _ => false end
             && (List.length current_set <? List.length ids)%nat
          then raise cyclic
          else sort_loop fuel' self new_co_leaves
                         (topological_sequence ++ [current_set])
      end
  end.

(** [topological_sort()]; [fuel] bounds the iterations of the [while]
    loop. *)
Definition topological_sort (fuel : nat) (self : ref) : M (list (list Z)) :=
  ins <- get_input_ids self ;;
  sort_loop fuel self (set_of ins) [].

(** [graph_depth()]: the sort returns a list or raises, never a string,
    so the [isinstance] branch is dead. *)
Definition graph_depth (fuel : nat) (self : ref) : M Z :=
  topological_sequence <- topological_sort fuel self ;;
  ret (Z.of_nat (List.length topological_sequence)).

End OpenDigraph.

(* ===================================================================== *)
(** ** class BoolCirc                                                      *)
(* ===================================================================== *)

(** [x in l] for a list of labels. *)
Definition label_mem (x : string) (l : list string) : bool :=
  existsb (String.eqb x) l.

(** [l.remove(x)] for a label known to occur in [l]. *)
Fixpoint label_remove (x : string) (l : list string) : list string :=
  match l with
  | [] => []
  | y :: l' => if String.eqb y x then l' else y :: label_remove x l'
  end.

(** [l[0]] *)
Definition head_of {A} (l : list A) : M A :=
  match l with
  | x :: _ => ret x
  | [] => raise IndexError
  end.

(** [l[::2]] and [l[1::2]] *)
Fixpoint evens {A} (l : list A) : list A :=
  match l with
  | x :: _ :: l' => x :: evens l'
  | l' => l'
  end.

Definition odds {A} (l : list A) : list A :=
  match l with
  | [] => []
  | _ :: l' => evens l'
  end.

Module BoolCirc.

(** The gate labels as the rules spell them: NOT is U+223C and XOR is
    U+02C6 in [rule_not], [rule_xor], [rule_involution] and [evaluate]. *)
Definition NOT : string := "∼".
Definition XOR : string := "ˆ".

(** A BoolCirc object: the inherited OpenDigraph part, left empty by the
    constructor, and the wrapped graph [self.g]. *)
Record t : Type := mk { base : ref; g : ref }.

(** [is_well_formed] *)
Definition is_well_formed (self : t) : M bool :=
  ns <- OpenDigraph.get_nodes (g self) ;;
  OpenDigraph.unless_returned (for_return ns (fun node =>
    label <- Node.get_label node ;;
    if String.eqb label "" then
      d <- Node.indegree node ;;
      if negb (d =? 1) then ret (Some false) else ret None
    else if negb (label_mem label ["0"; "1"; "~"; "|"; "&"; "^"])
    then ret (Some false)
    else ret None)) (
  wf <- OpenDigraph.is_well_formed (g self) ;;
  if wf then
    cyc <- OpenDigraph.is_cyclic (g self) ;;
    ret (negb cyc)
  else ret false).

(** [BoolCirc(g, test)] *)
Definition init (graph : ref) (test : bool) : M t :=
  b <- OpenDigraph.empty ;;
  let self := mk b graph in
  if negb test then
    ok <- is_well_formed self ;;
    if negb ok then raise (ValueError "BoolCirc isn't well-formed")
    else ret self
  else ret self.

(** [self.g.nodes[k]] *)
Definition node_at (self : t) (k : Z) : M ref :=
  OpenDigraph.get_node_by_id (g self) k.

(** [node.get_parents()[0]]: the entry of the parents dictionary under
    the key 0. *)
Definition parents_at_0 (node : ref) : M Z :=
  pr <- Node.get_parents node ;;
  pd <- read_dict pr ;;
  OpenDigraph.lookup 0 pd.

(** [[self.g.nodes[n].get_label() for n in node.get_parents()]] *)
Definition parent_labels (self : t) (node : ref) : M (list string) :=
  pr <- Node.get_parents node ;;
  pd <- read_dict pr ;;
  map_M (fun n => p <- node_at self n ;; Node.get_label p) (PyDict.keys pd).

(** [for pred in node.get_parents(): self.g.remove_edge(pred, node_id)] *)
Definition detach_parents (self : t) (node : ref) (node_id : Z) : M unit :=
  pr <- Node.get_parents node ;;
  for_dict pr (fun pred => OpenDigraph.remove_edge (g self) pred node_id).

Definition set_label_at (self : t) (node_id : Z) (l : string) : M unit :=
  n <- node_at self node_id ;; Node.set_label n l.

Definition rule_not (self : t) : M unit :=
  node_ids <- OpenDigraph.get_node_ids (g self) ;;
  for_each node_ids (fun node_id =>
    node <- node_at self node_id ;;
    label <- Node.get_label node ;;
    if String.eqb label NOT then
      pred <- parents_at_0 node ;;
      p <- node_at self pred ;;
      pred_label <- Node.get_label p ;;
      (if String.eqb pred_label "0" then set_label_at self node_id "1"
       else if String.eqb pred_label "1" then set_label_at self node_id "0"
       else ret tt) ;;;
      OpenDigraph.remove_edge (g self) pred node_id
    else ret tt).

Definition rule_and (self : t) : M unit :=
  node_ids <- OpenDigraph.get_node_ids (g self) ;;
  for_each node_ids (fun node_id =>
    node <- node_at self node_id ;;
    label <- Node.get_label node ;;
    if String.eqb label "&" then
      ins <- parent_labels self node ;;
      (if label_mem "0" ins then set_label_at self node_id "0"
       else if label_mem "1" ins then
         x <- head_of (label_remove "1" ins) ;;
         set_label_at self node_id x
       else ret tt) ;;;
      detach_parents self node node_id
    else ret tt).

Definition rule_or (self : t) : M unit :=
  node_ids <- OpenDigraph.get_node_ids (g self) ;;
  for_each node_ids (fun node_id =>
    node <- node_at self node_id ;;
    label <- Node.get_label node ;;
    if String.eqb label "|" then
      ins <- parent_labels self node ;;
      (if label_mem "1" ins then set_label_at self node_id "1"
       else if label_mem "0" ins then
         x <- head_of (label_remove "0" ins) ;;
         set_label_at self node_id x
       else ret tt) ;;;
      detach_parents self node node_id
    else ret tt).

Definition rule_xor (self : t) : M unit :=
  node_ids <- OpenDigraph.get_node_ids (g self) ;;
  for_each node_ids (fun node_id =>
    node <- node_at self node_id ;;
    label <- Node.get_label node ;;
    if String.eqb label XOR then
      ins <- parent_labels self node ;;
      (if label_mem "0" ins then
         x <- head_of (label_remove "0" ins) ;;
         set_label_at self node_id x
       else if label_mem "1" ins then
         x <- head_of (label_remove "1" ins) ;;
         set_label_at self node_id (NOT ++ x)%string
       else ret tt) ;;;
      detach_parents self node node_id
    else ret tt).

Definition rule_copy (self : t) : M unit :=
  node_ids <- OpenDigraph.get_node_ids (g self) ;;
  for_each node_ids (fun node_id =>
    node <- node_at self node_id ;;
    i <- Node.indegree node ;;
    o <- Node.outdegree node ;;
    if (i =? 1) && (o =? 0) then
      pred <- parents_at_0 node ;;
      p <- node_at self pred ;;
      l <- Node.get_label p ;;
      set_label_at self node_id l ;;;
      OpenDigraph.remove_edge (g self) pred node_id
    else ret tt).

Definition rule_erase (self : t) : M unit :=
  node_ids <- OpenDigraph.get_node_ids (g self) ;;
  for_each node_ids (fun node_id =>
    node <- node_at self node_id ;;
    i <- Node.indegree node ;;
    o <- Node.outdegree node ;;
    if (i =? 1) && (o =? 1) then
      pred <- parents_at_0 node ;;
      tgt <- parents_at_0 node ;;
      OpenDigraph.add_edge (g self) pred tgt ;;;
      OpenDigraph.remove_id (g self) node_id
    else ret tt).

(** [len(self.g.nodes) - 1] *)
Definition last_index (self : t) : M Z :=
  m <- OpenDigraph.get_id_node_map (g self) ;; ret (PyDict.len m - 1).

(** [l[i]] for [0 <= i], and [l[-1]] *)
Definition item {A} (l : list A) (i : nat) : M A :=
  match nth_error l i with
  | Some x => ret x
  | None => raise IndexError
  end.

Definition last_item {A} (l : list A) : M A :=
  match rev l with
  | x :: _ => ret x
  | [] => raise IndexError
  end.

Definition rule_involution (self : t) : M unit :=
  node_ids <- OpenDigraph.get_node_ids (g self) ;;
  for_each node_ids (fun node_id =>
    node <- node_at self node_id ;;
    label <- Node.get_label node ;;
    i <- Node.indegree node ;;
    if String.eqb label XOR && (i >? 2) then
      pr <- Node.get_parents node ;;
      pd <- read_dict pr ;;
      ins <- map_M (node_at self) (PyDict.keys pd) ;;
      let even_inputs := evens ins in
      let odd_inputs := odds ins in
      for_each (seq 0 (List.length even_inputs)) (fun k =>
        OpenDigraph.add_node (g self) XOR None None ;;;
        e <- item even_inputs k ;;
        ei <- Node.get_id e ;;
        n1 <- last_index self ;;
        OpenDigraph.add_edge (g self) ei n1 ;;;
        o <- item odd_inputs k ;;
        oi <- Node.get_id o ;;
        n2 <- last_index self ;;
        OpenDigraph.add_edge (g self) oi n2 ;;;
        if (Nat.eqb k (List.length even_inputs - 1))
           && (List.length even_inputs <? List.length odd_inputs)%nat
        then
          o' <- last_item odd_inputs ;;
          oi' <- Node.get_id o' ;;
          n3 <- last_index self ;;
          OpenDigraph.add_edge (g self) oi' n3
        else ret tt)
    else ret tt).

(** The nodes with outdegree 0, collected before the loop. *)
Fixpoint sinks (self : t) (ids : list Z) (output_nodes : list Z)
  : M (list Z) :=
  match ids with
  | [] => ret output_nodes
  | node_id :: ids' =>
      n <- node_at self node_id ;;
      o <- Node.outdegree n ;;
      if o =? 0 then sinks self ids' (OpenDigraph.set_add node_id output_nodes)
      else sinks self ids' output_nodes
  end.

(** One pass of the [for] loop of [evaluate]; the result is the flag
    [transformed].  The tests of the [if]/[elif] chain only read the
    node, so its label and degrees are taken once. *)
Fixpoint pass (self : t) (output_nodes ids : list Z) (transformed : bool)
  : M bool :=
  match ids with
  | [] => ret transformed
  | node_id :: ids' =>
      node <- node_at self node_id ;;
      if negb (mem node_id output_nodes) then
        label <- Node.get_label node ;;
        i <- Node.indegree node ;;
        o <- Node.outdegree node ;;
        if String.eqb label NOT then
          rule_not self ;;; pass self output_nodes ids' true
        else if String.eqb label "&" then
          rule_and self ;;; pass self output_nodes ids' true
        else if String.eqb label "|" then
          rule_or self ;;; pass self output_nodes ids' true
        else if String.eqb label XOR then
          rule_xor self ;;; pass self output_nodes ids' true
        else if (i =? 1) && (o =? 0) then
          rule_copy self ;;; pass self output_nodes ids' true
        else if (i =? 1) && (o =? 1) then
          rule_erase self ;;; pass self output_nodes ids' true
        else if String.eqb label XOR && (i >? 2) then
          rule_involution self ;;; pass self output_nodes ids' true
        else pass self output_nodes ids' transformed
      else pass self output_nodes ids' transformed
  end.

(** The [while transformed] loop; [fuel] bounds the number of passes. *)
Fixpoint passes (fuel : nat) (self : t) (output_nodes : list Z) : M unit :=
  match fuel with
  | O => out_of_fuel
  | S fuel' =>
      ids <- OpenDigraph.get_node_ids (g self) ;;
      transformed <- pass self output_nodes ids false ;;
      if transformed then passes fuel' self output_nodes else ret tt
  end.

Definition evaluate (fuel : nat) (self : t) : M unit :=
  ids <- OpenDigraph.get_node_ids (g self) ;;
  output_nodes <- sinks self ids [] ;;
  passes fuel self output_nodes.

End BoolCirc.

(* ===================================================================== *)
(** ** Building graphs and observing them                                  *)
(* ===================================================================== *)

(** [Node(identity, label, {}, {})]: a node over two fresh dictionaries. *)
Definition fresh_node (spec : Z * string) : M ref :=
  p <- new_dict [] ;;
  c <- new_dict [] ;;
  Node.init (fst spec) (snd spec) p c.

(** A graph made the way a client makes one: the nodes are constructed
    without edges, handed to the [OpenDigraph] constructor with the two
    interface lists, and the edges are added with [add_edges]. *)
Definition build (ins outs : list Z) (labelled : list (Z * string))
  (edges : list (Z * Z)) : M ref :=
  ns <- map_M fresh_node labelled ;;
  gr <- OpenDigraph.init ins outs ns ;;
  OpenDigraph.add_edges gr edges ;;;
  ret gr.

(** The label of the node filed under [k]. *)
Definition label_of (gr : ref) (k : Z) : M string :=
  n <- OpenDigraph.get_node_by_id gr k ;;
  Node.get_label n.

(** What a run from the empty heap returns, without the final heap. *)
Inductive answer (A : Type) : Type :=
| Returned (a : A)
| Raised (e : exn)
| NoAnswer.
Arguments Returned {A} a.
Arguments Raised {A} e.
Arguments NoAnswer {A}.

Definition run {A} (c : M A) : answer A :=
  match c empty_heap with
  | Done a _ => Returned a
  | Raise e _ => Raised e
  | Dangling | OutOfFuel => NoAnswer
  end.

(** The chain 0 -> 1 -> ... over unlabelled nodes. *)
Definition unlabelled (ids : list Z) : list (Z * string) :=
  map (fun i => (i, "")) ids.

(** 0 -> 1 -> 2 with input 0 and output 2. *)
Definition chain3 : M ref :=
  build [0] [2] (unlabelled [0; 1; 2]) [(0, 1); (1, 2)].

(** 0 -> 1 -> 2 -> 3, no interface. *)
Definition chain4 : M ref :=
  build [] [] (unlabelled [0; 1; 2; 3]) [(0, 1); (1, 2); (2, 3)].

(** A single edge 0 -> 1, no interface. *)
Definition edge01 : M ref := build [] [] (unlabelled [0; 1]) [(0, 1)].

(** A (id 0, "1"), B (id 1, "0"), C (id 2, "&") with A -> C and B -> C. *)
Definition and_circuit : M ref :=
  build [] [] [(0, "1"); (1, "0"); (2, "&")] [(0, 2); (1, 2)].

(** The two-cycle 0 -> 1 -> 0. *)
Definition two_cycle : M ref :=
  build [] [] (unlabelled [0; 1]) [(0, 1); (1, 0)].

(** a = 0, b = 1 and a common child 2: one edge 0 -> 2, two parallel edges
    1 -> 2. *)
Definition shared_child : M ref :=
  build [] [] (unlabelled [0; 1; 2]) [(0, 2); (1, 2); (1, 2)].

(** One node with a self-loop, no interface. *)
Definition self_loop : M ref := build [] [] (unlabelled [0]) [(0, 0)].

(** 0 -> 1, 1 -> 2 and 1 -> 3 with input 0 and outputs 2 and 3. *)
Definition fork : M ref :=
  build [0] [2; 3] (unlabelled [0; 1; 2; 3]) [(0, 1); (1, 2); (1, 3)].

(** The ids in use in a graph object: inputs, outputs and node keys. *)
Definition used_ids (gr : graph_obj) : list Z :=
  inputs gr ++ outputs gr ++ PyDict.keys (nodes gr).

(** The heap a construction leaves behind; its first graph is at
    reference 0. *)
Definition heap_of {A} (c : M A) : heap :=
  match c empty_heap with
  | Done _ h => h
  | _ => empty_heap
  end.

(** 0 -> 3 -> 7 with input 0 and output 7, its heap and its graph
    object. *)
Definition sample : M ref :=
  build [0] [7] (unlabelled [0; 3; 7]) [(0, 3); (3, 7)].

Definition sample_heap : heap := heap_of sample.

Definition sample_graph : graph_obj :=
  mk_graph [0] [7] [(0, 0%nat); (3, 1%nat); (7, 2%nat)].

(** In the heap [h], every edge out of the node [i] of the graph [self] is
    also recorded on its target: each child of [i] lists [i] among its
    parents (property 5 of [is_well_formed], for the edges out of [i]). *)
Definition edges_mirrored (self : ref) (h : heap) (i : Z) : Prop :=
  exists cs,
    OpenDigraph.children_of self i h = Done cs h /\
    forall c, In c (PyDict.keys cs) ->
      exists ps,
        OpenDigraph.parents_of self c h = Done ps h /\
        In i (PyDict.keys ps).

(** The heap in which [chain3] leaves its graph. *)
Definition chain3_heap : heap := heap_of chain3.

(* ===================================================================== *)
(** ** Notions used to state further properties                            *)
(* ===================================================================== *)

(** A computation that leaves the heap as it found it, whether it returns
    or raises. *)
Definition read_only {A} (c : M A) : Prop :=
  forall h,
    match c h with
    | Done _ h' | Raise _ h' => h' = h
    | Dangling | OutOfFuel => True
    end.

(** The number of parallel edges a neighbour dictionary records for [k]. *)
Definition multiplicity (k : Z) (d : PyDict.t Z) : Z :=
  match PyDict.get k d with
  | Some c => c
  | None => 0
  end.

(** The heap [h] with the dictionary, node or graph object at [r]
    replaced. *)
Definition with_dict (r : ref) (d : PyDict.t Z) (h : heap) : heap :=
  mk_heap (update r d (h_dicts h)) (h_nodes h) (h_graphs h).

Definition with_graph (r : ref) (gr : graph_obj) (h : heap) : heap :=
  mk_heap (h_dicts h) (h_nodes h) (update r gr (h_graphs h)).

(** No int occurs twice in the list (the keys of a dictionary never
    repeat). *)
Fixpoint distinct (l : list Z) : bool :=
  match l with
  | [] => true
  | x :: l' => negb (mem x l') && distinct l'
  end.

(** The dictionary obtained by adding the ids of [l] one by one, as
    [add_parent_id] and [add_child_id] do. *)
Definition tally (l : list Z) (d : PyDict.t Z) : PyDict.t Z :=
  fold_left (fun acc q => PyDict.set q (multiplicity q acc + 1) acc) l d.

(** [parents] or [children] as passed to [add_node]: [None] stands for no
    neighbour. *)
Definition neighbours (o : option (list Z)) : list Z :=
  match o with
  | Some l => l
  | None => []
  end.

(** The heap after [Node(i, label, {}, {})]. *)
Definition with_node (i : Z) (label : string) (h : heap) : heap :=
  mk_heap
    ((h_dicts h ++ [[]]) ++ [[]])
    (h_nodes h ++ [mk_node i label (List.length (h_dicts h))
                           (S (List.length (h_dicts h)))])
    (h_graphs h).

(** The id [new_id] computes on the graph object [gr]. *)
Definition next_id (gr : graph_obj) : Z :=
  match used_ids gr with
  | [] => 0
  | x :: l => max_of x l + 1
  end.

(** The longest prefix of [l] made of ids that occur in [ns]. *)
Fixpoint present_prefix (ns l : list Z) : list Z :=
  match l with
  | [] => []
  | q :: l' => if mem q ns then q :: present_prefix ns l' else []
  end.

(** In the heap [h], every node of the graph object [gr] is there and none
    is labelled [gate]. *)
Definition no_gate (h : heap) (gr : graph_obj) (gate : string) : Prop :=
  forall k r, PyDict.get k (nodes gr) = Some r ->
    exists n, nth_error (h_nodes h) r = Some n /\ node_label n <> gate.

(** A check that never answers [True] on its own: it either answers
    [False] or lets the caller go on. *)
Definition never_true (c : M (option bool)) : Prop :=
  forall h h', c h <> Done (Some true) h'.

(** The five well-formedness invariants of the graph object [gr], held at
    [self] in the heap [h]: interface ids are nodes; an input has no parent
    and one child of multiplicity 1; an output has no child and one parent
    of multiplicity 1; a node is filed under its own id; child and parent
    entries mirror each other with equal multiplicities. *)
Definition invariants (h : heap) (self : ref) (gr : graph_obj) : Prop :=
  (forall i, In i (inputs gr) \/ In i (outputs gr) ->
     PyDict.contains i (nodes gr) = true) /\
  (forall i, In i (inputs gr) ->
     exists c, OpenDigraph.children_of self i h = Done [(c, 1)] h /\
               OpenDigraph.parents_of self i h = Done [] h) /\
  (forall i, In i (outputs gr) ->
     exists p, OpenDigraph.parents_of self i h = Done [(p, 1)] h /\
               OpenDigraph.children_of self i h = Done [] h) /\
  (forall k r, In (k, r) (nodes gr) ->
     exists n cs ps,
       nth_error (h_nodes h) r = Some n /\ node_id n = k /\
       nth_error (h_dicts h) (node_children n) = Some cs /\
       nth_error (h_dicts h) (node_parents n) = Some ps /\
       (forall c m, In (c, m) cs ->
          exists pd, OpenDigraph.parents_of self c h = Done pd h /\
                     PyDict.get k pd = Some m) /\
       (forall p m, In (p, m) ps ->
          exists cd, OpenDigraph.children_of self p h = Done cd h /\
                     PyDict.get k cd = Some m)).

(** The labels [BoolCirc.is_well_formed] accepts besides the empty one. *)
Definition gate_alphabet : list string := ["0"; "1"; "~"; "|"; "&"; "^"].

(** In the heap [h], every node of the graph object [gr] is either a sink
    (it has no child) or a node that no branch of [evaluate] acts on: it
    carries none of the four gate signs and does not have exactly one
    parent together with exactly one child. *)
Definition settled (h : heap) (gr : graph_obj) : Prop :=
  forall k r, PyDict.get k (nodes gr) = Some r ->
    exists n cs ps,
      nth_error (h_nodes h) r = Some n /\
      nth_error (h_dicts h) (node_children n) = Some cs /\
      nth_error (h_dicts h) (node_parents n) = Some ps /\
      (cs = [] \/
       (node_label n <> BoolCirc.NOT /\ node_label n <> "&" /\
        node_label n <> "|" /\ node_label n <> BoolCirc.XOR /\
        ~ (PyDict.len ps = 1 /\ PyDict.len cs = 1))).

(** Every dictionary of the heap has pairwise distinct keys, as Python
    dictionaries do. *)
Definition tidy (h : heap) : Prop :=
  forall d m, nth_error (h_dicts h) d = Some m ->
    distinct (PyDict.keys m) = true.

(** [k] is a node of the graph, and its two dictionaries exist. *)
Definition wired (h : heap) (gr : graph_obj) (k : Z) : Prop :=
  exists r n ps cs,
    PyDict.get k (nodes gr) = Some r /\
    nth_error (h_nodes h) r = Some n /\
    nth_error (h_dicts h) (node_parents n) = Some ps /\
    nth_error (h_dicts h) (node_children n) = Some cs.

(** [h'] is [h] with entries deleted from dictionaries: graph and node
    objects are the same, every dictionary still exists and holds only
    entries it held before, and a dictionary outside [own] has lost no
    entry other than the one for [identity]. *)
Definition pruned (identity : Z) (own : list ref) (h h' : heap) : Prop :=
  h_graphs h' = h_graphs h /\
  h_nodes h' = h_nodes h /\
  tidy h' /\
  forall d m, nth_error (h_dicts h) d = Some m ->
    exists m',
      nth_error (h_dicts h') d = Some m' /\
      (forall k v, PyDict.get k m' = Some v -> PyDict.get k m = Some v) /\
      (~ In d own -> forall k, k <> identity ->
         PyDict.get k m' = PyDict.get k m).

(** The input list [remove_id] leaves behind. *)
Definition inputs_without (identity : Z) (gr : graph_obj) : list Z :=
  if mem identity (inputs gr) then
    filter (fun node => negb (node =? identity)) (inputs gr)
  else if mem identity (outputs gr) then
    filter (fun node => negb (node =? identity)) (outputs gr)
  else inputs gr.

(** The body of the loop of [shift_indices] over the nodes. *)
Definition shift_node (n : Z) (node : ref) : M unit :=
  i <- Node.get_id node ;;
  Node.set_id node (i + n) ;;;
  pr <- Node.get_parents node ;;
  pd <- read_dict pr ;;
  new_parents <- new_dict (OpenDigraph.shifted n pd) ;;
  nd <- read_node node ;;
  write_node node
    (mk_node (node_id nd) (node_label nd) new_parents (node_children nd)) ;;;
  cr <- Node.get_children node ;;
  cd <- read_dict cr ;;
  new_children <- new_dict (OpenDigraph.shifted n cd) ;;
  nd' <- read_node node ;;
  write_node node
    (mk_node (node_id nd') (node_label nd') (node_parents nd') new_children).

(** The node object [r] exists in [h] together with its two
    dictionaries. *)
Definition allocated (h : heap) (r : ref) : Prop :=
  exists nd ps cs,
    nth_error (h_nodes h) r = Some nd /\
    nth_error (h_dicts h) (node_parents nd) = Some ps /\
    nth_error (h_dicts h) (node_children nd) = Some cs.

(** Every entry of the node map of [gr] holds a node object that carries
    the id it is filed under and whose two dictionaries exist. *)
Definition filed (h : heap) (gr : graph_obj) : Prop :=
  forall k r, In (k, r) (nodes gr) ->
    exists nd ps cs,
      nth_error (h_nodes h) r = Some nd /\ node_id nd = k /\
      nth_error (h_dicts h) (node_parents nd) = Some ps /\
      nth_error (h_dicts h) (node_children nd) = Some cs.

(** The heap with one more graph object. *)
Definition with_new_graph (gr : graph_obj) (h : heap) : heap :=
  mk_heap (h_dicts h) (h_nodes h) (h_graphs h ++ [gr]).

(* ===================================================================== *)
(** ** Properties                                                          *)
(* ===================================================================== *)

(** *** Leveled topological sort (C1) *)

(** C1.  The chain 0 -> 1 -> 2 with input 0 and output 2 is well formed and
    [is_cyclic] finds no cycle in it; its longest path has two edges, so
    the depth should be 3.  [topological_sort] instead raises
    ValueError("Graph is cyclic"), and so does [graph_depth]: node 0 is put
    into [current_set] before its child 1 is examined, so the child always
    has a parent in [current_set] and is never eligible. *)
Theorem topological_sort_rejects_acyclic_chain :
  run (gr <- chain3 ;; OpenDigraph.is_well_formed gr) = Returned true /\
  run (gr <- chain3 ;; OpenDigraph.is_cyclic gr) = Returned false /\
  (forall fuel,
     run (gr <- chain3 ;; OpenDigraph.topological_sort (S fuel) gr)
     = Raised OpenDigraph.cyclic) /\
  (forall fuel,
     run (gr <- chain3 ;; OpenDigraph.graph_depth (S fuel) gr)
     = Raised OpenDigraph.cyclic).
Proof.
  repeat split; try (intro fuel); vm_compute; reflexivity.
Qed.

(** A cyclic graph without input nodes is not rejected: the frontier starts
    empty and the sort returns the empty sequence. *)
Lemma topological_sort_accepts_self_loop :
  run (gr <- self_loop ;; OpenDigraph.is_cyclic gr) = Returned true /\
  forall fuel,
    run (gr <- self_loop ;; OpenDigraph.topological_sort fuel gr)
    = Returned [].
Proof.
  split; [ vm_compute; reflexivity | intros [|fuel]; vm_compute; reflexivity ].
Qed.

(** The failure is not particular to the chain.  As soon as the edges out
    of the input nodes are recorded on both endpoints, no child is ever
    eligible, the first level is the set of inputs and the sort stops
    there: with an error if some node is not an input, whatever the shape
    of the graph. *)

Lemma mem_In (x : Z) (l : list Z) : mem x l = true <-> In x l.
Proof.
  unfold mem. rewrite existsb_exists. split.
  - intros (y & Hy & Heq). apply Z.eqb_eq in Heq. now subst.
  - intro Hin. exists x. split; [exact Hin | apply Z.eqb_refl].
Qed.

Lemma set_add_mem (x : Z) (s : list Z) :
  mem x (OpenDigraph.set_add x s) = true.
Proof.
  unfold OpenDigraph.set_add.
  destruct (mem x s) eqn:Hm; [exact Hm|].
  apply mem_In, in_or_app. right. now left.
Qed.

Lemma set_add_length (x : Z) (s : list Z) :
  (List.length (OpenDigraph.set_add x s) <= S (List.length s))%nat.
Proof.
  unfold OpenDigraph.set_add.
  destruct (mem x s); [lia|].
  rewrite length_app. simpl. lia.
Qed.

Lemma eligible_children_none
  (self : ref) (h : heap) (cur new : list Z) (cs : list Z) :
  (forall c, In c cs ->
     exists ps, OpenDigraph.parents_of self c h = Done ps h /\
                exists p, In p (PyDict.keys ps) /\ mem p cur = true) ->
  OpenDigraph.eligible_children self cs cur new h = Done new h.
Proof.
  induction cs as [|c cs IH]; intro Hall; [reflexivity|].
  destruct (Hall c (or_introl eq_refl)) as (ps & Hps & p & Hp & Hm).
  cbn [OpenDigraph.eligible_children]. unfold bind at 1. rewrite Hps.
  assert (Hno : forallb (fun parent_id => negb (mem parent_id cur))
                        (PyDict.keys ps) = false).
  { apply not_true_is_false. intro Hf.
    rewrite forallb_forall in Hf. specialize (Hf p Hp).
    rewrite Hm in Hf. discriminate. }
  rewrite Hno. apply IH. intros c' Hc'. apply Hall. now right.
Qed.

Lemma level_no_progress (self : ref) (h : heap) (frontier : list Z) :
  (forall i, In i frontier -> edges_mirrored self h i) ->
  forall cur,
  exists cur',
    OpenDigraph.level self frontier cur [] h = Done (cur', []) h /\
    (List.length cur' <= List.length cur + List.length frontier)%nat.
Proof.
  induction frontier as [|i frontier IH]; intros Hall cur.
  - exists cur. split; [reflexivity | simpl; lia].
  - destruct (Hall i (or_introl eq_refl)) as (cs & Hcs & Hback).
    destruct (IH (fun j Hj => Hall j (or_intror Hj))
                 (OpenDigraph.set_add i cur)) as (cur' & Hrun & Hlen).
    exists cur'. split.
    + cbn [OpenDigraph.level]. unfold bind at 1. rewrite Hcs.
      unfold bind at 1.
      rewrite eligible_children_none; [exact Hrun|].
      intros c Hc. destruct (Hback c Hc) as (ps & Hps & Hi).
      exists ps. split; [exact Hps|].
      exists i. split; [exact Hi | apply set_add_mem].
    + pose proof (set_add_length i cur). simpl. lia.
Qed.

Lemma topological_sort_stops_at_inputs
  (self : ref) (h : heap) (gr : graph_obj) (fuel : nat) :
  read_graph self h = Done gr h ->
  OpenDigraph.set_of (inputs gr) <> [] ->
  (forall i, In i (OpenDigraph.set_of (inputs gr)) -> edges_mirrored self h i) ->
  (List.length (OpenDigraph.set_of (inputs gr)) < List.length (nodes gr))%nat ->
  OpenDigraph.topological_sort (S fuel) self h = Raise OpenDigraph.cyclic h.
Proof.
  intros Hgr Hne Hmir Hlt.
  unfold OpenDigraph.topological_sort, OpenDigraph.get_input_ids.
  unfold bind at 1. unfold bind at 1. rewrite Hgr. unfold ret at 1.
  destruct (OpenDigraph.set_of (inputs gr)) as [|i frontier] eqn:Hset;
    [now destruct Hne|].
  destruct (level_no_progress self h (i :: frontier) Hmir [])
    as (cur' & Hrun & Hlen).
  cbn [OpenDigraph.sort_loop]. unfold bind at 1. rewrite Hrun.
  cbn [fst snd]. unfold OpenDigraph.get_node_ids.
  unfold bind at 1. unfold bind at 1. rewrite Hgr. unfold ret at 1.
  unfold PyDict.keys. rewrite length_map.
  assert (Hsmall : (List.length cur' <? List.length (nodes gr))%nat = true).
  { apply Nat.ltb_lt. simpl in Hlen, Hlt. lia. }
  rewrite Hsmall. reflexivity.
Qed.

(** The chain of C1 is an instance. *)
Lemma chain3_stops_at_inputs (fuel : nat) :
  OpenDigraph.topological_sort (S fuel) 0%nat chain3_heap
  = Raise OpenDigraph.cyclic chain3_heap.
Proof.
  apply (topological_sort_stops_at_inputs 0%nat chain3_heap
           (mk_graph [0] [2] [(0, 0%nat); (1, 1%nat); (2, 2%nat)])).
  - reflexivity.
  - discriminate.
  - intros i [<-|[]]. exists [(1, 1)]. split; [reflexivity|].
    intros c [<-|[]]. exists [(0, 1)]. split; [reflexivity | now left].
  - simpl. lia.
Qed.

(** *** Copies (C2) *)

(** C2.  [copy] builds a new graph object that compares equal to the
    original, but over the very same Node objects: adding an edge to the
    copy, removing one from it, relabelling one of its nodes or shifting
    its indices (what [iparallel], [parallel], [icompose] and [compose] do
    to their copy) is seen through the original. *)
Theorem copy_shares_the_nodes :
  run (gr <- edge01 ;; c <- OpenDigraph.copy gr ;; OpenDigraph.eq c gr)
  = Returned true /\
  run (gr <- edge01 ;;
       before <- OpenDigraph.children_of gr 0 ;;
       c <- OpenDigraph.copy gr ;;
       OpenDigraph.add_edge c 0 1 ;;;
       after <- OpenDigraph.children_of gr 0 ;;
       ret (before, after))
  = Returned ([(1, 1)], [(1, 2)]) /\
  run (gr <- edge01 ;;
       before <- OpenDigraph.parents_of gr 1 ;;
       c <- OpenDigraph.copy gr ;;
       OpenDigraph.remove_parallel_edges c 0 1 ;;;
       after <- OpenDigraph.parents_of gr 1 ;;
       ret (before, after))
  = Returned ([(0, 1)], []) /\
  run (gr <- edge01 ;;
       before <- label_of gr 0 ;;
       c <- OpenDigraph.copy gr ;;
       n <- OpenDigraph.get_node_by_id c 0 ;;
       Node.set_label n "x" ;;;
       after <- label_of gr 0 ;;
       ret (before, after))
  = Returned ("", "x") /\
  run (gr <- edge01 ;;
       n <- OpenDigraph.get_node_by_id gr 0 ;;
       before <- Node.get_id n ;;
       c <- OpenDigraph.copy gr ;;
       OpenDigraph.shift_indices c 5 ;;;
       after <- Node.get_id n ;;
       children <- OpenDigraph.children_of gr 0 ;;
       ret (before, after, children))
  = Returned (0, 5, [(6, 1)]).
Proof.
  repeat split; vm_compute; reflexivity.
Qed.

(** [Node.copy] too makes a new Node over the dictionaries of the old one:
    a child added to the copy is a child of the original. *)
Lemma node_copy_shares_the_dictionaries :
  run (n <- fresh_node (0, "") ;;
       m <- Node.copy n ;;
       same <- Node.eq m n ;;
       Node.add_child_id m 7 ;;;
       c <- Node.get_children n ;;
       d <- read_dict c ;;
       ret (same, d))
  = Returned (true, [(7, 1)]).
Proof. vm_compute; reflexivity. Qed.

(** *** Removing an edge (C3) *)

(** C3.  On the graph with the single edge 0 -> 1, [remove_edge(0, 1)]
    leaves the edge in place on both endpoints; on the two-cycle it takes
    away the edge 1 -> 0 and keeps 0 -> 1.  The method calls
    [remove_child_once] on the target and [remove_parent_once] on the
    source, the reverse of what [add_edge] and [remove_parallel_edges]
    do. *)
Theorem remove_edge_removes_the_reverse_edge :
  run (gr <- edge01 ;;
       OpenDigraph.remove_edge gr 0 1 ;;;
       c <- OpenDigraph.children_of gr 0 ;;
       p <- OpenDigraph.parents_of gr 1 ;;
       ret (c, p))
  = Returned ([(1, 1)], [(0, 1)]) /\
  run (gr <- two_cycle ;;
       OpenDigraph.remove_edge gr 0 1 ;;;
       c0 <- OpenDigraph.children_of gr 0 ;;
       p1 <- OpenDigraph.parents_of gr 1 ;;
       c1 <- OpenDigraph.children_of gr 1 ;;
       p0 <- OpenDigraph.parents_of gr 0 ;;
       ret (c0, p1, (c1, p0)))
  = Returned ([(1, 1)], [(0, 1)], ([], [])).
Proof.
  split; vm_compute; reflexivity.
Qed.

(** *** Removing an interface node (C4) *)

(** C4.  On the graph 0 -> 1, 1 -> 2, 1 -> 3 with inputs [0] and outputs
    [2; 3], [remove_id(2)] leaves the output list at [2; 3] and overwrites
    the input list with the filtered output list [3]: the [elif] branch for
    an output calls [set_inputs].  Removing the input node 0 does what the
    claim says. *)
Theorem remove_id_of_output_rewrites_inputs :
  run (gr <- fork ;;
       OpenDigraph.remove_id gr 2 ;;;
       i <- OpenDigraph.get_input_ids gr ;;
       o <- OpenDigraph.get_output_ids gr ;;
       ret (i, o))
  = Returned ([3], [2; 3]) /\
  run (gr <- fork ;;
       OpenDigraph.remove_id gr 0 ;;;
       i <- OpenDigraph.get_input_ids gr ;;
       o <- OpenDigraph.get_output_ids gr ;;
       ret (i, o))
  = Returned ([], [2; 3]).
Proof.
  split; vm_compute; reflexivity.
Qed.

(** *** Merging nodes (C5) *)

(** C5.  With a = 0, b = 1, one edge 0 -> 2 and two parallel edges 1 -> 2,
    [merge_nodes(0, 1)] deletes node 1 from the node set, but the edge
    0 -> 2 ends with multiplicity 2 instead of 1 + 2 = 3 (each neighbour of
    b counts once, whatever its multiplicity), and the parents dictionary
    of node 2 still has its entry for the deleted node 1, on which the
    graph's own [is_well_formed] then raises KeyError. *)
Theorem merge_nodes_leaves_dangling_entries :
  run (gr <- shared_child ;;
       r <- OpenDigraph.merge_nodes gr 0 1 None ;;
       ids <- OpenDigraph.get_node_ids gr ;;
       c <- OpenDigraph.children_of gr 0 ;;
       p <- OpenDigraph.parents_of gr 2 ;;
       ret (r, ids, (c, p)))
  = Returned (0, [0; 2], ([(2, 2)], [(0, 2); (1, 2)])) /\
  run (gr <- shared_child ;; OpenDigraph.is_well_formed gr) = Returned true /\
  run (gr <- shared_child ;;
       OpenDigraph.merge_nodes gr 0 1 None ;;;
       OpenDigraph.is_well_formed gr)
  = Raised (KeyError (Some 1)).
Proof. repeat split; vm_compute; reflexivity. Qed.

(** *** Evaluation (C6) *)

(** C6.  The circuit A("1"), B("0"), C("&") with A -> C and B -> C is
    accepted by the [BoolCirc] constructor.  [evaluate] terminates after one
    pass that fires no rule and leaves the label of C at "&": C has
    outdegree 0, so it is in [output_nodes] and is skipped, and neither A
    nor B triggers a rule.  [rule_and] itself, when called, rewrites C to
    "0". *)
Theorem evaluate_skips_the_and_gate :
  (forall fuel,
     run (gr <- and_circuit ;;
          bc <- BoolCirc.init gr false ;;
          BoolCirc.evaluate (S fuel) bc ;;;
          label_of gr 2)
     = Returned "&") /\
  run (gr <- and_circuit ;;
       bc <- BoolCirc.init gr false ;;
       BoolCirc.rule_and bc ;;;
       label_of gr 2)
  = Returned "0".
Proof.
  split; [ intro fuel | ]; vm_compute; reflexivity.
Qed.

(** *** Shortest paths (C7, C10) *)

Lemma min_distance_single (u : Z) (d : OpenDigraph.num) (h : heap) :
  OpenDigraph.num_ltb d OpenDigraph.Inf = true ->
  OpenDigraph.min_distance [(u, d)] [u] h = Done (Some u) h.
Proof.
  intro Hd.
  unfold OpenDigraph.min_distance, OpenDigraph.min_scan, OpenDigraph.lookup, bind.
  simpl. rewrite Z.eqb_refl. unfold ret. now rewrite Hd.
Qed.

Lemma dijkstra_to_source (fuel : nat) (self : ref) (u : Z) (h : heap) :
  OpenDigraph.dijkstra (S fuel) self u None (Some u) h
  = Done ([(u, OpenDigraph.Fin 0)], []) h.
Proof.
  unfold OpenDigraph.dijkstra. simpl. unfold bind.
  rewrite min_distance_single by reflexivity.
  simpl. now rewrite Z.eqb_refl.
Qed.

(** C7.  From a node to itself the path is the one-node path, in every
    graph and heap, as soon as the loop may run once.  On the chain
    0 -> 1 -> 2 -> 3 the shortest path from 0 to 3 is [0; 1; 2; 3] and
    [dijkstra] from 0 gives node 3 the distance 3, with or without the
    early exit at the target. *)
Theorem shortest_path_self_and_chain :
  (forall fuel self u h,
     OpenDigraph.shortest_path (S fuel) self u u h = Done [u] h) /\
  (forall fuel,
     run (gr <- chain4 ;; OpenDigraph.shortest_path (4 + fuel) gr 0 3)
     = Returned [0; 1; 2; 3]) /\
  (forall fuel,
     run (gr <- chain4 ;;
          r <- OpenDigraph.dijkstra (5 + fuel) gr 0 None None ;;
          ret (PyDict.get 3 (fst r)))
     = Returned (Some (OpenDigraph.Fin 3))) /\
  (forall fuel,
     run (gr <- chain4 ;;
          r <- OpenDigraph.dijkstra (4 + fuel) gr 0 None (Some 3) ;;
          ret (PyDict.get 3 (fst r)))
     = Returned (Some (OpenDigraph.Fin 3))).
Proof.
  split; [ | repeat split; intro fuel; vm_compute; reflexivity ].
  intros fuel self u h.
  unfold OpenDigraph.shortest_path, bind.
  rewrite dijkstra_to_source. simpl.
  now rewrite Z.eqb_refl.
Qed.

(** C10.  On the graph with the single edge 0 -> 1, [dijkstra(1)] in
    both-directions mode returns with the parent 0 written into the
    children dictionary of node 1, and the graph, well formed before the
    call, is not after it; on the chain 0 -> 1 -> 2 -> 3,
    [shortest_path(0, 3)] leaves node 1 with the extra child 0 and node 2
    with the extra child 1.  [neighbors] is the children dictionary itself,
    not a copy of it. *)
Theorem dijkstra_writes_parents_into_children :
  (forall fuel,
     run (gr <- edge01 ;;
          before <- OpenDigraph.children_of gr 1 ;;
          OpenDigraph.dijkstra (3 + fuel) gr 1 None None ;;;
          after <- OpenDigraph.children_of gr 1 ;;
          ret (before, after))
     = Returned ([], [(0, 1)])) /\
  (forall fuel,
     run (gr <- edge01 ;;
          before <- OpenDigraph.is_well_formed gr ;;
          OpenDigraph.dijkstra (3 + fuel) gr 1 None None ;;;
          after <- OpenDigraph.is_well_formed gr ;;
          ret (before, after))
     = Returned (true, false)) /\
  (forall fuel,
     run (gr <- chain4 ;;
          b1 <- OpenDigraph.children_of gr 1 ;;
          b2 <- OpenDigraph.children_of gr 2 ;;
          OpenDigraph.shortest_path (4 + fuel) gr 0 3 ;;;
          a1 <- OpenDigraph.children_of gr 1 ;;
          a2 <- OpenDigraph.children_of gr 2 ;;
          ret (b1, b2, (a1, a2)))
     = Returned ([(2, 1)], [(3, 1)], ([(2, 1); (0, 1)], [(3, 1); (1, 1)]))).
Proof.
  repeat split; intro fuel; vm_compute; reflexivity.
Qed.

(** *** Accessors on an absent id (C8) *)

Lemma select_nodes_skips (d : PyDict.t ref) (i : Z) (ids : list Z) :
  PyDict.get i d = None ->
  OpenDigraph.select_nodes d ids
  = OpenDigraph.select_nodes d (filter (fun j => negb (j =? i)) ids).
Proof.
  intro Habs.
  induction ids as [|j ids IH]; simpl; [reflexivity|].
  destruct (Z.eqb_spec j i) as [->|Hne]; simpl.
  - now rewrite Habs.
  - destruct (PyDict.get j d); now rewrite IH.
Qed.

(** C8, the claim as stated fails: on the graph with nodes 0 and 1,
    [get_nodes_by_ids([0, 5, 1])] returns the nodes 0 and 1 and raises
    nothing for the absent id 5. *)
Lemma get_nodes_by_ids_skips_absent_id :
  run (gr <- edge01 ;;
       ns <- OpenDigraph.get_nodes_by_ids gr [0; 5; 1] ;;
       map_M Node.get_id ns)
  = Returned [0; 1].
Proof. vm_compute; reflexivity. Qed.

Lemma select_nodes_spec (d : PyDict.t ref) (ids : list Z) :
  Forall2 (fun j r => PyDict.get j d = Some r)
    (filter (fun j => PyDict.contains j d) ids)
    (OpenDigraph.select_nodes d ids).
Proof.
  induction ids as [|j ids IH]; [constructor|].
  cbn [filter OpenDigraph.select_nodes]. unfold PyDict.contains.
  destruct (PyDict.get j d) as [r|] eqn:Hj; [|exact IH].
  constructor; [exact Hj | exact IH].
Qed.

Lemma filter_present_only_absent (d : PyDict.t ref) (i : Z) (ids : list Z) :
  PyDict.get i d = None ->
  Forall (fun j => j = i \/ PyDict.contains j d = true) ids ->
  filter (fun j => PyDict.contains j d) ids
  = filter (fun j => negb (j =? i)) ids.
Proof.
  intros Habs Hall. induction Hall as [|j ids Hj _ IH]; [reflexivity|].
  cbn [filter]. rewrite IH. destruct (Z.eqb_spec j i) as [->|Hne].
  - unfold PyDict.contains. now rewrite Habs.
  - destruct Hj as [->|Hj]; [contradiction|]. now rewrite Hj.
Qed.

(** C8, amended.  For an id [i] that is not a key of the node map,
    [get_node_by_id] raises KeyError on that id and leaves the heap as it
    was, while [get_nodes_by_ids] returns normally on every list of ids,
    with the heap unchanged: its result is, in order, the node filed under
    each id of the list that is a key, so it is the same as on the list
    without [i], and when [i] is the only absent id it is the list of the
    nodes of all the remaining ids. *)
Theorem absent_id_raises_or_is_skipped
  (h : heap) (self : ref) (gr : graph_obj) (i : Z) :
  nth_error (h_graphs h) self = Some gr ->
  PyDict.get i (nodes gr) = None ->
  OpenDigraph.get_node_by_id self i h = Raise (KeyError (Some i)) h /\
  forall ids,
    exists ns,
      OpenDigraph.get_nodes_by_ids self ids h = Done ns h /\
      OpenDigraph.get_nodes_by_ids self
        (filter (fun j => negb (j =? i)) ids) h = Done ns h /\
      Forall2 (fun j r => PyDict.get j (nodes gr) = Some r)
        (filter (fun j => PyDict.contains j (nodes gr)) ids) ns /\
      (Forall (fun j => j = i \/ PyDict.contains j (nodes gr) = true) ids ->
       Forall2 (fun j r => PyDict.get j (nodes gr) = Some r)
         (filter (fun j => negb (j =? i)) ids) ns).
Proof.
  intros Hgr Habs.
  unfold OpenDigraph.get_node_by_id, OpenDigraph.get_nodes_by_ids,
    bind, read_graph, of_option.
  rewrite Hgr, Habs. split; [reflexivity|].
  intro ids. unfold ret.
  exists (OpenDigraph.select_nodes (nodes gr) ids).
  split; [reflexivity|]. split.
  - now rewrite <- select_nodes_skips.
  - split; [apply select_nodes_spec|].
    intro Hall.
    rewrite <- (filter_present_only_absent _ _ _ Habs Hall).
    apply select_nodes_spec.
Qed.

(** The amended C8 on the graph 0 -> 3 -> 7, the absent id 5 and the list
    [0; 5; 7]: the result holds the nodes filed under 0 and 7, in that
    order. *)
Lemma absent_id_witness :
  OpenDigraph.get_node_by_id 0%nat 5 sample_heap
  = Raise (KeyError (Some 5)) sample_heap /\
  exists ns,
    OpenDigraph.get_nodes_by_ids 0%nat [0; 5; 7] sample_heap
    = Done ns sample_heap /\
    OpenDigraph.get_nodes_by_ids 0%nat
      (filter (fun j => negb (j =? 5)) [0; 5; 7]) sample_heap
    = Done ns sample_heap /\
    Forall2 (fun j r => PyDict.get j (nodes sample_graph) = Some r)
      (filter (fun j => PyDict.contains j (nodes sample_graph)) [0; 5; 7])
      ns /\
    Forall2 (fun j r => PyDict.get j (nodes sample_graph) = Some r)
      [0; 7] ns.
Proof.
  destruct (absent_id_raises_or_is_skipped sample_heap 0%nat sample_graph 5
              eq_refl eq_refl) as [Hraise Hskip].
  split; [exact Hraise|].
  destruct (Hskip [0; 5; 7]) as (ns & Hrun & Hsame & Hall & Hrest).
  exists ns. split; [exact Hrun|]. split; [exact Hsame|].
  split; [exact Hall|].
  apply Hrest.
  repeat constructor; (now left) || (now right).
Defined.

(** *** Fresh ids (C9) *)

Lemma max_of_ge_first (l : list Z) (x : Z) : x <= max_of x l.
Proof.
  unfold max_of. revert x.
  induction l as [|z l IH]; intro x; simpl; [lia|].
  specialize (IH (Z.max x z)). lia.
Qed.

Lemma max_of_ge_each (l : list Z) (x y : Z) : In y l -> y <= max_of x l.
Proof.
  unfold max_of. revert x.
  induction l as [|z l IH]; intros x Hin; simpl in *; [contradiction|].
  destruct Hin as [->|Hin].
  - pose proof (max_of_ge_first l (Z.max x y)) as H.
    unfold max_of in H. lia.
  - now apply IH.
Qed.

Lemma max_of_attained (l : list Z) (x : Z) : In (max_of x l) (x :: l).
Proof.
  unfold max_of. revert x.
  induction l as [|z l IH]; intro x; simpl; [now left|].
  destruct (Z.max_spec x z) as [[_ Hm]|[_ Hm]]; rewrite Hm.
  - right. apply IH.
  - destruct (IH x) as [Heq|Hin]; [now left | now right; right].
Qed.

(** C9.  [new_id] only reads the graph.  When some id is in use, among the
    inputs, the outputs or the node keys, the result is strictly greater
    than every id in use and no smaller integer is; when none is, the
    result is 0. *)
Theorem new_id_is_least_fresh
  (h : heap) (self : ref) (gr : graph_obj) :
  nth_error (h_graphs h) self = Some gr ->
  exists n,
    OpenDigraph.new_id self h = Done n h /\
    (forall x, In x (used_ids gr) -> x < n) /\
    (used_ids gr <> [] ->
     forall m, (forall x, In x (used_ids gr) -> x < m) -> n <= m) /\
    (inputs gr = [] -> outputs gr = [] -> nodes gr = [] -> n = 0).
Proof.
  intro Hgr.
  assert (Hread : read_graph self h = Done gr h)
    by (unfold read_graph, of_option; now rewrite Hgr).
  unfold OpenDigraph.new_id, OpenDigraph.get_input_ids,
    OpenDigraph.get_output_ids, OpenDigraph.get_node_ids, bind.
  rewrite Hread. unfold ret. rewrite Hread, Hread.
  fold (used_ids gr).
  destruct (used_ids gr) as [|x l] eqn:Hused.
  - exists 0. split; [reflexivity|]. split; [intros x []|].
    split; [intros Hne; now destruct Hne | reflexivity].
  - exists (max_of x l + 1). repeat split.
    + intros y [<-|Hin].
      * pose proof (max_of_ge_first l x). lia.
      * pose proof (max_of_ge_each l x y Hin). lia.
    + intros _ m Hm.
      specialize (Hm (max_of x l) (max_of_attained l x)). lia.
    + intros Hi Ho Hn. unfold used_ids in Hused.
      rewrite Hi, Ho, Hn in Hused. discriminate.
Qed.

(** C9 on the graph 0 -> 3 -> 7, where the ids in use are 0, 3 and 7. *)
Lemma new_id_witness :
  exists n,
    OpenDigraph.new_id 0%nat sample_heap = Done n sample_heap /\
    (forall x, In x (used_ids sample_graph) -> x < n) /\
    (used_ids sample_graph <> [] ->
     forall m, (forall x, In x (used_ids sample_graph) -> x < m) -> n <= m) /\
    (inputs sample_graph = [] -> outputs sample_graph = [] ->
     nodes sample_graph = [] -> n = 0).
Proof.
  apply (new_id_is_least_fresh sample_heap 0%nat sample_graph).
  reflexivity.
Defined.

(** On the empty graph made by [OpenDigraph.empty] the first id is 0; on
    the graph 0 -> 3 -> 7 the next id is 8. *)
Lemma new_id_examples :
  run (gr <- OpenDigraph.empty ;; OpenDigraph.new_id gr) = Returned 0 /\
  run (gr <- sample ;; OpenDigraph.new_id gr) = Returned 8.
Proof. split; vm_compute; reflexivity. Qed.

(* ===================================================================== *)
(** ** Further properties: heap and dictionary lemmas                      *)
(* ===================================================================== *)

Lemma update_same {A} (l : list A) (r : nat) (x : A) :
  nth_error l r = Some x -> update r x l = l.
Proof.
  revert r. induction l as [|y l IH]; intros [|r] H; simpl in *;
    try discriminate; try reflexivity.
  - now inversion H.
  - now rewrite IH.
Qed.

Lemma update_update {A} (l : list A) (r : nat) (x y : A) :
  update r x (update r y l) = update r x l.
Proof.
  revert r. induction l as [|z l IH]; intros [|r]; simpl; try reflexivity.
  now rewrite IH.
Qed.

Lemma nth_error_update_eq {A} (l : list A) (r : nat) (x y : A) :
  nth_error l r = Some y -> nth_error (update r x l) r = Some x.
Proof.
  revert r. induction l as [|z l IH]; intros [|r] H; simpl in *;
    try discriminate; try reflexivity.
  now apply IH.
Qed.

Lemma nth_error_update_neq {A} (l : list A) (r r' : nat) (x : A) :
  r <> r' -> nth_error (update r x l) r' = nth_error l r'.
Proof.
  revert r r'. induction l as [|z l IH]; intros [|r] [|r'] H; simpl;
    try reflexivity; try congruence.
  apply IH. congruence.
Qed.

Lemma length_update {A} (l : list A) (r : nat) (x : A) :
  List.length (update r x l) = List.length l.
Proof.
  revert r. induction l as [|z l IH]; intros [|r]; simpl; try reflexivity.
  now rewrite IH.
Qed.

Lemma with_dict_same (h : heap) (r : ref) (d : PyDict.t Z) :
  nth_error (h_dicts h) r = Some d -> with_dict r d h = h.
Proof.
  intro H. unfold with_dict. rewrite (update_same _ _ _ H). now destruct h.
Qed.

Lemma with_graph_same (h : heap) (r : ref) (gr : graph_obj) :
  nth_error (h_graphs h) r = Some gr -> with_graph r gr h = h.
Proof.
  intro H. unfold with_graph. rewrite (update_same _ _ _ H). now destruct h.
Qed.

Lemma get_set_same {V} (k : Z) (v : V) (d : PyDict.t V) :
  PyDict.get k (PyDict.set k v d) = Some v.
Proof.
  induction d as [|[k' v'] d IH]; simpl.
  - now rewrite Z.eqb_refl.
  - destruct (Z.eqb_spec k' k) as [->|Hne]; simpl.
    + now rewrite Z.eqb_refl.
    + destruct (Z.eqb_spec k' k); [contradiction | exact IH].
Qed.

Lemma get_set_other {V} (k k' : Z) (v : V) (d : PyDict.t V) :
  k <> k' -> PyDict.get k' (PyDict.set k v d) = PyDict.get k' d.
Proof.
  intro Hne. induction d as [|[k0 v0] d IH]; simpl.
  - destruct (Z.eqb_spec k k'); [contradiction | reflexivity].
  - destruct (Z.eqb_spec k0 k) as [->|H0]; simpl.
    + destruct (Z.eqb_spec k k'); [contradiction | reflexivity].
    + destruct (Z.eqb_spec k0 k'); [reflexivity | exact IH].
Qed.

Lemma set_unchanged {V} (k : Z) (v : V) (d : PyDict.t V) :
  PyDict.get k d = Some v -> PyDict.set k v d = d.
Proof.
  induction d as [|[k' v'] d IH]; simpl; [discriminate|].
  destruct (Z.eqb_spec k' k) as [->|Hne]; intro H.
  - now inversion H.
  - now rewrite IH.
Qed.

Lemma set_set {V} (k : Z) (v w : V) (d : PyDict.t V) :
  PyDict.set k v (PyDict.set k w d) = PyDict.set k v d.
Proof.
  induction d as [|[k' v'] d IH]; simpl.
  - now rewrite Z.eqb_refl.
  - destruct (Z.eqb_spec k' k) as [->|Hne]; simpl.
    + now rewrite Z.eqb_refl.
    + destruct (Z.eqb_spec k' k); [contradiction | now rewrite IH].
Qed.

Lemma set_absent {V} (k : Z) (v : V) (d : PyDict.t V) :
  PyDict.get k d = None -> PyDict.set k v d = d ++ [(k, v)].
Proof.
  induction d as [|[k' v'] d IH]; simpl; [reflexivity|].
  destruct (Z.eqb_spec k' k); [discriminate|].
  intro H. now rewrite IH.
Qed.

Lemma del_set_absent {V} (k : Z) (v : V) (d : PyDict.t V) :
  PyDict.get k d = None -> PyDict.del k (PyDict.set k v d) = d.
Proof.
  induction d as [|[k' v'] d IH]; simpl.
  - now rewrite Z.eqb_refl.
  - destruct (Z.eqb_spec k' k) as [->|Hne]; [discriminate|].
    intro H. simpl. destruct (Z.eqb_spec k' k); [contradiction|].
    now rewrite IH.
Qed.

Lemma del_absent {V} (k : Z) (d : PyDict.t V) :
  PyDict.get k d = None -> PyDict.del k d = d.
Proof.
  induction d as [|[k' v'] d IH]; simpl; [reflexivity|].
  destruct (Z.eqb_spec k' k); [discriminate|].
  intro H. now rewrite IH.
Qed.

Lemma len_set {V} (k : Z) (v : V) (d : PyDict.t V) :
  PyDict.len (PyDict.set k v d)
  = if PyDict.contains k d then PyDict.len d else PyDict.len d + 1.
Proof.
  unfold PyDict.len, PyDict.contains.
  induction d as [|[k' v'] d IH]; simpl; [reflexivity|].
  destruct (Z.eqb_spec k' k) as [->|Hne]; simpl; [reflexivity|].
  destruct (PyDict.get k d); simpl in *; lia.
Qed.

Lemma get_In {V} (k : Z) (v : V) (d : PyDict.t V) :
  PyDict.get k d = Some v -> In (k, v) d.
Proof.
  induction d as [|[k' v'] d IH]; simpl; [discriminate|].
  destruct (Z.eqb_spec k' k) as [->|Hne]; intro H.
  - left. now inversion H.
  - right. now apply IH.
Qed.

Lemma mem_keys {V} (k : Z) (d : PyDict.t V) :
  mem k (PyDict.keys d) = PyDict.contains k d.
Proof.
  unfold mem, PyDict.keys, PyDict.contains.
  induction d as [|[k' v'] d IH]; simpl; [reflexivity|].
  rewrite (Z.eqb_sym k k').
  destruct (Z.eqb_spec k' k); simpl; [reflexivity | exact IH].
Qed.

Lemma contains_get {V} (k : Z) (d : PyDict.t V) :
  PyDict.contains k d = true <-> exists v, PyDict.get k d = Some v.
Proof.
  unfold PyDict.contains. destruct (PyDict.get k d) as [v|].
  - split; [now exists v | reflexivity].
  - split; [discriminate | now intros [v Hv]].
Qed.

(** *** Running the primitive steps *)

Lemma bind_done {A B} (c : M A) (k : A -> M B) (h h' : heap) (a : A) :
  c h = Done a h' -> bind c k h = k a h'.
Proof. intro H. unfold bind. now rewrite H. Qed.

Lemma bind_raise {A B} (c : M A) (k : A -> M B) (h h' : heap) (e : exn) :
  c h = Raise e h' -> bind c k h = Raise e h'.
Proof. intro H. unfold bind. now rewrite H. Qed.

Lemma read_dict_at (h : heap) (r : ref) (d : PyDict.t Z) :
  nth_error (h_dicts h) r = Some d -> read_dict r h = Done d h.
Proof. intro H. unfold read_dict, of_option. now rewrite H. Qed.

Lemma read_node_at (h : heap) (r : ref) (n : node_obj) :
  nth_error (h_nodes h) r = Some n -> read_node r h = Done n h.
Proof. intro H. unfold read_node, of_option. now rewrite H. Qed.

Lemma read_graph_at (h : heap) (r : ref) (gr : graph_obj) :
  nth_error (h_graphs h) r = Some gr -> read_graph r h = Done gr h.
Proof. intro H. unfold read_graph, of_option. now rewrite H. Qed.

Lemma get_children_at (h : heap) (self : ref) (n : node_obj) :
  nth_error (h_nodes h) self = Some n ->
  Node.get_children self h = Done (node_children n) h.
Proof.
  intro H. unfold Node.get_children.
  now rewrite (bind_done _ _ _ _ _ (read_node_at _ _ _ H)).
Qed.

Lemma get_parents_at (h : heap) (self : ref) (n : node_obj) :
  nth_error (h_nodes h) self = Some n ->
  Node.get_parents self h = Done (node_parents n) h.
Proof.
  intro H. unfold Node.get_parents.
  now rewrite (bind_done _ _ _ _ _ (read_node_at _ _ _ H)).
Qed.

Lemma get_id_at (h : heap) (self : ref) (n : node_obj) :
  nth_error (h_nodes h) self = Some n ->
  Node.get_id self h = Done (node_id n) h.
Proof.
  intro H. unfold Node.get_id.
  now rewrite (bind_done _ _ _ _ _ (read_node_at _ _ _ H)).
Qed.

Lemma get_label_at (h : heap) (self : ref) (n : node_obj) :
  nth_error (h_nodes h) self = Some n ->
  Node.get_label self h = Done (node_label n) h.
Proof.
  intro H. unfold Node.get_label.
  now rewrite (bind_done _ _ _ _ _ (read_node_at _ _ _ H)).
Qed.

Lemma incr_at (h : heap) (d : ref) (m : PyDict.t Z) (k : Z) :
  nth_error (h_dicts h) d = Some m ->
  Node.incr d k h
  = Done tt (with_dict d (PyDict.set k (multiplicity k m + 1) m) h).
Proof.
  intro H. unfold Node.incr, multiplicity.
  rewrite (bind_done _ _ _ _ _ (read_dict_at _ _ _ H)).
  now destruct (PyDict.get k m).
Qed.

Lemma decr_at (h : heap) (d : ref) (m : PyDict.t Z) (k : Z) :
  nth_error (h_dicts h) d = Some m ->
  Node.decr d k h
  = Done tt
      match PyDict.get k m with
      | Some c =>
          if c <=? 1 then with_dict d (PyDict.del k m) h
          else with_dict d (PyDict.set k (c - 1) m) h
      | None => h
      end.
Proof.
  intro H. unfold Node.decr.
  rewrite (bind_done _ _ _ _ _ (read_dict_at _ _ _ H)).
  destruct (PyDict.get k m) as [c|]; [|reflexivity].
  now destruct (c <=? 1).
Qed.

Lemma drop_at (h : heap) (d : ref) (m : PyDict.t Z) (k : Z) :
  nth_error (h_dicts h) d = Some m ->
  Node.drop d k h
  = Done tt (if PyDict.contains k m then with_dict d (PyDict.del k m) h
             else h).
Proof.
  intro H. unfold Node.drop.
  rewrite (bind_done _ _ _ _ _ (read_dict_at _ _ _ H)).
  now destruct (PyDict.contains k m).
Qed.

Lemma dict_after_write (h : heap) (r : ref) (d d' : PyDict.t Z) :
  nth_error (h_dicts h) r = Some d ->
  nth_error (h_dicts (with_dict r d' h)) r = Some d'.
Proof. intro H. simpl. now apply nth_error_update_eq with d. Qed.

Lemma dict_elsewhere (h : heap) (r r' : ref) (d' : PyDict.t Z) :
  r <> r' ->
  nth_error (h_dicts (with_dict r d' h)) r' = nth_error (h_dicts h) r'.
Proof. intro H. simpl. now apply nth_error_update_neq. Qed.

Lemma with_dict_twice (h : heap) (r : ref) (d d' : PyDict.t Z) :
  with_dict r d (with_dict r d' h) = with_dict r d h.
Proof. unfold with_dict. simpl. now rewrite update_update. Qed.

(** *** Nodes *)

(** One occurrence added to a dictionary and taken away again. *)
Lemma incr_then_decr (h : heap) (d : ref) (m : PyDict.t Z) (k : Z) :
  nth_error (h_dicts h) d = Some m ->
  (forall c, PyDict.get k m = Some c -> 1 <= c) ->
  (Node.incr d k ;;; Node.decr d k) h = Done tt h.
Proof.
  intros Hd Hpos.
  rewrite (bind_done _ _ _ _ _ (incr_at _ _ _ k Hd)).
  rewrite (decr_at _ _ _ k (dict_after_write _ _ _ _ Hd)).
  rewrite get_set_same. unfold multiplicity.
  destruct (PyDict.get k m) as [c|] eqn:Hget.
  - specialize (Hpos c eq_refl).
    destruct (Z.leb_spec (c + 1) 1) as [Hle|_]; [lia|].
    rewrite with_dict_twice, set_set.
    replace (c + 1 - 1) with c by lia.
    rewrite (set_unchanged _ _ _ Hget).
    now rewrite (with_dict_same _ _ _ Hd).
  - simpl. rewrite with_dict_twice, (del_set_absent _ _ _ Hget).
    now rewrite (with_dict_same _ _ _ Hd).
Qed.

Lemma add_child_id_at (h : heap) (self : ref) (n : node_obj) (k : Z) :
  nth_error (h_nodes h) self = Some n ->
  Node.add_child_id self k h = Node.incr (node_children n) k h.
Proof. intro H. exact (bind_done _ _ _ _ _ (get_children_at _ _ _ H)). Qed.

Lemma add_parent_id_at (h : heap) (self : ref) (n : node_obj) (k : Z) :
  nth_error (h_nodes h) self = Some n ->
  Node.add_parent_id self k h = Node.incr (node_parents n) k h.
Proof. intro H. exact (bind_done _ _ _ _ _ (get_parents_at _ _ _ H)). Qed.

Lemma remove_child_once_at (h : heap) (self : ref) (n : node_obj) (k : Z) :
  nth_error (h_nodes h) self = Some n ->
  Node.remove_child_once self k h = Node.decr (node_children n) k h.
Proof. intro H. exact (bind_done _ _ _ _ _ (get_children_at _ _ _ H)). Qed.

Lemma remove_parent_once_at (h : heap) (self : ref) (n : node_obj) (k : Z) :
  nth_error (h_nodes h) self = Some n ->
  Node.remove_parent_once self k h = Node.decr (node_parents n) k h.
Proof. intro H. exact (bind_done _ _ _ _ _ (get_parents_at _ _ _ H)). Qed.

Lemma remove_child_id_at (h : heap) (self : ref) (n : node_obj) (k : Z) :
  nth_error (h_nodes h) self = Some n ->
  Node.remove_child_id self k h = Node.drop (node_children n) k h.
Proof. intro H. exact (bind_done _ _ _ _ _ (get_children_at _ _ _ H)). Qed.

Lemma remove_parent_id_at (h : heap) (self : ref) (n : node_obj) (k : Z) :
  nth_error (h_nodes h) self = Some n ->
  Node.remove_parent_id self k h = Node.drop (node_parents n) k h.
Proof. intro H. exact (bind_done _ _ _ _ _ (get_parents_at _ _ _ H)). Qed.

(** X1.  Adding a child (or a parent) once and removing one occurrence of
    it gives back the heap exactly as it was, for a neighbour that was
    absent or was recorded with a multiplicity of at least 1. *)
Theorem add_then_remove_once_restores
  (h : heap) (self : ref) (n : node_obj) (cs ps : PyDict.t Z) (k : Z) :
  nth_error (h_nodes h) self = Some n ->
  nth_error (h_dicts h) (node_children n) = Some cs ->
  nth_error (h_dicts h) (node_parents n) = Some ps ->
  (forall c, PyDict.get k cs = Some c -> 1 <= c) ->
  (forall c, PyDict.get k ps = Some c -> 1 <= c) ->
  (Node.add_child_id self k ;;; Node.remove_child_once self k) h = Done tt h /\
  (Node.add_parent_id self k ;;; Node.remove_parent_once self k) h = Done tt h.
Proof.
  intros Hn Hcs Hps Hc Hp. split.
  - rewrite <- (incr_then_decr h _ _ k Hcs Hc).
    unfold bind. rewrite (add_child_id_at _ _ _ k Hn), (incr_at _ _ _ k Hcs).
    now apply remove_child_once_at.
  - rewrite <- (incr_then_decr h _ _ k Hps Hp).
    unfold bind. rewrite (add_parent_id_at _ _ _ k Hn), (incr_at _ _ _ k Hps).
    now apply remove_parent_once_at.
Qed.

(** X1 on node 3 of the graph 0 -> 3 -> 7: its child 7 has multiplicity 1
    and 7 is not among its parents. *)
Lemma add_then_remove_once_witness :
  (Node.add_child_id 1%nat 7 ;;; Node.remove_child_once 1%nat 7) sample_heap
  = Done tt sample_heap /\
  (Node.add_parent_id 1%nat 7 ;;; Node.remove_parent_once 1%nat 7) sample_heap
  = Done tt sample_heap.
Proof.
  apply (add_then_remove_once_restores sample_heap 1%nat
           (mk_node 3 "" 2%nat 3%nat) [(7, 1)] [(0, 1)] 7);
    try reflexivity; intros c Hc; simpl in Hc; inversion Hc; lia.
Defined.

Lemma outdegree_at (h : heap) (self : ref) (n : node_obj) (cs : PyDict.t Z) :
  nth_error (h_nodes h) self = Some n ->
  nth_error (h_dicts h) (node_children n) = Some cs ->
  Node.outdegree self h = Done (PyDict.len cs) h.
Proof.
  intros Hn Hcs. unfold Node.outdegree.
  rewrite (bind_done _ _ _ _ _ (get_children_at _ _ _ Hn)).
  now rewrite (bind_done _ _ _ _ _ (read_dict_at _ _ _ Hcs)).
Qed.

Lemma indegree_at (h : heap) (self : ref) (n : node_obj) (ps : PyDict.t Z) :
  nth_error (h_nodes h) self = Some n ->
  nth_error (h_dicts h) (node_parents n) = Some ps ->
  Node.indegree self h = Done (PyDict.len ps) h.
Proof.
  intros Hn Hps. unfold Node.indegree.
  rewrite (bind_done _ _ _ _ _ (get_parents_at _ _ _ Hn)).
  now rewrite (bind_done _ _ _ _ _ (read_dict_at _ _ _ Hps)).
Qed.

(** X2.  The degrees count distinct neighbours, not parallel edges: one
    more occurrence of a child already present leaves the outdegree as it
    is, a new child adds one; likewise for parents and the indegree. *)
Theorem degrees_count_distinct_neighbours
  (h : heap) (self : ref) (n : node_obj) (cs ps : PyDict.t Z) (k : Z) :
  nth_error (h_nodes h) self = Some n ->
  nth_error (h_dicts h) (node_children n) = Some cs ->
  nth_error (h_dicts h) (node_parents n) = Some ps ->
  (exists h',
     (Node.add_child_id self k ;;; Node.outdegree self) h
     = Done (if PyDict.contains k cs then PyDict.len cs
             else PyDict.len cs + 1) h') /\
  (exists h',
     (Node.add_parent_id self k ;;; Node.indegree self) h
     = Done (if PyDict.contains k ps then PyDict.len ps
             else PyDict.len ps + 1) h').
Proof.
  intros Hn Hcs Hps. split; eexists.
  - assert (Hadd := add_child_id_at _ _ _ k Hn).
    rewrite (incr_at _ _ _ k Hcs) in Hadd.
    rewrite (bind_done _ _ _ _ _ Hadd).
    erewrite outdegree_at;
      [ | exact Hn | eapply dict_after_write; exact Hcs ].
    now rewrite len_set.
  - assert (Hadd := add_parent_id_at _ _ _ k Hn).
    rewrite (incr_at _ _ _ k Hps) in Hadd.
    rewrite (bind_done _ _ _ _ _ Hadd).
    erewrite indegree_at;
      [ | exact Hn | eapply dict_after_write; exact Hps ].
    now rewrite len_set.
Qed.

(** X2 on node 3 of the graph 0 -> 3 -> 7 and the neighbour 7. *)
Lemma degrees_witness :
  (exists h',
     (Node.add_child_id 1%nat 7 ;;; Node.outdegree 1%nat) sample_heap
     = Done (if PyDict.contains 7 [(7, 1)] then PyDict.len [(7, 1)]
             else PyDict.len [(7, 1)] + 1) h') /\
  (exists h',
     (Node.add_parent_id 1%nat 7 ;;; Node.indegree 1%nat) sample_heap
     = Done (if PyDict.contains 7 [(0, 1)] then PyDict.len [(0, 1)]
             else PyDict.len [(0, 1)] + 1) h').
Proof.
  apply (degrees_count_distinct_neighbours sample_heap 1%nat
           (mk_node 3 "" 2%nat 3%nat) [(7, 1)] [(0, 1)] 7); reflexivity.
Defined.

(** *** Graph mutation: rejected calls *)

Lemma get_node_ids_at (h : heap) (self : ref) (gr : graph_obj) :
  nth_error (h_graphs h) self = Some gr ->
  OpenDigraph.get_node_ids self h = Done (PyDict.keys (nodes gr)) h.
Proof.
  intro H. unfold OpenDigraph.get_node_ids.
  now rewrite (bind_done _ _ _ _ _ (read_graph_at _ _ _ H)).
Qed.

Lemma get_node_by_id_at (h : heap) (self : ref) (gr : graph_obj)
  (k : Z) (r : ref) :
  nth_error (h_graphs h) self = Some gr ->
  PyDict.get k (nodes gr) = Some r ->
  OpenDigraph.get_node_by_id self k h = Done r h.
Proof.
  intros H Hk. unfold OpenDigraph.get_node_by_id.
  rewrite (bind_done _ _ _ _ _ (read_graph_at _ _ _ H)). now rewrite Hk.
Qed.

(** X3.  When either endpoint is not a node of the graph, [add_edge],
    [remove_edge] and [remove_parallel_edges] raise
    ValueError("src or tgt doesn't exist") and leave the heap untouched;
    [merge_nodes] does the same with its own message. *)
Theorem missing_endpoint_is_rejected
  (h : heap) (self : ref) (gr : graph_obj) (src tgt : Z) :
  nth_error (h_graphs h) self = Some gr ->
  PyDict.contains src (nodes gr) = false \/
  PyDict.contains tgt (nodes gr) = false ->
  OpenDigraph.add_edge self src tgt h = Raise OpenDigraph.no_endpoint h /\
  OpenDigraph.remove_edge self src tgt h = Raise OpenDigraph.no_endpoint h /\
  OpenDigraph.remove_parallel_edges self src tgt h
  = Raise OpenDigraph.no_endpoint h /\
  forall label,
    OpenDigraph.merge_nodes self src tgt label h
    = Raise (ValueError "Node IDs must be valid nodes in the graph") h.
Proof.
  intros Hgr Habs.
  assert (Hcond : mem src (PyDict.keys (nodes gr))
                  && mem tgt (PyDict.keys (nodes gr)) = false).
  { rewrite !mem_keys. destruct Habs as [-> | ->];
      [reflexivity | apply andb_false_r]. }
  assert (Hcond' : negb (PyDict.contains src (nodes gr))
                   || negb (PyDict.contains tgt (nodes gr)) = true).
  { destruct Habs as [-> | ->]; [reflexivity | apply orb_true_r]. }
  unfold OpenDigraph.add_edge, OpenDigraph.remove_edge,
    OpenDigraph.remove_parallel_edges, OpenDigraph.merge_nodes.
  rewrite !(bind_done _ _ _ _ _ (get_node_ids_at _ _ _ Hgr)).
  rewrite Hcond.
  repeat split. intro label.
  rewrite (bind_done _ _ _ _ _ (read_graph_at _ _ _ Hgr)).
  now rewrite Hcond'.
Qed.

(** X3 on the graph 0 -> 3 -> 7 with the absent node 5 as target. *)
Lemma missing_endpoint_witness :
  OpenDigraph.add_edge 0%nat 0 5 sample_heap
  = Raise OpenDigraph.no_endpoint sample_heap /\
  OpenDigraph.remove_edge 0%nat 0 5 sample_heap
  = Raise OpenDigraph.no_endpoint sample_heap /\
  OpenDigraph.remove_parallel_edges 0%nat 0 5 sample_heap
  = Raise OpenDigraph.no_endpoint sample_heap /\
  forall label,
    OpenDigraph.merge_nodes 0%nat 0 5 label sample_heap
    = Raise (ValueError "Node IDs must be valid nodes in the graph")
            sample_heap.
Proof.
  apply (missing_endpoint_is_rejected sample_heap 0%nat sample_graph 0 5);
    [reflexivity | right; reflexivity].
Defined.

(** *** Graph mutation: edges *)

Lemma update_comm {A} (l : list A) (r r' : nat) (x y : A) :
  r <> r' -> update r x (update r' y l) = update r' y (update r x l).
Proof.
  revert r r'. induction l as [|z l IH]; intros [|r] [|r'] H; simpl;
    try reflexivity; try congruence.
  rewrite IH; [reflexivity | congruence].
Qed.

Lemma with_dict_comm (h : heap) (r r' : ref) (d d' : PyDict.t Z) :
  r <> r' ->
  with_dict r d (with_dict r' d' h) = with_dict r' d' (with_dict r d h).
Proof. intro H. unfold with_dict. simpl. now rewrite update_comm. Qed.

Section Edge.
Variables (h : heap) (self : ref) (gr : graph_obj).
Variables (src tgt : Z) (rs rt : ref) (ns nt : node_obj).
Variables (dc dp : PyDict.t Z).

Hypothesis Hgr : nth_error (h_graphs h) self = Some gr.
Hypothesis Hsrc : PyDict.get src (nodes gr) = Some rs.
Hypothesis Htgt : PyDict.get tgt (nodes gr) = Some rt.
Hypothesis Hns : nth_error (h_nodes h) rs = Some ns.
Hypothesis Hnt : nth_error (h_nodes h) rt = Some nt.
Hypothesis Hdc : nth_error (h_dicts h) (node_children ns) = Some dc.
Hypothesis Hdp : nth_error (h_dicts h) (node_parents nt) = Some dp.
Hypothesis Hsep : node_children ns <> node_parents nt.

Let dc' := PyDict.set tgt (multiplicity tgt dc + 1) dc.
Let dp' := PyDict.set src (multiplicity src dp + 1) dp.

Lemma endpoints_present :
  mem src (PyDict.keys (nodes gr)) && mem tgt (PyDict.keys (nodes gr))
  = true.
Proof.
  rewrite !mem_keys. unfold PyDict.contains. now rewrite Hsrc, Htgt.
Qed.

Lemma add_edge_at :
  OpenDigraph.add_edge self src tgt h
  = Done tt (with_dict (node_parents nt) dp'
               (with_dict (node_children ns) dc' h)).
Proof.
  unfold OpenDigraph.add_edge.
  rewrite (bind_done _ _ _ _ _ (get_node_ids_at _ _ _ Hgr)).
  rewrite endpoints_present.
  rewrite (bind_done _ _ _ _ _ (get_node_by_id_at _ _ _ _ _ Hgr Hsrc)).
  assert (Hadd := add_child_id_at _ _ _ tgt Hns).
  rewrite (incr_at _ _ _ tgt Hdc) in Hadd.
  rewrite (bind_done _ _ _ _ _ Hadd).
  erewrite bind_done;
    [ | eapply get_node_by_id_at; [exact Hgr | exact Htgt] ].
  erewrite add_parent_id_at; [ | exact Hnt ].
  erewrite incr_at; [ reflexivity | ].
  rewrite dict_elsewhere; [exact Hdp | exact Hsep].
Qed.

Lemma remove_parallel_edges_at (h0 : heap) (d1 d2 : PyDict.t Z) :
  h_graphs h0 = h_graphs h ->
  h_nodes h0 = h_nodes h ->
  nth_error (h_dicts h0) (node_parents nt) = Some d1 ->
  nth_error (h_dicts h0) (node_children ns) = Some d2 ->
  OpenDigraph.remove_parallel_edges self src tgt h0
  = Done tt (with_dict (node_children ns) (PyDict.del tgt d2)
               (with_dict (node_parents nt) (PyDict.del src d1) h0)).
Proof.
  intros Eg En H1 H2.
  assert (Hgr0 : nth_error (h_graphs h0) self = Some gr)
    by now rewrite Eg.
  assert (Hns0 : nth_error (h_nodes h0) rs = Some ns) by now rewrite En.
  assert (Hnt0 : nth_error (h_nodes h0) rt = Some nt) by now rewrite En.
  unfold OpenDigraph.remove_parallel_edges.
  rewrite (bind_done _ _ _ _ _ (get_node_ids_at _ _ _ Hgr0)).
  rewrite endpoints_present.
  rewrite (bind_done _ _ _ _ _ (get_node_by_id_at _ _ _ _ _ Hgr0 Htgt)).
  assert (Hrem := remove_parent_id_at _ _ _ src Hnt0).
  rewrite (drop_at _ _ _ src H1) in Hrem.
  assert (Hrem' :
    Node.remove_parent_id rt src h0
    = Done tt (with_dict (node_parents nt) (PyDict.del src d1) h0)).
  { rewrite Hrem. destruct (PyDict.contains src d1) eqn:Hc; [reflexivity|].
    unfold PyDict.contains in Hc.
    destruct (PyDict.get src d1) eqn:Hg; [discriminate|].
    rewrite (del_absent _ _ Hg). now rewrite (with_dict_same _ _ _ H1). }
  rewrite (bind_done _ _ _ _ _ Hrem').
  erewrite bind_done;
    [ | eapply get_node_by_id_at; [exact Hgr0 | exact Hsrc] ].
  erewrite remove_child_id_at; [ | exact Hns0 ].
  erewrite drop_at;
    [ | rewrite dict_elsewhere; [exact H2 | now apply not_eq_sym] ].
  destruct (PyDict.contains tgt d2) eqn:Hc; [reflexivity|].
  unfold PyDict.contains in Hc.
  destruct (PyDict.get tgt d2) eqn:Hg; [discriminate|].
  rewrite (del_absent _ _ Hg). f_equal. symmetry. apply with_dict_same.
  rewrite dict_elsewhere; [exact H2 | now apply not_eq_sym].
Qed.

End Edge.

Lemma get_del_other {V} (k k' : Z) (d : PyDict.t V) :
  k <> k' -> PyDict.get k' (PyDict.del k d) = PyDict.get k' d.
Proof.
  intro Hne. induction d as [|[k0 v0] d IH]; simpl; [reflexivity|].
  destruct (Z.eqb_spec k0 k) as [->|H0]; simpl.
  - destruct (Z.eqb_spec k k'); [contradiction | reflexivity].
  - destruct (Z.eqb_spec k0 k'); [reflexivity | exact IH].
Qed.

Lemma get_del_same {V} (k : Z) (d : PyDict.t V) :
  distinct (PyDict.keys d) = true -> PyDict.get k (PyDict.del k d) = None.
Proof.
  induction d as [|[k0 v0] d IH]; simpl; [reflexivity|].
  intro H. apply andb_true_iff in H. destruct H as [Hfresh Hrest].
  destruct (Z.eqb_spec k0 k) as [->|H0]; simpl.
  - apply negb_true_iff in Hfresh. rewrite mem_keys in Hfresh.
    unfold PyDict.contains in Hfresh.
    now destruct (PyDict.get k d).
  - destruct (Z.eqb_spec k0 k); [contradiction | now apply IH].
Qed.

Lemma multiplicity_set_same (k v : Z) (d : PyDict.t Z) :
  multiplicity k (PyDict.set k v d) = v.
Proof. unfold multiplicity. now rewrite get_set_same. Qed.

Lemma children_of_at (h : heap) (self : ref) (gr : graph_obj) (k : Z)
  (r : ref) (n : node_obj) (d : PyDict.t Z) :
  nth_error (h_graphs h) self = Some gr ->
  PyDict.get k (nodes gr) = Some r ->
  nth_error (h_nodes h) r = Some n ->
  nth_error (h_dicts h) (node_children n) = Some d ->
  OpenDigraph.children_of self k h = Done d h.
Proof.
  intros Hgr Hk Hn Hd. unfold OpenDigraph.children_of.
  rewrite (bind_done _ _ _ _ _ (get_node_by_id_at _ _ _ _ _ Hgr Hk)).
  rewrite (bind_done _ _ _ _ _ (get_children_at _ _ _ Hn)).
  now apply read_dict_at.
Qed.

Lemma parents_of_at (h : heap) (self : ref) (gr : graph_obj) (k : Z)
  (r : ref) (n : node_obj) (d : PyDict.t Z) :
  nth_error (h_graphs h) self = Some gr ->
  PyDict.get k (nodes gr) = Some r ->
  nth_error (h_nodes h) r = Some n ->
  nth_error (h_dicts h) (node_parents n) = Some d ->
  OpenDigraph.parents_of self k h = Done d h.
Proof.
  intros Hgr Hk Hn Hd. unfold OpenDigraph.parents_of.
  rewrite (bind_done _ _ _ _ _ (get_node_by_id_at _ _ _ _ _ Hgr Hk)).
  rewrite (bind_done _ _ _ _ _ (get_parents_at _ _ _ Hn)).
  now apply read_dict_at.
Qed.

(** X4.  On two nodes of the graph whose dictionaries are separate
    objects, [add_edge(src, tgt)] returns normally and adds exactly one to
    the multiplicity of [tgt] among the children of [src] and of [src]
    among the parents of [tgt]; every other entry of these two
    dictionaries, every other dictionary, every node and every graph
    object is as before. *)
Theorem add_edge_increments_both_sides
  (h : heap) (self : ref) (gr : graph_obj) (src tgt : Z) (rs rt : ref)
  (ns nt : node_obj) (dc dp : PyDict.t Z) :
  nth_error (h_graphs h) self = Some gr ->
  PyDict.get src (nodes gr) = Some rs ->
  PyDict.get tgt (nodes gr) = Some rt ->
  nth_error (h_nodes h) rs = Some ns ->
  nth_error (h_nodes h) rt = Some nt ->
  nth_error (h_dicts h) (node_children ns) = Some dc ->
  nth_error (h_dicts h) (node_parents nt) = Some dp ->
  node_children ns <> node_parents nt ->
  exists h' dc' dp',
    OpenDigraph.add_edge self src tgt h = Done tt h' /\
    OpenDigraph.children_of self src h' = Done dc' h' /\
    OpenDigraph.parents_of self tgt h' = Done dp' h' /\
    multiplicity tgt dc' = multiplicity tgt dc + 1 /\
    multiplicity src dp' = multiplicity src dp + 1 /\
    (forall k, k <> tgt -> PyDict.get k dc' = PyDict.get k dc) /\
    (forall k, k <> src -> PyDict.get k dp' = PyDict.get k dp) /\
    h_nodes h' = h_nodes h /\ h_graphs h' = h_graphs h /\
    (forall r, r <> node_children ns -> r <> node_parents nt ->
       nth_error (h_dicts h') r = nth_error (h_dicts h) r).
Proof.
  intros Hgr Hsrc Htgt Hns Hnt Hdc Hdp Hsep.
  eexists _, _, _. split.
  { exact (add_edge_at h self gr src tgt rs rt ns nt dc dp
             Hgr Hsrc Htgt Hns Hnt Hdc Hdp Hsep). }
  split.
  { eapply children_of_at; [exact Hgr | exact Hsrc | exact Hns | ].
    rewrite dict_elsewhere; [ | now apply not_eq_sym ].
    eapply dict_after_write. exact Hdc. }
  split.
  { eapply parents_of_at; [exact Hgr | exact Htgt | exact Hnt | ].
    eapply dict_after_write.
    rewrite dict_elsewhere; [exact Hdp | exact Hsep]. }
  split; [apply multiplicity_set_same|].
  split; [apply multiplicity_set_same|].
  split; [intros k Hk; apply get_set_other; congruence|].
  split; [intros k Hk; apply get_set_other; congruence|].
  split; [reflexivity|]. split; [reflexivity|].
  intros r H1 H2.
  rewrite dict_elsewhere by congruence.
  now rewrite dict_elsewhere by congruence.
Qed.

(** X4 on the edge 0 -> 3 of the graph 0 -> 3 -> 7. *)
Lemma add_edge_witness :
  exists h' dc' dp',
    OpenDigraph.add_edge 0%nat 0 3 sample_heap = Done tt h' /\
    OpenDigraph.children_of 0%nat 0 h' = Done dc' h' /\
    OpenDigraph.parents_of 0%nat 3 h' = Done dp' h' /\
    multiplicity 3 dc' = multiplicity 3 [(3, 1)] + 1 /\
    multiplicity 0 dp' = multiplicity 0 [(0, 1)] + 1 /\
    (forall k, k <> 3 -> PyDict.get k dc' = PyDict.get k [(3, 1)]) /\
    (forall k, k <> 0 -> PyDict.get k dp' = PyDict.get k [(0, 1)]) /\
    h_nodes h' = h_nodes sample_heap /\
    h_graphs h' = h_graphs sample_heap /\
    (forall r, r <> 1%nat -> r <> 2%nat ->
       nth_error (h_dicts h') r = nth_error (h_dicts sample_heap) r).
Proof.
  apply (add_edge_increments_both_sides sample_heap 0%nat sample_graph 0 3
           0%nat 1%nat (mk_node 0 "" 0%nat 1%nat) (mk_node 3 "" 2%nat 3%nat)
           [(3, 1)] [(0, 1)]); try reflexivity.
  simpl. lia.
Defined.

(** X5.  [remove_parallel_edges(src, tgt)] returns normally and deletes the
    edge on both endpoints whatever its multiplicity: afterwards [tgt] is
    no child of [src] and [src] no parent of [tgt], and the other entries
    are untouched. *)
Theorem remove_parallel_edges_deletes_both_sides
  (h : heap) (self : ref) (gr : graph_obj) (src tgt : Z) (rs rt : ref)
  (ns nt : node_obj) (dc dp : PyDict.t Z) :
  nth_error (h_graphs h) self = Some gr ->
  PyDict.get src (nodes gr) = Some rs ->
  PyDict.get tgt (nodes gr) = Some rt ->
  nth_error (h_nodes h) rs = Some ns ->
  nth_error (h_nodes h) rt = Some nt ->
  nth_error (h_dicts h) (node_children ns) = Some dc ->
  nth_error (h_dicts h) (node_parents nt) = Some dp ->
  node_children ns <> node_parents nt ->
  distinct (PyDict.keys dc) = true ->
  distinct (PyDict.keys dp) = true ->
  exists h' dc' dp',
    OpenDigraph.remove_parallel_edges self src tgt h = Done tt h' /\
    OpenDigraph.children_of self src h' = Done dc' h' /\
    OpenDigraph.parents_of self tgt h' = Done dp' h' /\
    PyDict.contains tgt dc' = false /\
    PyDict.contains src dp' = false /\
    (forall k, k <> tgt -> PyDict.get k dc' = PyDict.get k dc) /\
    (forall k, k <> src -> PyDict.get k dp' = PyDict.get k dp).
Proof.
  intros Hgr Hsrc Htgt Hns Hnt Hdc Hdp Hsep Hkc Hkp.
  eexists _, _, _. split.
  { exact (remove_parallel_edges_at h self gr src tgt rs rt ns nt
             Hgr Hsrc Htgt Hns Hnt Hsep h dp dc eq_refl eq_refl Hdp Hdc). }
  split.
  { eapply children_of_at; [exact Hgr | exact Hsrc | exact Hns | ].
    eapply dict_after_write.
    rewrite dict_elsewhere; [exact Hdc | now apply not_eq_sym]. }
  split.
  { eapply parents_of_at; [exact Hgr | exact Htgt | exact Hnt | ].
    rewrite dict_elsewhere; [ | exact Hsep ].
    eapply dict_after_write. exact Hdp. }
  unfold PyDict.contains. rewrite !get_del_same by assumption.
  repeat split; intros k Hk; apply get_del_other; congruence.
Qed.

(** X5 on the edge 0 -> 3 of the graph 0 -> 3 -> 7. *)
Lemma remove_parallel_edges_witness :
  exists h' dc' dp',
    OpenDigraph.remove_parallel_edges 0%nat 0 3 sample_heap = Done tt h' /\
    OpenDigraph.children_of 0%nat 0 h' = Done dc' h' /\
    OpenDigraph.parents_of 0%nat 3 h' = Done dp' h' /\
    PyDict.contains 3 dc' = false /\
    PyDict.contains 0 dp' = false /\
    (forall k, k <> 3 -> PyDict.get k dc' = PyDict.get k [(3, 1)]) /\
    (forall k, k <> 0 -> PyDict.get k dp' = PyDict.get k [(0, 1)]).
Proof.
  apply (remove_parallel_edges_deletes_both_sides sample_heap 0%nat
           sample_graph 0 3 0%nat 1%nat
           (mk_node 0 "" 0%nat 1%nat) (mk_node 3 "" 2%nat 3%nat)
           [(3, 1)] [(0, 1)]); try reflexivity.
  simpl. lia.
Defined.

(** X6.  Between two nodes that no edge joins, [add_edge] followed by
    [remove_parallel_edges] gives back the heap exactly as it was. *)
Theorem add_edge_then_remove_parallel_restores
  (h : heap) (self : ref) (gr : graph_obj) (src tgt : Z) (rs rt : ref)
  (ns nt : node_obj) (dc dp : PyDict.t Z) :
  nth_error (h_graphs h) self = Some gr ->
  PyDict.get src (nodes gr) = Some rs ->
  PyDict.get tgt (nodes gr) = Some rt ->
  nth_error (h_nodes h) rs = Some ns ->
  nth_error (h_nodes h) rt = Some nt ->
  nth_error (h_dicts h) (node_children ns) = Some dc ->
  nth_error (h_dicts h) (node_parents nt) = Some dp ->
  node_children ns <> node_parents nt ->
  PyDict.get tgt dc = None ->
  PyDict.get src dp = None ->
  (OpenDigraph.add_edge self src tgt ;;;
   OpenDigraph.remove_parallel_edges self src tgt) h = Done tt h.
Proof.
  intros Hgr Hsrc Htgt Hns Hnt Hdc Hdp Hsep Hnc Hnp.
  rewrite (bind_done _ _ _ _ _
             (add_edge_at h self gr src tgt rs rt ns nt dc dp
                Hgr Hsrc Htgt Hns Hnt Hdc Hdp Hsep)).
  erewrite (remove_parallel_edges_at h self gr src tgt rs rt ns nt
              Hgr Hsrc Htgt Hns Hnt Hsep);
    [ | reflexivity | reflexivity
      | eapply dict_after_write; rewrite dict_elsewhere;
        [exact Hdp | exact Hsep]
      | rewrite dict_elsewhere by (now apply not_eq_sym);
        eapply dict_after_write; exact Hdc ].
  rewrite !del_set_absent by assumption.
  rewrite with_dict_twice.
  rewrite (with_dict_comm _ _ _ dc dp) by (now apply not_eq_sym).
  rewrite with_dict_twice.
  rewrite (with_dict_same h _ _ Hdc).
  now rewrite (with_dict_same h _ _ Hdp).
Qed.

(** X6 on the nodes 0 and 7 of the graph 0 -> 3 -> 7. *)
Lemma add_edge_then_remove_parallel_witness :
  (OpenDigraph.add_edge 0%nat 0 7 ;;;
   OpenDigraph.remove_parallel_edges 0%nat 0 7) sample_heap
  = Done tt sample_heap.
Proof.
  apply (add_edge_then_remove_parallel_restores sample_heap 0%nat
           sample_graph 0 7 0%nat 2%nat
           (mk_node 0 "" 0%nat 1%nat) (mk_node 7 "" 4%nat 5%nat)
           [(3, 1)] [(3, 1)]); try reflexivity.
  simpl. lia.
Defined.

(** *** Interface lists *)

Lemma for_each_check (f : Z -> bool) (e : exn) (l : list Z) (h : heap) :
  for_each l (fun i => if negb (f i) then raise e else ret tt) h
  = if forallb f l then Done tt h else Raise e h.
Proof.
  induction l as [|i l IH]; simpl; [reflexivity|].
  unfold bind. destruct (f i); simpl; [exact IH | reflexivity].
Qed.

Lemma forallb_mem_keys {V} (d : PyDict.t V) (l : list Z) :
  forallb (fun i => mem i (PyDict.keys d)) l
  = forallb (fun i => PyDict.contains i d) l.
Proof.
  induction l as [|i l IH]; simpl; [reflexivity|].
  now rewrite mem_keys, IH.
Qed.

(** X7.  [set_inputs] and [set_outputs] install the new list exactly when
    every id in it is a node of the graph, changing nothing else; otherwise
    they raise ValueError("A given ID doesn't exist") and the heap is as
    before. *)
Theorem set_interface_checks_every_id
  (h : heap) (self : ref) (gr : graph_obj) (l : list Z) :
  nth_error (h_graphs h) self = Some gr ->
  OpenDigraph.set_inputs self l h
  = (if forallb (fun i => PyDict.contains i (nodes gr)) l
     then Done tt (with_graph self (mk_graph l (outputs gr) (nodes gr)) h)
     else Raise OpenDigraph.id_missing h) /\
  OpenDigraph.set_outputs self l h
  = (if forallb (fun i => PyDict.contains i (nodes gr)) l
     then Done tt (with_graph self (mk_graph (inputs gr) l (nodes gr)) h)
     else Raise OpenDigraph.id_missing h).
Proof.
  intro Hgr.
  unfold OpenDigraph.set_inputs, OpenDigraph.set_outputs.
  rewrite !(bind_done _ _ _ _ _ (get_node_ids_at _ _ _ Hgr)).
  unfold bind at 1 3. rewrite !for_each_check, forallb_mem_keys.
  destruct (forallb _ l); [|split; reflexivity].
  now rewrite !(bind_done _ _ _ _ _ (read_graph_at _ _ _ Hgr)).
Qed.

(** X7 on the graph 0 -> 3 -> 7 and the list [3; 7]. *)
Lemma set_interface_witness :
  OpenDigraph.set_inputs 0%nat [3; 7] sample_heap
  = (if forallb (fun i => PyDict.contains i (nodes sample_graph)) [3; 7]
     then Done tt (with_graph 0%nat
                     (mk_graph [3; 7] (outputs sample_graph)
                               (nodes sample_graph)) sample_heap)
     else Raise OpenDigraph.id_missing sample_heap) /\
  OpenDigraph.set_outputs 0%nat [3; 7] sample_heap
  = (if forallb (fun i => PyDict.contains i (nodes sample_graph)) [3; 7]
     then Done tt (with_graph 0%nat
                     (mk_graph (inputs sample_graph) [3; 7]
                               (nodes sample_graph)) sample_heap)
     else Raise OpenDigraph.id_missing sample_heap).
Proof.
  apply (set_interface_checks_every_id sample_heap 0%nat sample_graph [3; 7]).
  reflexivity.
Defined.

Lemma graph_after_write (h : heap) (r : ref) (gr gr' : graph_obj) :
  nth_error (h_graphs h) r = Some gr ->
  nth_error (h_graphs (with_graph r gr' h)) r = Some gr'.
Proof. intro H. simpl. now apply nth_error_update_eq with gr. Qed.

(** *** Interface nodes *)

Lemma nth_error_last {A} (l : list A) (x : A) :
  nth_error (l ++ [x]) (List.length l) = Some x.
Proof. rewrite nth_error_app2 by lia. now rewrite Nat.sub_diag. Qed.

Lemma nth_error_old {A} (l l' : list A) (r : nat) (x : A) :
  nth_error l r = Some x -> nth_error (l ++ l') r = Some x.
Proof.
  intro H. rewrite nth_error_app1; [exact H|].
  apply nth_error_Some. now rewrite H.
Qed.

Lemma nth_error_valid {A} (l : list A) (r : nat) (x : A) :
  nth_error l r = Some x -> (r < List.length l)%nat.
Proof. intro H. apply nth_error_Some. now rewrite H. Qed.

(** X9.  [add_input_node] and [add_output_node] refuse an id that is
    already a node with ValueError("Node already exists"), and then a
    neighbour that is not a node with ValueError("Child doesn't exist"),
    respectively "Parent doesn't exist"; in both cases nothing has been
    allocated or changed. *)
Theorem interface_node_is_checked_first
  (h : heap) (self : ref) (gr : graph_obj) (node_id other_id : Z) :
  nth_error (h_graphs h) self = Some gr ->
  (PyDict.contains node_id (nodes gr) = true ->
   OpenDigraph.add_input_node self node_id other_id h
   = Raise (ValueError "Node already exists") h /\
   OpenDigraph.add_output_node self node_id other_id h
   = Raise (ValueError "Node already exists") h) /\
  (PyDict.contains node_id (nodes gr) = false ->
   PyDict.contains other_id (nodes gr) = false ->
   OpenDigraph.add_input_node self node_id other_id h
   = Raise (ValueError "Child doesn't exist") h /\
   OpenDigraph.add_output_node self node_id other_id h
   = Raise (ValueError "Parent doesn't exist") h).
Proof.
  intro Hgr.
  unfold OpenDigraph.add_input_node, OpenDigraph.add_output_node.
  rewrite !(bind_done _ _ _ _ _ (get_node_ids_at _ _ _ Hgr)).
  rewrite !mem_keys.
  split; [intros -> | intros -> ->]; split; reflexivity.
Qed.

(** X9 on the graph 0 -> 3 -> 7: the existing id 3, then the fresh id 9
    with the unknown neighbour 5. *)
Lemma interface_node_witness :
  (OpenDigraph.add_input_node 0%nat 3 5 sample_heap
   = Raise (ValueError "Node already exists") sample_heap /\
   OpenDigraph.add_output_node 0%nat 3 5 sample_heap
   = Raise (ValueError "Node already exists") sample_heap) /\
  (OpenDigraph.add_input_node 0%nat 9 5 sample_heap
   = Raise (ValueError "Child doesn't exist") sample_heap /\
   OpenDigraph.add_output_node 0%nat 9 5 sample_heap
   = Raise (ValueError "Parent doesn't exist") sample_heap).
Proof.
  split.
  - apply (proj1 (interface_node_is_checked_first sample_heap 0%nat
                    sample_graph 3 5 eq_refl)). reflexivity.
  - apply (proj2 (interface_node_is_checked_first sample_heap 0%nat
                    sample_graph 9 5 eq_refl)); reflexivity.
Defined.

(** *** New nodes *)

Lemma new_id_at (h : heap) (self : ref) (gr : graph_obj) :
  nth_error (h_graphs h) self = Some gr ->
  OpenDigraph.new_id self h = Done (next_id gr) h.
Proof.
  intro Hgr. pose proof (read_graph_at _ _ _ Hgr) as Hread.
  unfold OpenDigraph.new_id, OpenDigraph.get_input_ids,
    OpenDigraph.get_output_ids, OpenDigraph.get_node_ids, bind.
  rewrite Hread. unfold ret. rewrite Hread, Hread.
  unfold next_id, used_ids.
  now destruct (inputs gr ++ outputs gr ++ PyDict.keys (nodes gr)).
Qed.



Lemma get_absent {V} (k : Z) (d : PyDict.t V) :
  ~ In k (PyDict.keys d) -> PyDict.get k d = None.
Proof.
  induction d as [|[k' v'] d IH]; simpl; [reflexivity|].
  intro H. destruct (Z.eqb_spec k' k) as [->|Hne].
  - exfalso. apply H. now left.
  - apply IH. intro Hin. apply H. now right.
Qed.





(** A wiring loop of [add_node] over the dictionary [r]: every id of the
    list that is a node is added, up to the first one that is not. *)
Lemma wire_loop (ns : list Z) (e : exn) (r : ref) (add : Z -> M unit)
  (nodes0 : list node_obj) :
  (forall q h0, h_nodes h0 = nodes0 -> add q h0 = Node.incr r q h0) ->
  forall (l : list Z) (h : heap) (d : PyDict.t Z),
  h_nodes h = nodes0 ->
  nth_error (h_dicts h) r = Some d ->
  for_each l (fun q => if mem q ns then add q else raise e) h
  = if forallb (fun q => mem q ns) l
    then Done tt (with_dict r (tally l d) h)
    else Raise e (with_dict r (tally (present_prefix ns l) d) h).
Proof.
  intros Hadd l. induction l as [|q l IH]; intros h d Hn Hd.
  - simpl. now rewrite (with_dict_same _ _ _ Hd).
  - cbn [for_each forallb present_prefix].
    destruct (mem q ns) eqn:Hq.
    + assert (Hstep : add q h
                      = Done tt (with_dict r
                           (PyDict.set q (multiplicity q d + 1) d) h)).
      { rewrite (Hadd q h Hn). now apply incr_at. }
      rewrite (bind_done _ _ _ _ _ Hstep).
      rewrite (IH _ (PyDict.set q (multiplicity q d + 1) d));
        [ | exact Hn | eapply dict_after_write; exact Hd ].
      rewrite !with_dict_twice. reflexivity.
    + cbn [andb]. unfold raise. simpl.
      now rewrite (with_dict_same _ _ _ Hd).
Qed.

Lemma wiring_of_option (o : option (list Z)) (body : Z -> M unit) :
  match o with
  | Some l => for_each l body
  | None => ret tt
  end = for_each (neighbours o) body.
Proof. now destruct o. Qed.


Section AddNode.
Variables (h : heap) (self : ref) (gr : graph_obj) (label : string).
Variables (parents children : option (list Z)).

Hypothesis Hgr : nth_error (h_graphs h) self = Some gr.

Let i := next_id gr.
Let ps := neighbours parents.
Let cs := neighbours children.
Let ha := with_node i label h.
Let rn := List.length (h_nodes h).
Let pr := List.length (h_dicts h).
Let cr := S (List.length (h_dicts h)).
Let nn := mk_node i label pr cr.
Let ns := PyDict.keys (nodes gr).
Let no_parent := ValueError "One parent doesn't exist".
Let no_child := ValueError "One child doesn't exist".

Lemma add_node_allocated {A} (k : ref -> M A) :
  (p <- new_dict [] ;; c <- new_dict [] ;;
   n <- Node.init i label p c ;; k n) h
  = k rn ha.
Proof.
  erewrite bind_done by reflexivity.
  erewrite bind_done by reflexivity.
  erewrite bind_done by reflexivity.
  cbn [h_dicts h_nodes h_graphs].
  rewrite length_app. cbn [List.length]. rewrite Nat.add_1_r.
  reflexivity.
Qed.

Lemma new_node_at : nth_error (h_nodes ha) rn = Some nn.
Proof. unfold ha, with_node. cbn [h_nodes]. apply nth_error_last. Qed.

Lemma new_parents_at : nth_error (h_dicts ha) pr = Some [].
Proof.
  unfold ha, with_node. cbn [h_dicts].
  apply nth_error_old, nth_error_last.
Qed.

Lemma new_children_at : nth_error (h_dicts ha) cr = Some [].
Proof.
  unfold ha, with_node, cr. cbn [h_dicts].
  replace (S (List.length (h_dicts h)))
    with (List.length (h_dicts h ++ [[]]))
    by (rewrite length_app; simpl; lia).
  apply nth_error_last.
Qed.

Lemma parents_wired :
  for_each ps (fun q => if mem q ns then Node.add_parent_id rn q
                        else raise no_parent) ha
  = if forallb (fun q => mem q ns) ps
    then Done tt (with_dict pr (tally ps []) ha)
    else Raise no_parent (with_dict pr (tally (present_prefix ns ps) []) ha).
Proof.
  apply (wire_loop ns no_parent pr _ (h_nodes ha));
    [ | reflexivity | exact new_parents_at ].
  intros q h0 Hn. apply (add_parent_id_at h0 rn nn).
  rewrite Hn. exact new_node_at.
Qed.

Lemma children_wired (d : PyDict.t Z) :
  for_each cs (fun q => if mem q ns then Node.add_child_id rn q
                        else raise no_child) (with_dict pr d ha)
  = if forallb (fun q => mem q ns) cs
    then Done tt (with_dict cr (tally cs []) (with_dict pr d ha))
    else Raise no_child
           (with_dict cr (tally (present_prefix ns cs) [])
              (with_dict pr d ha)).
Proof.
  apply (wire_loop ns no_child cr _ (h_nodes ha)); [ | reflexivity | ].
  - intros q h0 Hn. apply (add_child_id_at h0 rn nn).
    rewrite Hn. exact new_node_at.
  - rewrite dict_elsewhere; [exact new_children_at | unfold pr, cr; lia].
Qed.

Lemma add_node_at :
  OpenDigraph.add_node self label parents children h
  = if forallb (fun q => mem q ns) ps
    then
      if forallb (fun q => mem q ns) cs
      then Done i
             (with_graph self
                (mk_graph (inputs gr) (outputs gr)
                          (PyDict.set i rn (nodes gr)))
                (with_dict cr (tally cs [])
                   (with_dict pr (tally ps []) ha)))
      else Raise no_child
             (with_dict cr (tally (present_prefix ns cs) [])
                (with_dict pr (tally ps []) ha))
    else Raise no_parent
           (with_dict pr (tally (present_prefix ns ps) []) ha).
Proof.
  unfold OpenDigraph.add_node.
  rewrite (bind_done _ _ _ _ _ (get_node_ids_at _ _ _ Hgr)).
  rewrite (bind_done _ _ _ _ _ (new_id_at _ _ _ Hgr)).
  rewrite add_node_allocated.
  rewrite !wiring_of_option.
  change (neighbours parents) with ps. change (neighbours children) with cs.
  fold ns no_parent no_child.
  unfold bind at 1. rewrite parents_wired.
  destruct (forallb (fun q => mem q ns) ps); [|reflexivity].
  unfold bind at 1. rewrite children_wired.
  destruct (forallb (fun q => mem q ns) cs); [|reflexivity].
  assert (Hid : forall h0, h_nodes h0 = h_nodes ha ->
                  Node.get_id rn h0 = Done i h0).
  { intros h0 Hn. apply (get_id_at h0 rn nn). rewrite Hn.
    exact new_node_at. }
  erewrite bind_done by (apply Hid; reflexivity).
  erewrite bind_done by (apply read_graph_at; exact Hgr).
  erewrite bind_done by reflexivity.
  now rewrite Hid.
Qed.

End AddNode.

Lemma old_dict_kept (h : heap) (i : Z) (label : string) (r : ref)
  (d dp dc : PyDict.t Z) :
  nth_error (h_dicts h) r = Some d ->
  nth_error
    (h_dicts (with_dict (S (List.length (h_dicts h))) dc
                (with_dict (List.length (h_dicts h)) dp
                   (with_node i label h)))) r
  = Some d.
Proof.
  intro H. pose proof (nth_error_valid _ _ _ H).
  rewrite !dict_elsewhere by lia.
  unfold with_node. cbn [h_dicts]. now apply nth_error_old, nth_error_old.
Qed.




(** X13.  When a requested parent is not a node of the graph, [add_node]
    raises ValueError("One parent doesn't exist"); when the parents are
    fine and a requested child is not, ValueError("One child doesn't
    exist").  In both cases no graph object has changed (the node is not
    registered) and every dictionary and node that existed before is as it
    was. *)
Theorem add_node_rejects_unknown_neighbour
  (h : heap) (self : ref) (gr : graph_obj) (label : string)
  (parents children : option (list Z)) :
  nth_error (h_graphs h) self = Some gr ->
  forallb (fun q => PyDict.contains q (nodes gr)) (neighbours parents)
  && forallb (fun q => PyDict.contains q (nodes gr)) (neighbours children)
  = false ->
  exists h',
    OpenDigraph.add_node self label parents children h
    = Raise (ValueError
               (if forallb (fun q => PyDict.contains q (nodes gr))
                           (neighbours parents)
                then "One child doesn't exist"
                else "One parent doesn't exist")) h' /\
    h_graphs h' = h_graphs h /\
    (forall r d, nth_error (h_dicts h) r = Some d ->
                 nth_error (h_dicts h') r = Some d) /\
    (forall r n, nth_error (h_nodes h) r = Some n ->
                 nth_error (h_nodes h') r = Some n).
Proof.
  intros Hgr Hbad.
  pose proof (add_node_at h self gr label parents children Hgr) as Hrun.
  rewrite !forallb_mem_keys in Hrun.
  destruct (forallb (fun q => PyDict.contains q (nodes gr))
                    (neighbours parents)).
  - simpl in Hbad. rewrite Hbad in Hrun.
    eexists. split; [exact Hrun|]. split; [reflexivity|]. split.
    + intros r d Hd. now apply old_dict_kept.
    + intros r n Hr. now apply nth_error_old.
  - eexists. split; [exact Hrun|]. split; [reflexivity|]. split.
    + intros r d Hd. pose proof (nth_error_valid _ _ _ Hd).
      rewrite dict_elsewhere by lia.
      unfold with_node. cbn [h_dicts].
      now apply nth_error_old, nth_error_old.
    + intros r n Hr. now apply nth_error_old.
Qed.

(** X13 on the graph 0 -> 3 -> 7 with the unknown parent 5. *)
Lemma add_node_rejection_witness :
  exists h',
    OpenDigraph.add_node 0%nat "&" (Some [0; 5]) None sample_heap
    = Raise (ValueError
               (if forallb (fun q => PyDict.contains q (nodes sample_graph))
                           (neighbours (Some [0; 5]))
                then "One child doesn't exist"
                else "One parent doesn't exist")) h' /\
    h_graphs h' = h_graphs sample_heap /\
    (forall r d, nth_error (h_dicts sample_heap) r = Some d ->
                 nth_error (h_dicts h') r = Some d) /\
    (forall r n, nth_error (h_nodes sample_heap) r = Some n ->
                 nth_error (h_nodes h') r = Some n).
Proof.
  apply (add_node_rejects_unknown_neighbour sample_heap 0%nat sample_graph
           "&" (Some [0; 5]) None); reflexivity.
Defined.

(** *** Queries that only read *)

Lemma ro_ret {A} (a : A) : read_only (ret a).
Proof. intro h. reflexivity. Qed.

Lemma ro_raise {A} (e : exn) : read_only (raise (A := A) e).
Proof. intro h. reflexivity. Qed.

Lemma ro_out_of_fuel {A} : read_only (out_of_fuel (A := A)).
Proof. intro h. exact I. Qed.

Lemma ro_bind {A B} (c : M A) (k : A -> M B) :
  read_only c -> (forall a, read_only (k a)) -> read_only (bind c k).
Proof.
  intros Hc Hk h. unfold bind. specialize (Hc h).
  destruct (c h) as [a h'| e h'| |]; try exact I; subst h'.
  - apply Hk.
  - reflexivity.
Qed.

Lemma ro_read_dict (r : ref) : read_only (read_dict r).
Proof.
  intro h. unfold read_dict, of_option. now destruct (nth_error _ r).
Qed.

Lemma ro_read_node (r : ref) : read_only (read_node r).
Proof.
  intro h. unfold read_node, of_option. now destruct (nth_error _ r).
Qed.

Lemma ro_read_graph (r : ref) : read_only (read_graph r).
Proof.
  intro h. unfold read_graph, of_option. now destruct (nth_error _ r).
Qed.

Lemma ro_for_each {A} (l : list A) (body : A -> M unit) :
  (forall x, read_only (body x)) -> read_only (for_each l body).
Proof.
  intro Hb. induction l as [|x l IH]; simpl.
  - apply ro_ret.
  - apply ro_bind; [apply Hb | intros _; exact IH].
Qed.

Lemma ro_for_return {A R} (l : list A) (body : A -> M (option R)) :
  (forall x, read_only (body x)) -> read_only (for_return l body).
Proof.
  intro Hb. induction l as [|x l IH]; simpl.
  - apply ro_ret.
  - apply ro_bind; [apply Hb|]. intros [v|]; [apply ro_ret | exact IH].
Qed.

Lemma ro_map_M {A B} (f : A -> M B) (l : list A) :
  (forall x, read_only (f x)) -> read_only (map_M f l).
Proof.
  intro Hf. induction l as [|x l IH]; simpl.
  - apply ro_ret.
  - apply ro_bind; [apply Hf|]. intro y.
    apply ro_bind; [exact IH|]. intro ys. apply ro_ret.
Qed.

Lemma ro_for_dict (d : ref) (body : Z -> M unit) :
  (forall k, read_only (body k)) -> read_only (for_dict d body).
Proof.
  intro Hb. unfold for_dict, for_dict_return.
  apply ro_bind; [|intros _; apply ro_ret].
  apply ro_bind; [apply ro_read_dict|]. intro now.
  generalize (PyDict.len now). induction (PyDict.keys now) as [|k ks IH];
    intro n; simpl.
  - apply ro_ret.
  - apply ro_bind.
    + apply ro_bind; [apply Hb | intros _; apply ro_ret].
    + intros [v|]; [apply ro_ret|].
      apply ro_bind; [apply ro_read_dict|]. intro d'.
      destruct (PyDict.len d' =? n); [apply IH | apply ro_raise].
Qed.

(** Goals of the form [read_only c], by the shape of [c]. *)
Ltac read_only_step :=
  first
    [ apply ro_ret | apply ro_raise | apply ro_out_of_fuel
    | apply ro_read_dict | apply ro_read_node | apply ro_read_graph
    | apply ro_bind; [ | intro ]
    | apply ro_for_each; intro
    | apply ro_for_return; intro
    | apply ro_map_M; intro
    | match goal with
      | |- read_only (if ?b then _ else _) => destruct b
      | |- read_only (match ?x with _ => _ end) => destruct x
      end ].

Ltac read_only_auto := repeat read_only_step.

Lemma ro_node_getters (self : ref) :
  read_only (Node.get_id self) /\ read_only (Node.get_label self) /\
  read_only (Node.get_parents self) /\ read_only (Node.get_children self) /\
  read_only (Node.indegree self) /\ read_only (Node.outdegree self) /\
  read_only (Node.degree self).
Proof.
  unfold Node.degree, Node.indegree, Node.outdegree, Node.get_id,
    Node.get_label, Node.get_parents, Node.get_children.
  repeat split; read_only_auto.
Qed.

Lemma ro_node_eq (self other : ref) : read_only (Node.eq self other).
Proof. unfold Node.eq. read_only_auto. Qed.

Lemma ro_graph_getters (self : ref) :
  read_only (OpenDigraph.get_input_ids self) /\
  read_only (OpenDigraph.get_output_ids self) /\
  read_only (OpenDigraph.get_id_node_map self) /\
  read_only (OpenDigraph.get_nodes self) /\
  read_only (OpenDigraph.get_node_ids self) /\
  (forall k, read_only (OpenDigraph.get_node_by_id self k)) /\
  (forall ids, read_only (OpenDigraph.get_nodes_by_ids self ids)) /\
  (forall k, read_only (OpenDigraph.children_of self k)) /\
  (forall k, read_only (OpenDigraph.parents_of self k)).
Proof.
  unfold OpenDigraph.get_input_ids, OpenDigraph.get_output_ids,
    OpenDigraph.get_id_node_map, OpenDigraph.get_nodes,
    OpenDigraph.get_node_ids, OpenDigraph.get_nodes_by_ids,
    OpenDigraph.children_of, OpenDigraph.parents_of,
    OpenDigraph.get_node_by_id,
    Node.get_children, Node.get_parents.
  repeat split; intros; read_only_auto.
Qed.

Lemma ro_nodes_eq (l1 l2 : list ref) : read_only (OpenDigraph.nodes_eq l1 l2).
Proof.
  revert l2. induction l1 as [|a l1 IH]; intros [|b l2]; simpl;
    try apply ro_ret.
  apply ro_bind; [apply ro_node_eq|]. intros [|]; [apply IH | apply ro_ret].
Qed.

Lemma ro_graph_eq (self other : ref) : read_only (OpenDigraph.eq self other).
Proof.
  unfold OpenDigraph.eq. read_only_auto; apply ro_nodes_eq.
Qed.

Lemma ro_new_id (self : ref) : read_only (OpenDigraph.new_id self).
Proof.
  unfold OpenDigraph.new_id.
  destruct (ro_graph_getters self) as (Hi & Ho & _ & _ & Hk & _).
  apply ro_bind; [exact Hi|]. intro ins.
  apply ro_bind; [exact Ho|]. intro outs.
  apply ro_bind; [exact Hk|]. intro ids.
  destruct (ins ++ outs ++ ids); apply ro_ret.
Qed.

Lemma ro_lookup {V} (k : Z) (d : PyDict.t V) :
  read_only (OpenDigraph.lookup k d).
Proof. unfold OpenDigraph.lookup. read_only_auto. Qed.

Lemma ro_mirrored (self : ref) (node_id : Z) (mine : ref)
  (pick : ref -> M ref) :
  (forall r, read_only (pick r)) ->
  read_only (OpenDigraph.mirrored self node_id mine pick).
Proof.
  intro Hp. unfold OpenDigraph.mirrored.
  apply ro_bind; [apply ro_read_dict|]. intro d.
  apply ro_for_return. intro entry.
  apply ro_bind; [apply ro_graph_getters|]. intro other.
  apply ro_bind; [apply Hp|]. intro back.
  read_only_auto.
Qed.

Lemma ro_is_well_formed (self : ref) :
  read_only (OpenDigraph.is_well_formed self).
Proof.
  destruct (ro_graph_getters self)
    as (Hi & Ho & Hm & _ & Hk & Hby & _ & _ & _).
  unfold OpenDigraph.is_well_formed, OpenDigraph.unless_returned.
  apply ro_bind; [exact Hk|]. intro node_ids.
  apply ro_bind; [exact Hi|]. intro input_ids.
  apply ro_bind; [exact Ho|]. intro output_ids.
  apply ro_bind; [apply ro_for_return; intro; read_only_auto|].
  intros [b|]; [apply ro_ret|].
  apply ro_bind; [apply ro_for_return; intro; read_only_auto|].
  intros [b|]; [apply ro_ret|].
  apply ro_bind.
  { apply ro_for_return. intro x.
    apply ro_bind; [apply Hby|]. intro n.
    apply ro_bind; [apply ro_node_getters|]. intro cr.
    apply ro_bind; [apply ro_read_dict|]. intro cd.
    apply ro_bind; [apply ro_node_getters|]. intro pr.
    apply ro_bind; [apply ro_read_dict|]. intro pd. apply ro_ret. }
  intros [b|]; [apply ro_ret|].
  apply ro_bind.
  { apply ro_for_return. intro x.
    apply ro_bind; [apply Hby|]. intro n.
    apply ro_bind; [apply ro_node_getters|]. intro cr.
    apply ro_bind; [apply ro_read_dict|]. intro cd.
    apply ro_bind; [apply ro_node_getters|]. intro pr.
    apply ro_bind; [apply ro_read_dict|]. intro pd. apply ro_ret. }
  intros [b|]; [apply ro_ret|].
  apply ro_bind; [exact Hm|]. intro items.
  apply ro_bind.
  { apply ro_for_return. intro item.
    apply ro_bind; [apply ro_node_getters|]. intro i.
    destruct (negb (i =? fst item)); apply ro_ret. }
  intros [b|]; [apply ro_ret|].
  apply ro_bind; [exact Hm|]. intro items'.
  apply ro_bind; [|intros [b|]; apply ro_ret].
  apply ro_for_return. intro item.
  apply ro_bind; [apply ro_node_getters|]. intro cr.
  apply ro_bind; [apply ro_mirrored; intro; apply ro_node_getters|].
  intros [b|]; [apply ro_ret|].
  apply ro_bind; [apply ro_node_getters|]. intro pr.
  apply ro_mirrored. intro. apply ro_node_getters.
Qed.

Lemma ro_dfs_util (fuel : nat) (self : ref) :
  forall node_id v s, read_only (OpenDigraph.dfs_util fuel self node_id v s).
Proof.
  induction fuel as [|fuel IH]; intros node_id v s; simpl.
  - apply ro_out_of_fuel.
  - apply ro_bind; [apply ro_graph_getters|]. intro cd.
    generalize (PyDict.set node_id true v) (PyDict.set node_id true s).
    induction (PyDict.keys cd) as [|nb ks IHks]; intros v1 s1.
    + apply ro_ret.
    + apply ro_bind; [apply ro_lookup|]. intros [|]; cbn [negb].
      * apply ro_bind; [apply ro_lookup|].
        intros [|]; [apply ro_ret | apply IHks].
      * apply ro_bind; [apply IH|]. intros [[|] [v2 s2]]; cbn [fst snd].
        -- apply ro_ret.
        -- apply IHks.
Qed.

Lemma ro_is_cyclic (self : ref) : read_only (OpenDigraph.is_cyclic self).
Proof.
  unfold OpenDigraph.is_cyclic, OpenDigraph.is_cyclic_fuel.
  apply ro_bind; [apply ro_graph_getters|]. intro ids0.
  apply ro_bind; [apply ro_graph_getters|]. intro ids.
  generalize (map (fun i : Z => (i, false)) ids) at 1 as v.
  generalize (map (fun i : Z => (i, false)) ids) as s.
  generalize (S (List.length ids0)) as fuel. intro fuel.
  induction ids as [|node_id l IHl]; intros s v.
  - apply ro_ret.
  - apply ro_bind; [apply ro_lookup|]. intros [|]; cbn [negb].
    + apply IHl.
    + apply ro_bind; [apply ro_dfs_util|].
      intros [[|] [v2 s2]]; cbn [fst snd]; [apply ro_ret | apply IHl].
Qed.

Lemma ro_min_distance (dist : PyDict.t OpenDigraph.num) (q : list Z) :
  read_only (OpenDigraph.min_distance dist q).
Proof.
  unfold OpenDigraph.min_distance.
  generalize OpenDigraph.Inf (@None Z).
  induction q as [|node q IH]; intros m o; simpl.
  - apply ro_ret.
  - apply ro_bind; [apply ro_lookup|]. intro d.
    destruct (OpenDigraph.num_ltb d m); apply IH.
Qed.

Lemma ro_eligible_children (self : ref) (cs cur : list Z) :
  forall new, read_only (OpenDigraph.eligible_children self cs cur new).
Proof.
  induction cs as [|c cs IH]; intro new; simpl.
  - apply ro_ret.
  - apply ro_bind; [apply ro_graph_getters|]. intro pd.
    destruct (forallb _ _); apply IH.
Qed.

Lemma ro_level (self : ref) (co_leaves : list Z) :
  forall cur new, read_only (OpenDigraph.level self co_leaves cur new).
Proof.
  induction co_leaves as [|i l IH]; intros cur new; simpl.
  - apply ro_ret.
  - apply ro_bind; [apply ro_graph_getters|]. intro cd.
    apply ro_bind; [apply ro_eligible_children|]. intro new'. apply IH.
Qed.

Lemma ro_sort_loop (fuel : nat) (self : ref) :
  forall co_leaves seq,
    read_only (OpenDigraph.sort_loop fuel self co_leaves seq).
Proof.
  induction fuel as [|fuel IH]; intros [|i l] seq;
    cbn [OpenDigraph.sort_loop];
    try apply ro_ret; try apply ro_out_of_fuel.
  apply ro_bind; [apply ro_level|]. intros [cur new]. cbn [fst snd].
  apply ro_bind; [apply ro_graph_getters|]. intro ids.
  destruct (_ && _); [apply ro_raise | apply IH].
Qed.

Lemma ro_topological_sort (fuel : nat) (self : ref) :
  read_only (OpenDigraph.topological_sort fuel self).
Proof.
  unfold OpenDigraph.topological_sort.
  apply ro_bind; [apply ro_graph_getters|]. intro ins. apply ro_sort_loop.
Qed.

(** X14.  The structural queries never change the heap, whether they
    return or raise: the accessors, the two equality tests, [new_id],
    [is_well_formed], [is_cyclic], [min_distance], [topological_sort] and
    [graph_depth], for any amount of fuel. *)
Theorem structural_queries_are_read_only (self other : ref) :
  read_only (OpenDigraph.get_input_ids self) /\
  read_only (OpenDigraph.get_output_ids self) /\
  read_only (OpenDigraph.get_nodes self) /\
  read_only (OpenDigraph.get_node_ids self) /\
  (forall k, read_only (OpenDigraph.get_node_by_id self k)) /\
  (forall ids, read_only (OpenDigraph.get_nodes_by_ids self ids)) /\
  read_only (Node.eq self other) /\
  read_only (Node.degree self) /\
  read_only (OpenDigraph.eq self other) /\
  read_only (OpenDigraph.new_id self) /\
  read_only (OpenDigraph.is_well_formed self) /\
  read_only (OpenDigraph.is_cyclic self) /\
  (forall dist q, read_only (OpenDigraph.min_distance dist q)) /\
  (forall fuel, read_only (OpenDigraph.topological_sort fuel self)) /\
  (forall fuel, read_only (OpenDigraph.graph_depth fuel self)).
Proof.
  destruct (ro_graph_getters self)
    as (Hi & Ho & _ & Hn & Hk & Hby & Hbys & _ & _).
  repeat split; try assumption.
  - apply ro_node_eq.
  - apply ro_node_getters.
  - apply ro_graph_eq.
  - apply ro_new_id.
  - apply ro_is_well_formed.
  - apply ro_is_cyclic.
  - intros; apply ro_min_distance.
  - intro; apply ro_topological_sort.
  - intro fuel. unfold OpenDigraph.graph_depth.
    apply ro_bind; [apply ro_topological_sort | intro; apply ro_ret].
Qed.

(** *** Dijkstra in one direction *)

Lemma ro_relax (u : Z) (vs : list Z) :
  forall st, read_only (OpenDigraph.relax u vs st).
Proof.
  induction vs as [|v vs IH]; intro st; simpl.
  - apply ro_ret.
  - apply ro_bind; [apply ro_lookup|]. intro dv.
    apply ro_bind; [apply ro_lookup|]. intro du.
    destruct (OpenDigraph.num_ltb _ dv); apply IH.
Qed.

Lemma ro_list_remove (u : Z) (q : list Z) :
  read_only (OpenDigraph.list_remove u q).
Proof.
  induction q as [|x q IH]; simpl.
  - apply ro_raise.
  - destruct (x =? u); [apply ro_ret|].
    apply ro_bind; [exact IH | intro; apply ro_ret].
Qed.

Lemma ro_node_of (self : ref) (u : option Z) :
  read_only (OpenDigraph.node_of self u).
Proof.
  destruct u; simpl; [apply ro_graph_getters | apply ro_raise].
Qed.

Lemma ro_neighbors_one_way (self : ref) (u : option Z) (d : Z) :
  read_only (OpenDigraph.neighbors_of self u (Some d)).
Proof.
  unfold OpenDigraph.neighbors_of.
  destruct (d =? -1); [|destruct (d =? 1)]; try apply ro_raise;
    (apply ro_bind; [apply ro_node_of | intro; apply ro_node_getters]).
Qed.

Lemma ro_dijkstra_loop (fuel : nat) (self : ref) (d : Z) (tgt : option Z) :
  forall st,
    read_only (OpenDigraph.dijkstra_loop fuel self (Some d) tgt st).
Proof.
  induction fuel as [|fuel IH]; intro st;
    cbn [OpenDigraph.dijkstra_loop];
    destruct (OpenDigraph.queue st) as [|x q] eqn:Hq;
    try apply ro_ret; try apply ro_out_of_fuel.
  apply ro_bind; [apply ro_min_distance|]. intro u.
  destruct (OpenDigraph.opt_eqb u tgt); [apply ro_ret|].
  apply ro_bind; [apply ro_neighbors_one_way|]. intro nb.
  apply ro_bind; [apply ro_read_dict|]. intro nd.
  destruct u as [u'|]; [|apply ro_raise].
  apply ro_bind; [apply ro_relax|]. intro st'.
  apply ro_bind; [apply ro_list_remove|]. intro q'. apply IH.
Qed.

Lemma dijkstra_early_exit (fuel : nat) (self : ref) (src : Z)
  (direction : option Z) (h : heap) :
  OpenDigraph.dijkstra (S fuel) self src direction (Some src) h
  = Done ([(src, OpenDigraph.Fin 0)], []) h.
Proof.
  unfold OpenDigraph.dijkstra. cbn [OpenDigraph.dijkstra_loop
    OpenDigraph.queue OpenDigraph.dist OpenDigraph.prev].
  rewrite (bind_done _ _ _ _ _
             (min_distance_single src (OpenDigraph.Fin 0) h eq_refl)).
  unfold OpenDigraph.opt_eqb. now rewrite Z.eqb_refl.
Qed.

(** X15.  With a direction other than [None], [dijkstra] never changes
    the heap.  The direction is examined only after the early exit: a
    search whose target is its source returns distance 0 for the source
    and no predecessor whatever the direction, and any other search with a
    direction that is neither -1 nor 1 raises ValueError at once. *)
Theorem dijkstra_one_way_reads_only
  (fuel : nat) (self : ref) (src d : Z) (tgt : option Z) :
  read_only (OpenDigraph.dijkstra fuel self src (Some d) tgt) /\
  (forall h direction,
     OpenDigraph.dijkstra (S fuel) self src direction (Some src) h
     = Done ([(src, OpenDigraph.Fin 0)], []) h) /\
  (forall h,
     d <> -1 -> d <> 1 -> tgt <> Some src ->
     OpenDigraph.dijkstra (S fuel) self src (Some d) tgt h
     = Raise (ValueError "La direction doit être None, -1 ou 1") h).
Proof.
  split; [apply ro_dijkstra_loop|].
  split; [intros; apply dijkstra_early_exit|].
  intros h Hm Hp Htgt.
  unfold OpenDigraph.dijkstra. cbn [OpenDigraph.dijkstra_loop
    OpenDigraph.queue OpenDigraph.dist OpenDigraph.prev].
  rewrite (bind_done _ _ _ _ _
             (min_distance_single src (OpenDigraph.Fin 0) h eq_refl)).
  assert (Hne : OpenDigraph.opt_eqb (Some src) tgt = false).
  { destruct tgt as [t|]; [|reflexivity]. simpl.
    apply Z.eqb_neq. congruence. }
  rewrite Hne. unfold OpenDigraph.neighbors_of.
  destruct (Z.eqb_spec d (-1)); [contradiction|].
  destruct (Z.eqb_spec d 1); [contradiction|]. reflexivity.
Qed.

(** X15 on the graph 0 -> 3 -> 7: a search from 0 with the direction 2. *)
Lemma dijkstra_one_way_witness :
  OpenDigraph.dijkstra 1 0%nat 0 (Some 2) (Some 7) sample_heap
  = Raise (ValueError "La direction doit être None, -1 ou 1") sample_heap.
Proof.
  apply (proj2 (proj2 (dijkstra_one_way_reads_only 0 0%nat 0 2 (Some 7))));
    [lia | lia | discriminate].
Defined.

(** *** The node picked by [min_distance] *)

(** Facts on the order of distances, by cases on finite and infinite. *)
Ltac num_order :=
  repeat match goal with
         | x : OpenDigraph.num |- _ => destruct x
         end;
  simpl in *; try discriminate; try reflexivity;
  repeat match goal with
         | H : (_ <? _) = true |- _ => apply Z.ltb_lt in H
         | H : (_ <? _) = false |- _ => apply Z.ltb_ge in H
         end;
  try (apply Z.ltb_lt; lia); try (apply Z.ltb_ge; lia).

Lemma min_scan_spec (dist : PyDict.t OpenDigraph.num) (h : heap)
  (q : list Z) :
  (forall v, In v q -> PyDict.contains v dist = true) ->
  forall (m : OpenDigraph.num) (o : option Z),
  exists r m',
    OpenDigraph.min_scan dist q m o h = Done r h /\
    OpenDigraph.num_ltb m m' = false /\
    (forall v dv, In v q -> PyDict.get v dist = Some dv ->
                  OpenDigraph.num_ltb dv m' = false) /\
    ((r = o /\ m' = m) \/
     (exists u, r = Some u /\ In u q /\ PyDict.get u dist = Some m' /\
                OpenDigraph.num_ltb m' m = true)).
Proof.
  induction q as [|node q IH]; intros Hall m o.
  - exists o, m. split; [reflexivity|]. split; [num_order|].
    split; [intros v dv []|]. now left.
  - assert (Hnode := Hall node (or_introl eq_refl)).
    apply contains_get in Hnode. destruct Hnode as [d Hd].
    assert (Hq : forall v, In v q -> PyDict.contains v dist = true)
      by (intros v Hv; apply Hall; now right).
    cbn [OpenDigraph.min_scan]. unfold OpenDigraph.lookup at 1.
    rewrite Hd. unfold bind at 1. unfold ret at 1.
    destruct (OpenDigraph.num_ltb d m) eqn:Hlt.
    + destruct (IH Hq d (Some node)) as (r & m' & Hrun & Hle & Hmin & Hres).
      exists r, m'. split; [exact Hrun|].
      split; [clear Hmin Hres Hrun; num_order|].
      split.
      * intros v dv [<-|Hv] Hg.
        -- rewrite Hd in Hg. inversion Hg; subst dv. exact Hle.
        -- now apply (Hmin v).
      * right. destruct Hres as [[-> ->]|(u & -> & Hu & Hg & Hlt')].
        -- exists node. repeat split; try assumption. now left.
        -- exists u. repeat split; try assumption; [now right|].
           clear Hmin Hrun Hle. num_order.
    + destruct (IH Hq m o) as (r & m' & Hrun & Hle & Hmin & Hres).
      exists r, m'. split; [exact Hrun|]. split; [exact Hle|].
      split.
      * intros v dv [<-|Hv] Hg.
        -- rewrite Hd in Hg. inversion Hg; subst dv.
           clear Hmin Hres Hrun. num_order.
        -- now apply (Hmin v).
      * destruct Hres as [[-> ->]|(u & -> & Hu & Hg & Hlt')];
          [now left | right].
        exists u. repeat split; try assumption. now right.
Qed.

Lemma min_scan_missing (dist : PyDict.t OpenDigraph.num) (h : heap)
  (q : list Z) :
  (exists v, In v q /\ PyDict.contains v dist = false) ->
  forall (m : OpenDigraph.num) (o : option Z),
  exists w,
    OpenDigraph.min_scan dist q m o h = Raise (KeyError (Some w)) h /\
    In w q /\ PyDict.contains w dist = false.
Proof.
  induction q as [|node q IH]; intros (v & Hv & Habs) m o.
  - destruct Hv.
  - cbn [OpenDigraph.min_scan]. unfold OpenDigraph.lookup at 1.
    destruct (PyDict.get node dist) as [d|] eqn:Hd.
    + assert (Hq : exists v, In v q /\ PyDict.contains v dist = false).
      { exists v. split; [|exact Habs]. destruct Hv as [<-|Hv]; [|exact Hv].
        unfold PyDict.contains in Habs. now rewrite Hd in Habs. }
      unfold bind at 1. unfold ret at 1.
      destruct (OpenDigraph.num_ltb d m);
        [ destruct (IH Hq d (Some node)) as (w & Hrun & Hw & Hwabs)
        | destruct (IH Hq m o) as (w & Hrun & Hw & Hwabs) ];
        exists w; (split; [exact Hrun | split; [now right | exact Hwabs]]).
    + exists node. split; [reflexivity|]. split; [now left|].
      unfold PyDict.contains. now rewrite Hd.
Qed.

(** X16.  [min_distance] does not touch the heap.  When every node of the
    queue has an entry in the distance map, it returns a node of the queue
    whose distance is finite and no greater than that of any other node of
    the queue, or [None] when every node of the queue is at infinite
    distance (in particular for the empty queue).  When some node of the
    queue has no entry, it raises KeyError on such a node. *)
Theorem min_distance_picks_a_nearest_node
  (dist : PyDict.t OpenDigraph.num) (q : list Z) (h : heap) :
  ((forall v, In v q -> PyDict.contains v dist = true) ->
   exists r,
     OpenDigraph.min_distance dist q h = Done r h /\
     match r with
     | Some u =>
         In u q /\
         exists d, PyDict.get u dist = Some (OpenDigraph.Fin d) /\
                   forall v dv, In v q -> PyDict.get v dist = Some dv ->
                                OpenDigraph.num_ltb dv (OpenDigraph.Fin d)
                                = false
     | None =>
         forall v dv, In v q -> PyDict.get v dist = Some dv ->
                      dv = OpenDigraph.Inf
     end) /\
  ((exists v, In v q /\ PyDict.contains v dist = false) ->
   exists w,
     OpenDigraph.min_distance dist q h = Raise (KeyError (Some w)) h /\
     In w q /\ PyDict.contains w dist = false).
Proof.
  split.
  - intro Hall.
    destruct (min_scan_spec dist h q Hall OpenDigraph.Inf None)
      as (r & m' & Hrun & _ & Hmin & Hres).
    exists r. split; [exact Hrun|].
    destruct Hres as [[-> ->]|(u & -> & Hu & Hg & Hlt)].
    + intros v dv Hv Hget. specialize (Hmin v dv Hv Hget).
      destruct dv; [discriminate | reflexivity].
    + split; [exact Hu|]. destruct m' as [d|]; [|discriminate].
      exists d. split; [exact Hg | exact Hmin].
  - intro Hmiss. exact (min_scan_missing dist h q Hmiss OpenDigraph.Inf None).
Qed.

(** X16 on a queue of three nodes, one of them still at infinite
    distance, and on a queue with a node the map does not know. *)
Lemma min_distance_witness :
  (exists r,
     OpenDigraph.min_distance
       [(4, OpenDigraph.Fin 2); (6, OpenDigraph.Inf); (8, OpenDigraph.Fin 1)]
       [4; 6; 8] empty_heap = Done r empty_heap /\
     match r with
     | Some u =>
         In u [4; 6; 8] /\
         exists d,
           PyDict.get u [(4, OpenDigraph.Fin 2); (6, OpenDigraph.Inf);
                         (8, OpenDigraph.Fin 1)]
           = Some (OpenDigraph.Fin d) /\
           forall v dv, In v [4; 6; 8] ->
             PyDict.get v [(4, OpenDigraph.Fin 2); (6, OpenDigraph.Inf);
                           (8, OpenDigraph.Fin 1)] = Some dv ->
             OpenDigraph.num_ltb dv (OpenDigraph.Fin d) = false
     | None =>
         forall v dv, In v [4; 6; 8] ->
           PyDict.get v [(4, OpenDigraph.Fin 2); (6, OpenDigraph.Inf);
                         (8, OpenDigraph.Fin 1)] = Some dv ->
           dv = OpenDigraph.Inf
     end) /\
  (exists w,
     OpenDigraph.min_distance [(4, OpenDigraph.Fin 2)] [4; 5] empty_heap
     = Raise (KeyError (Some w)) empty_heap /\
     In w [4; 5] /\ PyDict.contains w [(4, OpenDigraph.Fin 2)] = false).
Proof.
  split.
  - apply (proj1 (min_distance_picks_a_nearest_node
                    [(4, OpenDigraph.Fin 2); (6, OpenDigraph.Inf);
                     (8, OpenDigraph.Fin 1)] [4; 6; 8] empty_heap)).
    intros v [<-|[<-|[<-|[]]]]; reflexivity.
  - apply (proj2 (min_distance_picks_a_nearest_node
                    [(4, OpenDigraph.Fin 2)] [4; 5] empty_heap)).
    exists 5. split; [right; now left | reflexivity].
Defined.

(** *** Unreachable targets *)

Lemma for_dict_empty (d : ref) (body : Z -> M unit) (h : heap) :
  nth_error (h_dicts h) d = Some [] -> for_dict d body h = Done tt h.
Proof.
  intro Hd. unfold for_dict, for_dict_return. unfold bind at 1.
  now rewrite (bind_done _ _ _ _ _ (read_dict_at _ _ _ Hd)).
Qed.

Lemma dijkstra_loop_done (fuel : nat) (self : ref) (direction tgt : option Z)
  (dist : PyDict.t OpenDigraph.num) (prev : PyDict.t Z) (h : heap) :
  OpenDigraph.dijkstra_loop fuel self direction tgt
    (OpenDigraph.mk_search [] dist prev) h
  = Done (dist, prev) h.
Proof. now destruct fuel. Qed.

(** X17.  From a node that has neither children nor parents, the search
    in both directions ends after one round with the source alone in the
    distance map, and [shortest_path] to any other node raises KeyError on
    that node, the heap being as before. *)
Theorem shortest_path_from_isolated_node
  (fuel : nat) (h : heap) (self : ref) (gr : graph_obj) (u v : Z)
  (r : ref) (n : node_obj) :
  nth_error (h_graphs h) self = Some gr ->
  PyDict.get u (nodes gr) = Some r ->
  nth_error (h_nodes h) r = Some n ->
  nth_error (h_dicts h) (node_children n) = Some [] ->
  nth_error (h_dicts h) (node_parents n) = Some [] ->
  u <> v ->
  OpenDigraph.dijkstra (S fuel) self u None (Some v) h
  = Done ([(u, OpenDigraph.Fin 0)], []) h /\
  OpenDigraph.shortest_path (S fuel) self u v h
  = Raise (KeyError (Some v)) h.
Proof.
  intros Hgr Hu Hn Hcs Hps Hne.
  assert (Hrun : OpenDigraph.dijkstra (S fuel) self u None (Some v) h
                 = Done ([(u, OpenDigraph.Fin 0)], []) h).
  { unfold OpenDigraph.dijkstra. cbn [OpenDigraph.dijkstra_loop
      OpenDigraph.queue OpenDigraph.dist OpenDigraph.prev].
    rewrite (bind_done _ _ _ _ _
               (min_distance_single u (OpenDigraph.Fin 0) h eq_refl)).
    assert (Hneq : OpenDigraph.opt_eqb (Some u) (Some v) = false)
      by (simpl; now apply Z.eqb_neq).
    rewrite Hneq.
    assert (Hnb : OpenDigraph.neighbors_of self (Some u) None h
                  = Done (node_children n) h).
    { unfold OpenDigraph.neighbors_of, OpenDigraph.node_of.
      rewrite (bind_done _ _ _ _ _ (get_node_by_id_at _ _ _ _ _ Hgr Hu)).
      rewrite (bind_done _ _ _ _ _ (get_children_at _ _ _ Hn)).
      rewrite (bind_done _ _ _ _ _ (get_node_by_id_at _ _ _ _ _ Hgr Hu)).
      rewrite (bind_done _ _ _ _ _ (get_parents_at _ _ _ Hn)).
      now rewrite (bind_done _ _ _ _ _ (for_dict_empty _ _ _ Hps)). }
    rewrite (bind_done _ _ _ _ _ Hnb).
    rewrite (bind_done _ _ _ _ _ (read_dict_at _ _ _ Hcs)).
    cbn [PyDict.keys map OpenDigraph.relax].
    erewrite bind_done by reflexivity.
    cbn [OpenDigraph.queue OpenDigraph.list_remove].
    rewrite Z.eqb_refl.
    erewrite bind_done by reflexivity.
    apply dijkstra_loop_done. }
  split; [exact Hrun|].
  unfold OpenDigraph.shortest_path.
  rewrite (bind_done _ _ _ _ _ Hrun). cbn [snd OpenDigraph.walk_back].
  assert (Hvu : (v =? u) = false) by (apply Z.eqb_neq; congruence).
  now rewrite Hvu.
Qed.

(** X17 on a graph of two nodes and no edge. *)
Lemma shortest_path_isolated_witness :
  OpenDigraph.dijkstra 1 0%nat 0 None (Some 1)
    (heap_of (build [] [] (unlabelled [0; 1]) []))
  = Done ([(0, OpenDigraph.Fin 0)], [])
         (heap_of (build [] [] (unlabelled [0; 1]) [])) /\
  OpenDigraph.shortest_path 1 0%nat 0 1
    (heap_of (build [] [] (unlabelled [0; 1]) []))
  = Raise (KeyError (Some 1)) (heap_of (build [] [] (unlabelled [0; 1]) [])).
Proof.
  apply (shortest_path_from_isolated_node 0
           (heap_of (build [] [] (unlabelled [0; 1]) [])) 0%nat
           (mk_graph [] [] [(0, 0%nat); (1, 1%nat)]) 0 1 0%nat
           (mk_node 0 "" 0%nat 1%nat)); try reflexivity.
  lia.
Defined.

(** *** Rewrite rules away from their gate *)

Lemma in_keys_get {V} (k : Z) (d : PyDict.t V) :
  In k (PyDict.keys d) -> exists v, PyDict.get k d = Some v.
Proof.
  induction d as [|[k' v'] d IH]; simpl; [intros []|].
  intros [->|Hin].
  - exists v'. now rewrite Z.eqb_refl.
  - destruct (k' =? k); [now exists v' | now apply IH].
Qed.

(** A scan over the node ids that looks at the label of each node and
    does something only under the label [gate]. *)
Lemma scan_skips (h : heap) (self : BoolCirc.t) (gr : graph_obj)
  (gate : string) (act : Z -> ref -> M unit) (ids : list Z) :
  nth_error (h_graphs h) (BoolCirc.g self) = Some gr ->
  no_gate h gr gate ->
  (forall k, In k ids -> In k (PyDict.keys (nodes gr))) ->
  for_each ids (fun node_id =>
    node <- BoolCirc.node_at self node_id ;;
    label <- Node.get_label node ;;
    if String.eqb label gate then act node_id node else ret tt) h
  = Done tt h.
Proof.
  intros Hgr Hno. induction ids as [|k ids IH]; intro Hin; [reflexivity|].
  cbn [for_each].
  destruct (in_keys_get k (nodes gr) (Hin k (or_introl eq_refl))) as [r Hr].
  destruct (Hno k r Hr) as (n & Hn & Hlabel).
  assert (Hstep :
    (node <- BoolCirc.node_at self k ;;
     label <- Node.get_label node ;;
     if String.eqb label gate then act k node else ret tt) h = Done tt h).
  { unfold BoolCirc.node_at.
    rewrite (bind_done _ _ _ _ _ (get_node_by_id_at _ _ _ _ _ Hgr Hr)).
    rewrite (bind_done _ _ _ _ _ (get_label_at _ _ _ Hn)).
    apply String.eqb_neq in Hlabel. now rewrite Hlabel. }
  rewrite (bind_done _ _ _ _ _ Hstep).
  apply IH. intros k' Hk'. apply Hin. now right.
Qed.

Lemma rules_skip (h : heap) (self : BoolCirc.t) (gr : graph_obj) :
  nth_error (h_graphs h) (BoolCirc.g self) = Some gr ->
  (no_gate h gr "&" -> BoolCirc.rule_and self h = Done tt h) /\
  (no_gate h gr "|" -> BoolCirc.rule_or self h = Done tt h) /\
  (no_gate h gr BoolCirc.NOT -> BoolCirc.rule_not self h = Done tt h) /\
  (no_gate h gr BoolCirc.XOR -> BoolCirc.rule_xor self h = Done tt h).
Proof.
  intro Hgr.
  unfold BoolCirc.rule_and, BoolCirc.rule_or, BoolCirc.rule_not,
    BoolCirc.rule_xor.
  rewrite !(bind_done _ _ _ _ _ (get_node_ids_at _ _ _ Hgr)).
  repeat split; intro Hno;
    (eapply scan_skips with (act := fun _ _ => _);
     [exact Hgr | exact Hno | auto]).
Qed.

(** X18.  A rewrite rule leaves a circuit without its gate alone: when no
    node of the wrapped graph is labelled "&", [rule_and] returns with the
    heap unchanged, and likewise [rule_or] for "|", [rule_not] for its NOT
    sign and [rule_xor] for its XOR sign. *)
Theorem rules_skip_other_labels
  (h : heap) (self : BoolCirc.t) (gr : graph_obj) :
  nth_error (h_graphs h) (BoolCirc.g self) = Some gr ->
  (no_gate h gr "&" -> BoolCirc.rule_and self h = Done tt h) /\
  (no_gate h gr "|" -> BoolCirc.rule_or self h = Done tt h) /\
  (no_gate h gr BoolCirc.NOT -> BoolCirc.rule_not self h = Done tt h) /\
  (no_gate h gr BoolCirc.XOR -> BoolCirc.rule_xor self h = Done tt h).
Proof. exact (rules_skip h self gr). Qed.

Lemma sample_has_no_gate (gate : string) :
  gate <> "" -> no_gate sample_heap sample_graph gate.
Proof.
  intros Hgate k r H. unfold sample_graph in H. cbn [nodes PyDict.get] in H.
  destruct (0 =? k);
    [inversion H; subst; eexists; split; [reflexivity | now apply not_eq_sym]|].
  destruct (3 =? k);
    [inversion H; subst; eexists; split; [reflexivity | now apply not_eq_sym]|].
  destruct (7 =? k);
    [inversion H; subst; eexists; split; [reflexivity | now apply not_eq_sym]|].
  discriminate.
Qed.

(** X18 on the graph 0 -> 3 -> 7, whose nodes are unlabelled. *)
Lemma rules_skip_witness :
  BoolCirc.rule_and (BoolCirc.mk 0%nat 0%nat) sample_heap
  = Done tt sample_heap /\
  BoolCirc.rule_or (BoolCirc.mk 0%nat 0%nat) sample_heap
  = Done tt sample_heap /\
  BoolCirc.rule_not (BoolCirc.mk 0%nat 0%nat) sample_heap
  = Done tt sample_heap /\
  BoolCirc.rule_xor (BoolCirc.mk 0%nat 0%nat) sample_heap
  = Done tt sample_heap.
Proof.
  destruct (rules_skip_other_labels sample_heap (BoolCirc.mk 0%nat 0%nat)
              sample_graph eq_refl) as (Hand & Hor & Hnot & Hxor).
  split; [apply Hand | split; [apply Hor | split; [apply Hnot | apply Hxor]]];
    apply sample_has_no_gate; discriminate.
Defined.

(** *** What [is_well_formed] guarantees *)

Lemma bind_inv_ro {A B} (c : M A) (k : A -> M B) (h h' : heap) (b : B) :
  read_only c -> bind c k h = Done b h' ->
  exists a, c h = Done a h /\ k a h = Done b h'.
Proof.
  intros Hro H. unfold bind in H. specialize (Hro h).
  destruct (c h) as [a h1|e h1| |]; try discriminate.
  subst h1. now exists a.
Qed.

Lemma for_return_none_inv {A R} (l : list A) (body : A -> M (option R))
  (h h' : heap) :
  (forall x, read_only (body x)) ->
  for_return l body h = Done None h' ->
  forall x, In x l -> body x h = Done None h.
Proof.
  intros Hro. induction l as [|y l IH]; intros H x Hin; [destruct Hin|].
  cbn [for_return] in H.
  apply bind_inv_ro in H; [|apply Hro]. destruct H as ([v|] & Hy & H).
  - discriminate.
  - destruct Hin as [<-|Hin]; [exact Hy | now apply IH].
Qed.

Lemma never_true_for_return {A} (l : list A) (body : A -> M (option bool)) :
  (forall x, never_true (body x)) -> never_true (for_return l body).
Proof.
  intro Hb. induction l as [|y l IH]; intros h h' H.
  - discriminate.
  - cbn [for_return] in H. unfold bind in H.
    destruct (body y h) as [[v|] h1|e h1| |] eqn:Hy; try discriminate.
    + inversion H; subst. exact (Hb y h h' Hy).
    + exact (IH h1 h' H).
Qed.

Lemma never_true_bind {A} (c : M A) (k : A -> M (option bool)) :
  (forall a, never_true (k a)) -> never_true (bind c k).
Proof.
  intros Hk h h' H. unfold bind in H.
  destruct (c h) as [a h1|e h1| |]; try discriminate.
  exact (Hk a h1 h' H).
Qed.

Lemma never_true_check (b : bool) :
  never_true (if b then ret (Some false) else ret None).
Proof. intros h h' H. destruct b; discriminate. Qed.

Lemma unless_true_inv (c : M (option bool)) (k : M bool) (h : heap) :
  read_only c -> never_true c ->
  OpenDigraph.unless_returned c k h = Done true h ->
  c h = Done None h /\ k h = Done true h.
Proof.
  intros Hro Hnt H. unfold OpenDigraph.unless_returned in H.
  apply bind_inv_ro in H; [|exact Hro]. destruct H as ([b|] & Hc & H).
  - inversion H; subst. exfalso. exact (Hnt h h Hc).
  - now split.
Qed.

Lemma read_node_inv (h h' : heap) (r : ref) (n : node_obj) :
  read_node r h = Done n h' -> nth_error (h_nodes h) r = Some n.
Proof.
  unfold read_node, of_option.
  destruct (nth_error (h_nodes h) r); intro H; now inversion H.
Qed.

Lemma read_dict_inv (h h' : heap) (r : ref) (d : PyDict.t Z) :
  read_dict r h = Done d h' -> nth_error (h_dicts h) r = Some d.
Proof.
  unfold read_dict, of_option.
  destruct (nth_error (h_dicts h) r); intro H; now inversion H.
Qed.

Lemma get_node_by_id_inv (h h' : heap) (self : ref) (gr : graph_obj)
  (k : Z) (r : ref) :
  nth_error (h_graphs h) self = Some gr ->
  OpenDigraph.get_node_by_id self k h = Done r h' ->
  PyDict.get k (nodes gr) = Some r.
Proof.
  intros Hgr H. unfold OpenDigraph.get_node_by_id in H.
  rewrite (bind_done _ _ _ _ _ (read_graph_at _ _ _ Hgr)) in H.
  destruct (PyDict.get k (nodes gr)); now inversion H.
Qed.

Lemma get_children_inv (h h' : heap) (r cr : ref) :
  Node.get_children r h = Done cr h' ->
  exists n, nth_error (h_nodes h) r = Some n /\ node_children n = cr.
Proof.
  unfold Node.get_children. intro H.
  apply bind_inv_ro in H; [|apply ro_read_node]. destruct H as (n & Hn & H).
  exists n. split; [now apply read_node_inv in Hn | now inversion H].
Qed.

Lemma get_parents_inv (h h' : heap) (r pr : ref) :
  Node.get_parents r h = Done pr h' ->
  exists n, nth_error (h_nodes h) r = Some n /\ node_parents n = pr.
Proof.
  unfold Node.get_parents. intro H.
  apply bind_inv_ro in H; [|apply ro_read_node]. destruct H as (n & Hn & H).
  exists n. split; [now apply read_node_inv in Hn | now inversion H].
Qed.

(** What [port_ok] lets through: one entry of multiplicity 1 on one side,
    nothing on the other. *)
Lemma port_ok_inv (one none : PyDict.t Z) :
  OpenDigraph.port_ok one none = None ->
  none = [] /\ exists k, one = [(k, 1)].
Proof.
  unfold OpenDigraph.port_ok, PyDict.len.
  destruct (Z.eqb_spec (Z.of_nat (List.length one)) 1) as [Hone|];
    [|discriminate].
  destruct (Z.gtb_spec (Z.of_nat (List.length none)) 0) as [|Hnone];
    [discriminate|].
  cbn [negb orb].
  destruct (forallb _ _) eqn:Hall; [|discriminate]. intros _.
  split.
  - destruct none; [reflexivity | simpl in Hnone; lia].
  - destruct one as [|[k m] [|e one]]; simpl in Hone; try lia.
    simpl in Hall. rewrite andb_true_r in Hall.
    apply Z.eqb_eq in Hall. subst m. now exists k.
Qed.

Ltac ro_basic :=
  first [ apply ro_graph_getters | apply ro_node_getters
        | apply ro_read_dict | apply ro_read_node | apply ro_read_graph ].

Ltac inv_bind H a Ha :=
  apply bind_inv_ro in H; [ destruct H as (a & Ha & H) | ro_basic ].

Lemma never_true_mirrored (self : ref) (k : Z) (mine : ref)
  (pick : ref -> M ref) : never_true (OpenDigraph.mirrored self k mine pick).
Proof.
  unfold OpenDigraph.mirrored. apply never_true_bind. intro d.
  apply never_true_for_return. intro entry.
  apply never_true_bind. intro other.
  apply never_true_bind. intro back.
  apply never_true_bind. intro bd.
  intros h h' H. destruct (PyDict.get k bd) as [m|]; [|discriminate].
  destruct (negb (m =? snd entry)); discriminate.
Qed.

Lemma mirrored_inv (h : heap) (self : ref) (k : Z) (mine : ref)
  (pick : ref -> M ref) (d : PyDict.t Z) :
  (forall r, read_only (pick r)) ->
  nth_error (h_dicts h) mine = Some d ->
  OpenDigraph.mirrored self k mine pick h = Done None h ->
  forall c m, In (c, m) d ->
    exists bd,
      (other <- OpenDigraph.get_node_by_id self c ;;
       back <- pick other ;; read_dict back) h = Done bd h /\
      PyDict.get k bd = Some m.
Proof.
  intros Hpick Hd H c m Hin. unfold OpenDigraph.mirrored in H.
  rewrite (bind_done _ _ _ _ _ (read_dict_at _ _ _ Hd)) in H.
  eapply for_return_none_inv in H; [ | | exact Hin ].
  - cbn [fst snd] in H.
    inv_bind H other Hother.
    apply bind_inv_ro in H; [|apply Hpick]. destruct H as (back & Hback & H).
    inv_bind H bd Hbd.
    exists bd. split.
    + rewrite (bind_done _ _ _ _ _ Hother).
      now rewrite (bind_done _ _ _ _ _ Hback).
    + destruct (PyDict.get k bd) as [m'|]; [|discriminate].
      destruct (Z.eqb_spec m' m); [now subst | discriminate].
  - intro entry.
    apply ro_bind; [ro_basic|]. intro other.
    apply ro_bind; [apply Hpick|]. intro back.
    apply ro_bind; [ro_basic|]. intro bd.
    destruct (PyDict.get k bd) as [m'|]; [|apply ro_ret].
    destruct (negb _); apply ro_ret.
Qed.

Lemma port_inv (h : heap) (self : ref) (i : Z)
  (judge : PyDict.t Z -> PyDict.t Z -> option bool) :
  (input_node <- OpenDigraph.get_node_by_id self i ;;
   cr <- Node.get_children input_node ;;
   children <- read_dict cr ;;
   pr <- Node.get_parents input_node ;;
   parents <- read_dict pr ;;
   ret (judge children parents)) h = Done None h ->
  exists cs ps,
    OpenDigraph.children_of self i h = Done cs h /\
    OpenDigraph.parents_of self i h = Done ps h /\
    judge cs ps = None.
Proof.
  intro H.
  inv_bind H n Hn. inv_bind H cr Hcr. inv_bind H cs Hcs.
  inv_bind H pr Hpr. inv_bind H ps Hps.
  exists cs, ps. unfold OpenDigraph.children_of, OpenDigraph.parents_of.
  rewrite !(bind_done _ _ _ _ _ Hn).
  rewrite (bind_done _ _ _ _ _ Hcr), (bind_done _ _ _ _ _ Hpr).
  repeat split; try assumption. now inversion H.
Qed.

Lemma get_input_ids_at (h : heap) (self : ref) (gr : graph_obj) :
  nth_error (h_graphs h) self = Some gr ->
  OpenDigraph.get_input_ids self h = Done (inputs gr) h.
Proof.
  intro H. unfold OpenDigraph.get_input_ids.
  now rewrite (bind_done _ _ _ _ _ (read_graph_at _ _ _ H)).
Qed.

Lemma get_output_ids_at (h : heap) (self : ref) (gr : graph_obj) :
  nth_error (h_graphs h) self = Some gr ->
  OpenDigraph.get_output_ids self h = Done (outputs gr) h.
Proof.
  intro H. unfold OpenDigraph.get_output_ids.
  now rewrite (bind_done _ _ _ _ _ (read_graph_at _ _ _ H)).
Qed.

Lemma get_id_node_map_at (h : heap) (self : ref) (gr : graph_obj) :
  nth_error (h_graphs h) self = Some gr ->
  OpenDigraph.get_id_node_map self h = Done (nodes gr) h.
Proof.
  intro H. unfold OpenDigraph.get_id_node_map.
  now rewrite (bind_done _ _ _ _ _ (read_graph_at _ _ _ H)).
Qed.

Lemma ro_port_check (self : ref) (i : Z)
  (judge : PyDict.t Z -> PyDict.t Z -> option bool) :
  read_only
    (input_node <- OpenDigraph.get_node_by_id self i ;;
     cr <- Node.get_children input_node ;;
     children <- read_dict cr ;;
     pr <- Node.get_parents input_node ;;
     parents <- read_dict pr ;;
     ret (judge children parents)).
Proof.
  apply ro_bind; [ro_basic|]. intro n.
  apply ro_bind; [ro_basic|]. intro cr.
  apply ro_bind; [ro_basic|]. intro cs.
  apply ro_bind; [ro_basic|]. intro pr.
  apply ro_bind; [ro_basic|]. intro ps. apply ro_ret.
Qed.

Lemma never_true_port_ok (self : ref) (i : Z) (swap : bool) :
  never_true
    (input_node <- OpenDigraph.get_node_by_id self i ;;
     cr <- Node.get_children input_node ;;
     children <- read_dict cr ;;
     pr <- Node.get_parents input_node ;;
     parents <- read_dict pr ;;
     ret (if swap then OpenDigraph.port_ok parents children
          else OpenDigraph.port_ok children parents)).
Proof.
  do 5 (apply never_true_bind; intro).
  intros h h' H. unfold ret in H. inversion H as [Hp].
  unfold OpenDigraph.port_ok in Hp.
  destruct swap;
    destruct (_ || _); try discriminate;
    destruct (forallb _ _); discriminate.
Qed.

(** Soundness: a [True] answer means the invariants hold. *)
Lemma well_formed_sound (h : heap) (self : ref) (gr : graph_obj) :
  nth_error (h_graphs h) self = Some gr ->
  OpenDigraph.is_well_formed self h = Done true h ->
  invariants h self gr.
Proof.
  intros Hgr H. unfold invariants.
  unfold OpenDigraph.is_well_formed in H.
  rewrite (bind_done _ _ _ _ _ (get_node_ids_at _ _ _ Hgr)) in H.
  rewrite (bind_done _ _ _ _ _ (get_input_ids_at _ _ _ Hgr)) in H.
  rewrite (bind_done _ _ _ _ _ (get_output_ids_at _ _ _ Hgr)) in H.
  apply unless_true_inv in H;
    [ | apply ro_for_return; intro; read_only_auto
      | apply never_true_for_return; intro; apply never_true_check ].
  destruct H as [H1 H].
  apply unless_true_inv in H;
    [ | apply ro_for_return; intro; read_only_auto
      | apply never_true_for_return; intro; apply never_true_check ].
  destruct H as [H1' H].
  apply unless_true_inv in H;
    [ | apply ro_for_return; intro; apply ro_port_check
      | apply never_true_for_return; intro;
        apply (never_true_port_ok self _ false) ].
  destruct H as [H2 H].
  apply unless_true_inv in H;
    [ | apply ro_for_return; intro;
        apply (ro_port_check self _ (fun c p => OpenDigraph.port_ok p c))
      | apply never_true_for_return; intro;
        apply (never_true_port_ok self _ true) ].
  destruct H as [H3 H].
  rewrite (bind_done _ _ _ _ _ (get_id_node_map_at _ _ _ Hgr)) in H.
  apply unless_true_inv in H;
    [ | apply ro_for_return; intro; read_only_auto
      | apply never_true_for_return; intro;
        apply never_true_bind; intro; apply never_true_check ].
  destruct H as [H4 H].
  rewrite (bind_done _ _ _ _ _ (get_id_node_map_at _ _ _ Hgr)) in H.
  assert (Hro5 : forall item : Z * ref,
    read_only
      (cr <- Node.get_children (snd item) ;;
       r <- OpenDigraph.mirrored self (fst item) cr Node.get_parents ;;
       match r with
       | Some b => ret (Some b)
       | None =>
           pr <- Node.get_parents (snd item) ;;
           OpenDigraph.mirrored self (fst item) pr Node.get_children
       end)).
  { intro item. apply ro_bind; [ro_basic|]. intro cr.
    apply ro_bind; [apply ro_mirrored; intro; ro_basic|].
    intros [b|]; [apply ro_ret|].
    apply ro_bind; [ro_basic|]. intro pr.
    apply ro_mirrored. intro. ro_basic. }
  apply unless_true_inv in H; [ | apply ro_for_return; exact Hro5 | ].
  2:{ apply never_true_for_return. intro item.
      apply never_true_bind. intro cr.
      intros h0 h0' Hc. unfold bind in Hc.
      destruct (OpenDigraph.mirrored self (fst item) cr Node.get_parents h0)
        as [[b|] h1|e h1| |] eqn:Hm; try discriminate.
      - inversion Hc; subst. exact (never_true_mirrored _ _ _ _ _ _ Hm).
      - revert Hc. apply never_true_bind. intro pr.
        apply never_true_mirrored. }
  destruct H as [H5 _].
  split.
  { intros i [Hi|Hi];
      [ eapply for_return_none_inv in H1 | eapply for_return_none_inv in H1' ];
      try exact Hi; try (intro; read_only_auto).
    - cbv beta in H1. rewrite mem_keys in H1.
      now destruct (PyDict.contains i (nodes gr)).
    - cbv beta in H1'. rewrite mem_keys in H1'.
      now destruct (PyDict.contains i (nodes gr)). }
  split.
  { intros i Hi.
    eapply for_return_none_inv in H2;
      [ | intro; apply ro_port_check | exact Hi ].
    apply (port_inv h self i OpenDigraph.port_ok) in H2.
    destruct H2 as (cs & ps & Hcs & Hps & Hok).
    apply port_ok_inv in Hok. destruct Hok as [-> [c ->]].
    now exists c. }
  split.
  { intros i Hi.
    eapply for_return_none_inv in H3;
      [ | intro;
          apply (ro_port_check self _ (fun c p => OpenDigraph.port_ok p c))
        | exact Hi ].
    apply (port_inv h self i (fun c p => OpenDigraph.port_ok p c)) in H3.
    destruct H3 as (cs & ps & Hcs & Hps & Hok).
    apply port_ok_inv in Hok. destruct Hok as [-> [p ->]].
    now exists p. }
  intros k r Hin.
  eapply for_return_none_inv in H4;
    [ | intro; read_only_auto | exact Hin ].
  eapply for_return_none_inv in H5; [ | exact Hro5 | exact Hin ].
  cbn [fst snd] in H4, H5.
  inv_bind H4 i Hid.
  unfold Node.get_id in Hid. inv_bind Hid n Hn.
  apply read_node_inv in Hn. inversion Hid; subst i.
  destruct (Z.eqb_spec (node_id n) k) as [Hk|]; [|discriminate].
  rewrite (bind_done _ _ _ _ _ (get_children_at _ _ _ Hn)) in H5.
  apply bind_inv_ro in H5; [|apply ro_mirrored; intro; ro_basic].
  destruct H5 as ([b|] & Hm1 & H5).
  { discriminate. }
  rewrite (bind_done _ _ _ _ _ (get_parents_at _ _ _ Hn)) in H5.
  assert (Hcs : exists cs, nth_error (h_dicts h) (node_children n) = Some cs).
  { unfold OpenDigraph.mirrored in Hm1. inv_bind Hm1 d Hd.
    exists d. now apply read_dict_inv in Hd. }
  assert (Hps : exists ps, nth_error (h_dicts h) (node_parents n) = Some ps).
  { unfold OpenDigraph.mirrored in H5. inv_bind H5 d Hd.
    exists d. now apply read_dict_inv in Hd. }
  destruct Hcs as [cs Hcs]. destruct Hps as [ps Hps].
  exists n, cs, ps. repeat split; try assumption.
  - intros c m Hc.
    exact (mirrored_inv h self k _ Node.get_parents cs
             (fun r0 => proj1 (proj2 (proj2 (ro_node_getters r0))))
             Hcs Hm1 c m Hc).
  - intros p m Hp.
    exact (mirrored_inv h self k _ Node.get_children ps
             (fun r0 => proj1 (proj2 (proj2 (proj2 (ro_node_getters r0)))))
             Hps H5 p m Hp).
Qed.

Lemma for_return_all_none {A R} (l : list A) (body : A -> M (option R))
  (h : heap) :
  (forall x, In x l -> body x h = Done None h) ->
  for_return l body h = Done None h.
Proof.
  induction l as [|y l IH]; intro Hall; [reflexivity|].
  cbn [for_return].
  rewrite (bind_done _ _ _ _ _ (Hall y (or_introl eq_refl))).
  apply IH. intros x Hx. apply Hall. now right.
Qed.

Lemma port_check_passes (h : heap) (self : ref) (i : Z)
  (cs ps : PyDict.t Z) (judge : PyDict.t Z -> PyDict.t Z -> option bool) :
  OpenDigraph.children_of self i h = Done cs h ->
  OpenDigraph.parents_of self i h = Done ps h ->
  (input_node <- OpenDigraph.get_node_by_id self i ;;
   cr <- Node.get_children input_node ;;
   children <- read_dict cr ;;
   pr <- Node.get_parents input_node ;;
   parents <- read_dict pr ;;
   ret (judge children parents)) h = Done (judge cs ps) h.
Proof.
  intros Hcs Hps.
  unfold OpenDigraph.children_of in Hcs. unfold OpenDigraph.parents_of in Hps.
  inv_bind Hcs n Hn. inv_bind Hcs cr Hcr.
  rewrite (bind_done _ _ _ _ _ Hn) in Hps. inv_bind Hps pr Hpr.
  rewrite (bind_done _ _ _ _ _ Hn), (bind_done _ _ _ _ _ Hcr).
  rewrite (bind_done _ _ _ _ _ Hcs), (bind_done _ _ _ _ _ Hpr).
  now rewrite (bind_done _ _ _ _ _ Hps).
Qed.

Lemma mirrored_passes (h : heap) (self : ref) (k : Z) (mine : ref)
  (pick : ref -> M ref) (d : PyDict.t Z) :
  nth_error (h_dicts h) mine = Some d ->
  (forall c m, In (c, m) d ->
     exists bd,
       (other <- OpenDigraph.get_node_by_id self c ;;
        back <- pick other ;; read_dict back) h = Done bd h /\
       PyDict.get k bd = Some m) ->
  (forall r, read_only (pick r)) ->
  OpenDigraph.mirrored self k mine pick h = Done None h.
Proof.
  intros Hd Hall Hpick. unfold OpenDigraph.mirrored.
  rewrite (bind_done _ _ _ _ _ (read_dict_at _ _ _ Hd)).
  apply for_return_all_none. intros [c m] Hin.
  destruct (Hall c m Hin) as (bd & Hbd & Hget). cbn [fst snd].
  inv_bind Hbd other Hother.
  apply bind_inv_ro in Hbd; [|apply Hpick].
  destruct Hbd as (back & Hback & Hbd).
  rewrite (bind_done _ _ _ _ _ Hother), (bind_done _ _ _ _ _ Hback).
  rewrite (bind_done _ _ _ _ _ Hbd), Hget.
  now rewrite Z.eqb_refl.
Qed.

(** Completeness: when the invariants hold, the answer is [True]. *)
Lemma well_formed_complete (h : heap) (self : ref) (gr : graph_obj) :
  nth_error (h_graphs h) self = Some gr ->
  invariants h self gr ->
  OpenDigraph.is_well_formed self h = Done true h.
Proof.
  intros Hgr (H1 & H2 & H3 & H45).
  unfold OpenDigraph.is_well_formed, OpenDigraph.unless_returned.
  rewrite (bind_done _ _ _ _ _ (get_node_ids_at _ _ _ Hgr)).
  rewrite (bind_done _ _ _ _ _ (get_input_ids_at _ _ _ Hgr)).
  rewrite (bind_done _ _ _ _ _ (get_output_ids_at _ _ _ Hgr)).
  erewrite bind_done.
  2:{ apply for_return_all_none. intros i Hi. rewrite mem_keys.
      now rewrite (H1 i (or_introl Hi)). }
  cbv beta iota.
  erewrite bind_done.
  2:{ apply for_return_all_none. intros i Hi. rewrite mem_keys.
      now rewrite (H1 i (or_intror Hi)). }
  cbv beta iota.
  erewrite bind_done.
  2:{ apply for_return_all_none. intros i Hi.
      destruct (H2 i Hi) as (c & Hcs & Hps).
      rewrite (port_check_passes h self i _ _ OpenDigraph.port_ok Hcs Hps).
      reflexivity. }
  cbv beta iota.
  erewrite bind_done.
  2:{ apply for_return_all_none. intros i Hi.
      destruct (H3 i Hi) as (p & Hps & Hcs).
      rewrite (port_check_passes h self i _ _
                 (fun c q => OpenDigraph.port_ok q c) Hcs Hps).
      reflexivity. }
  cbv beta iota.
  rewrite (bind_done _ _ _ _ _ (get_id_node_map_at _ _ _ Hgr)).
  erewrite bind_done.
  2:{ apply for_return_all_none. intros [k r] Hin.
      destruct (H45 k r Hin) as (n & cs & ps & Hn & Hk & _).
      cbn [fst snd]. rewrite (bind_done _ _ _ _ _ (get_id_at _ _ _ Hn)).
      rewrite Hk. now rewrite Z.eqb_refl. }
  cbv beta iota.
  rewrite (bind_done _ _ _ _ _ (get_id_node_map_at _ _ _ Hgr)).
  erewrite bind_done.
  2:{ apply for_return_all_none. intros [k r] Hin.
      destruct (H45 k r Hin) as (n & cs & ps & Hn & Hk & Hcs & Hps & Hc & Hp).
      cbn [fst snd].
      rewrite (bind_done _ _ _ _ _ (get_children_at _ _ _ Hn)).
      erewrite bind_done.
      2:{ apply (mirrored_passes h self k _ Node.get_parents cs Hcs Hc).
          intro. ro_basic. }
      cbv beta iota.
      rewrite (bind_done _ _ _ _ _ (get_parents_at _ _ _ Hn)).
      apply (mirrored_passes h self k _ Node.get_children ps Hps Hp).
      intro. ro_basic. }
  reflexivity.
Qed.

(** X19.  [is_well_formed] decides the five invariants: it answers [True],
    leaving the heap as it is, exactly when every interface id is a node,
    every input node has no parent and one child of multiplicity 1, every
    output node has no child and one parent of multiplicity 1, every node
    is filed under its own id, and every child entry of a node is matched
    by a parent entry of the same multiplicity in the child and conversely. *)
Theorem is_well_formed_decides_the_invariants
  (h : heap) (self : ref) (gr : graph_obj) :
  nth_error (h_graphs h) self = Some gr ->
  OpenDigraph.is_well_formed self h = Done true h <-> invariants h self gr.
Proof.
  intro Hgr. split.
  - now apply well_formed_sound.
  - now apply well_formed_complete.
Qed.

(** X19 on the graph 0 -> 3 -> 7 with input 0 and output 7. *)
Lemma is_well_formed_witness :
  OpenDigraph.is_well_formed 0%nat sample_heap = Done true sample_heap
  <-> invariants sample_heap 0%nat sample_graph.
Proof.
  apply (is_well_formed_decides_the_invariants sample_heap 0%nat sample_graph).
  reflexivity.
Defined.

(** *** The constructor *)

Lemma contains_set {V} (k x : Z) (v : V) (d : PyDict.t V) :
  PyDict.contains x (PyDict.set k v d) = (x =? k) || PyDict.contains x d.
Proof.
  unfold PyDict.contains. destruct (Z.eqb_spec x k) as [->|Hne].
  - now rewrite get_set_same.
  - rewrite get_set_other by congruence. reflexivity.
Qed.

Lemma distinct_set {V} (k : Z) (v : V) (d : PyDict.t V) :
  distinct (PyDict.keys d) = true ->
  distinct (PyDict.keys (PyDict.set k v d)) = true.
Proof.
  induction d as [|[k' v'] d IH]; [reflexivity|].
  cbn [PyDict.set PyDict.keys map fst distinct]. intro H.
  apply andb_true_iff in H. destruct H as [Hfresh Hrest].
  destruct (Z.eqb_spec k' k) as [->|Hne];
    cbn [PyDict.keys map fst distinct].
  - now rewrite Hfresh, Hrest.
  - fold (PyDict.keys (PyDict.set k v d)).
    rewrite mem_keys, contains_set, <- mem_keys.
    apply negb_true_iff in Hfresh. fold (PyDict.keys d) in Hfresh.
    rewrite Hfresh. destruct (Z.eqb_spec k' k); [contradiction|].
    cbn [orb negb andb]. now apply IH.
Qed.

Lemma in_set {V} (k k' : Z) (v v' : V) (d : PyDict.t V) :
  In (k', v') (PyDict.set k v d) -> (k' = k /\ v' = v) \/ In (k', v') d.
Proof.
  induction d as [|[k0 v0] d IH]; simpl.
  - intros [H|[]]. inversion H. now left.
  - destruct (Z.eqb_spec k0 k) as [->|Hne]; simpl.
    + intros [H|H]; [inversion H; now left | right; now right].
    + intros [H|H]; [right; now left|].
      destruct (IH H) as [?|?]; [now left | right; now right].
Qed.

Lemma length_set {V} (k : Z) (v : V) (d : PyDict.t V) :
  (List.length (PyDict.set k v d) <= S (List.length d))%nat.
Proof.
  induction d as [|[k' v'] d IH]; simpl; [lia|].
  destruct (k' =? k); simpl; lia.
Qed.

Lemma index_nodes_spec (h : heap) (ns : list ref) :
  forallb (fun r => Nat.ltb r (List.length (h_nodes h))) ns = true ->
  forall acc,
  exists d,
    OpenDigraph.index_nodes ns acc h = Done d h /\
    (distinct (PyDict.keys acc) = true -> distinct (PyDict.keys d) = true) /\
    (List.length d <= List.length acc + List.length ns)%nat /\
    (forall k r, In (k, r) d ->
       In (k, r) acc \/ (In r ns /\ Node.get_id r h = Done k h)) /\
    (forall k, PyDict.contains k acc = true -> PyDict.contains k d = true) /\
    (forall r, In r ns ->
       exists k, Node.get_id r h = Done k h /\ PyDict.contains k d = true).
Proof.
  induction ns as [|r ns IH]; intros Hvalid acc.
  - exists acc. split; [reflexivity|].
    split; [auto|]. split; [simpl; lia|].
    split; [auto|]. split; [auto|]. intros r [].
  - cbn [forallb] in Hvalid. apply andb_true_iff in Hvalid.
    destruct Hvalid as [Hr Hns]. apply Nat.ltb_lt in Hr.
    destruct (nth_error (h_nodes h) r) as [n|] eqn:Hn;
      [|apply nth_error_None in Hn; lia].
    destruct (IH Hns (PyDict.set (node_id n) r acc))
      as (d & Hrun & Hdist & Hlen & Hin & Hkeep & Hall).
    exists d. split.
    { cbn [OpenDigraph.index_nodes].
      now rewrite (bind_done _ _ _ _ _ (get_id_at _ _ _ Hn)). }
    split; [intro Hacc; now apply Hdist, distinct_set|].
    split.
    { pose proof (length_set (node_id n) r acc). simpl. lia. }
    split.
    { intros k r' Hd. destruct (Hin k r' Hd) as [Hs|[Hr' Hid]].
      - apply in_set in Hs. destruct Hs as [[-> ->]|Hs]; [|now left].
        right. split; [now left | now apply get_id_at].
      - right. split; [now right | exact Hid]. }
    split.
    { intros k Hk. apply Hkeep. rewrite contains_set, Hk. apply orb_true_r. }
    intros r' [<-|Hr'].
    + exists (node_id n). split; [now apply get_id_at|].
      apply Hkeep. rewrite contains_set, Z.eqb_refl. reflexivity.
    + now apply Hall.
Qed.

(** X20.  The constructor files every node it is given under the id the
    node carries: in the new graph object the keys of the node map are
    pairwise distinct, every entry holds one of the given nodes under that
    node's own id, and the id of every given node is a key; the interface
    lists are the ones passed and nothing that existed is changed.  (Two
    given nodes with the same id leave a single entry.) *)
Theorem constructor_files_nodes_under_their_ids
  (h : heap) (ins outs : list Z) (ns : list ref) :
  forallb (fun r => Nat.ltb r (List.length (h_nodes h))) ns = true ->
  exists d,
    OpenDigraph.init ins outs ns h
    = Done (List.length (h_graphs h))
           (mk_heap (h_dicts h) (h_nodes h)
                    (h_graphs h ++ [mk_graph ins outs d])) /\
    distinct (PyDict.keys d) = true /\
    (List.length d <= List.length ns)%nat /\
    (forall k r, In (k, r) d -> In r ns /\ Node.get_id r h = Done k h) /\
    (forall r, In r ns ->
       exists k, Node.get_id r h = Done k h /\ PyDict.contains k d = true).
Proof.
  intro Hvalid.
  destruct (index_nodes_spec h ns Hvalid [])
    as (d & Hrun & Hdist & Hlen & Hin & _ & Hall).
  exists d. split.
  { unfold OpenDigraph.init. now rewrite (bind_done _ _ _ _ _ Hrun). }
  split; [now apply Hdist|].
  split; [exact Hlen|]. split; [|exact Hall].
  intros k r Hd. destruct (Hin k r Hd) as [[]|H]. exact H.
Qed.

(** X20 on the three nodes of the graph 0 -> 3 -> 7, the last one given
    twice. *)
Lemma constructor_witness :
  exists d,
    OpenDigraph.init [0] [7] [0; 1; 2; 2]%nat sample_heap
    = Done (List.length (h_graphs sample_heap))
           (mk_heap (h_dicts sample_heap) (h_nodes sample_heap)
                    (h_graphs sample_heap ++ [mk_graph [0] [7] d])) /\
    distinct (PyDict.keys d) = true /\
    (List.length d <= List.length [0; 1; 2; 2]%nat)%nat /\
    (forall k r, In (k, r) d ->
       In r [0; 1; 2; 2]%nat /\ Node.get_id r sample_heap = Done k sample_heap) /\
    (forall r, In r [0; 1; 2; 2]%nat ->
       exists k, Node.get_id r sample_heap = Done k sample_heap /\
                 PyDict.contains k d = true).
Proof.
  apply (constructor_files_nodes_under_their_ids sample_heap [0] [7]
           [0; 1; 2; 2]%nat).
  reflexivity.
Defined.

(** *** Circuits accepted by the constructor *)

Lemma label_mem_In (x : string) (l : list string) :
  label_mem x l = true -> In x l.
Proof.
  unfold label_mem. intro H. apply existsb_exists in H.
  destruct H as (y & Hy & Heq). apply String.eqb_eq in Heq. now subst.
Qed.

Lemma never_true_label_check (node : ref) :
  never_true
    (label <- Node.get_label node ;;
     if String.eqb label "" then
       d <- Node.indegree node ;;
       if negb (d =? 1) then ret (Some false) else ret None
     else if negb (label_mem label ["0"; "1"; "~"; "|"; "&"; "^"])
     then ret (Some false)
     else ret None).
Proof.
  apply never_true_bind. intro label.
  destruct (String.eqb label "").
  - apply never_true_bind. intro d. apply never_true_check.
  - apply never_true_check.
Qed.

Lemma ro_label_check (node : ref) :
  read_only
    (label <- Node.get_label node ;;
     if String.eqb label "" then
       d <- Node.indegree node ;;
       if negb (d =? 1) then ret (Some false) else ret None
     else if negb (label_mem label ["0"; "1"; "~"; "|"; "&"; "^"])
     then ret (Some false)
     else ret None).
Proof.
  apply ro_bind; [ro_basic|]. intro label.
  destruct (String.eqb label "").
  - apply ro_bind; [ro_basic|]. intro d. destruct (negb _); apply ro_ret.
  - destruct (negb _); apply ro_ret.
Qed.

Lemma label_check_inv (h : heap) (node : ref) :
  (label <- Node.get_label node ;;
   if String.eqb label "" then
     d <- Node.indegree node ;;
     if negb (d =? 1) then ret (Some false) else ret None
   else if negb (label_mem label ["0"; "1"; "~"; "|"; "&"; "^"])
   then ret (Some false)
   else ret None) h = Done None h ->
  exists n,
    nth_error (h_nodes h) node = Some n /\
    ((node_label n = "" /\ Node.indegree node h = Done 1 h) \/
     In (node_label n) gate_alphabet).
Proof.
  intro H. inv_bind H label Hlabel.
  unfold Node.get_label in Hlabel. inv_bind Hlabel n Hn.
  apply read_node_inv in Hn. inversion Hlabel; subst label.
  exists n. split; [exact Hn|].
  destruct (String.eqb_spec (node_label n) "") as [Hempty|Hne].
  - left. split; [exact Hempty|].
    inv_bind H d Hd. destruct (Z.eqb_spec d 1); [now subst | discriminate].
  - right. destruct (label_mem _ _) eqn:Hmem; [|discriminate].
    now apply label_mem_In.
Qed.

(** X21.  What the check of the [BoolCirc] constructor guarantees: when
    [BoolCirc.is_well_formed] answers [True], the two calls it makes on the
    wrapped graph have answered, [is_well_formed] with [True] and
    [is_cyclic] with [False], and every node is either unlabelled with
    indegree 1 or labelled with one of "0", "1", "~", "|", "&", "^".  The
    signs that [rule_not] and [rule_xor] look for are not among these, so
    on such a circuit both rules return with the heap unchanged. *)
Theorem accepted_circuits_are_within_the_alphabet
  (h : heap) (self : BoolCirc.t) (gr : graph_obj) :
  nth_error (h_graphs h) (BoolCirc.g self) = Some gr ->
  BoolCirc.is_well_formed self h = Done true h ->
  OpenDigraph.is_well_formed (BoolCirc.g self) h = Done true h /\
  OpenDigraph.is_cyclic (BoolCirc.g self) h = Done false h /\
  (forall k r, In (k, r) (nodes gr) ->
     exists n,
       nth_error (h_nodes h) r = Some n /\
       ((node_label n = "" /\ Node.indegree r h = Done 1 h) \/
        In (node_label n) gate_alphabet)) /\
  BoolCirc.rule_not self h = Done tt h /\
  BoolCirc.rule_xor self h = Done tt h.
Proof.
  intros Hgr H. unfold BoolCirc.is_well_formed in H.
  assert (Hns : OpenDigraph.get_nodes (BoolCirc.g self) h
                = Done (PyDict.values (nodes gr)) h).
  { unfold OpenDigraph.get_nodes.
    now rewrite (bind_done _ _ _ _ _ (read_graph_at _ _ _ Hgr)). }
  rewrite (bind_done _ _ _ _ _ Hns) in H.
  apply unless_true_inv in H;
    [ | apply ro_for_return; intro; apply ro_label_check
      | apply never_true_for_return; intro; apply never_true_label_check ].
  destruct H as [Hlabels H].
  apply bind_inv_ro in H; [|apply ro_is_well_formed].
  destruct H as ([|] & Hwf & H); [|discriminate].
  apply bind_inv_ro in H; [|apply ro_is_cyclic].
  destruct H as (cyc & Hcyc & H).
  assert (cyc = false) by (destruct cyc; [discriminate | reflexivity]).
  subst cyc.
  assert (Hnodes : forall k r, In (k, r) (nodes gr) ->
            exists n,
              nth_error (h_nodes h) r = Some n /\
              ((node_label n = "" /\ Node.indegree r h = Done 1 h) \/
               In (node_label n) gate_alphabet)).
  { intros k r Hin. apply label_check_inv.
    eapply for_return_none_inv in Hlabels;
      [exact Hlabels | intro; apply ro_label_check | ].
    unfold PyDict.values. now apply (in_map snd _ (k, r)). }
  assert (Hgate : forall gate, gate <> "" -> ~ In gate gate_alphabet ->
                    no_gate h gr gate).
  { intros gate Hne Hout k r Hget.
    destruct (Hnodes k r (get_In _ _ _ Hget)) as (n & Hn & Hl).
    exists n. split; [exact Hn|].
    destruct Hl as [[Hl _]|Hl]; congruence. }
  destruct (rules_skip h self gr Hgr) as (_ & _ & Hnot & Hxor).
  repeat split; try assumption.
  - apply Hnot, Hgate; [discriminate|].
    unfold gate_alphabet. simpl. intuition discriminate.
  - apply Hxor, Hgate; [discriminate|].
    unfold gate_alphabet. simpl. intuition discriminate.
Qed.

(** X21 on the circuit A("1"), B("0"), C("&") with A -> C and B -> C. *)
Lemma accepted_circuit_witness :
  OpenDigraph.is_well_formed 0%nat (heap_of and_circuit)
  = Done true (heap_of and_circuit) /\
  OpenDigraph.is_cyclic 0%nat (heap_of and_circuit)
  = Done false (heap_of and_circuit) /\
  (forall k r, In (k, r) [(0, 0%nat); (1, 1%nat); (2, 2%nat)] ->
     exists n,
       nth_error (h_nodes (heap_of and_circuit)) r = Some n /\
       ((node_label n = "" /\
         Node.indegree r (heap_of and_circuit)
         = Done 1 (heap_of and_circuit)) \/
        In (node_label n) gate_alphabet)) /\
  BoolCirc.rule_not (BoolCirc.mk 0%nat 0%nat) (heap_of and_circuit)
  = Done tt (heap_of and_circuit) /\
  BoolCirc.rule_xor (BoolCirc.mk 0%nat 0%nat) (heap_of and_circuit)
  = Done tt (heap_of and_circuit).
Proof.
  apply (accepted_circuits_are_within_the_alphabet (heap_of and_circuit)
           (BoolCirc.mk 0%nat 0%nat)
           (mk_graph [] [] [(0, 0%nat); (1, 1%nat); (2, 2%nat)]));
    reflexivity.
Defined.

(** *** Evaluation of a settled circuit *)

Lemma mem_set_add (x y : Z) (s : list Z) :
  mem x (OpenDigraph.set_add y s) = (x =? y) || mem x s.
Proof.
  unfold OpenDigraph.set_add. destruct (mem y s) eqn:Hy.
  - destruct (Z.eqb_spec x y) as [->|]; [now rewrite Hy | reflexivity].
  - unfold mem. rewrite existsb_app. simpl. rewrite orb_false_r.
    apply orb_comm.
Qed.

Lemma sinks_spec (h : heap) (self : BoolCirc.t) (gr : graph_obj)
  (ids : list Z) :
  nth_error (h_graphs h) (BoolCirc.g self) = Some gr ->
  settled h gr ->
  (forall k, In k ids -> In k (PyDict.keys (nodes gr))) ->
  forall acc,
  exists outs,
    BoolCirc.sinks self ids acc h = Done outs h /\
    (forall k, mem k acc = true -> mem k outs = true) /\
    (forall k r n, In k ids -> PyDict.get k (nodes gr) = Some r ->
       nth_error (h_nodes h) r = Some n ->
       nth_error (h_dicts h) (node_children n) = Some [] ->
       mem k outs = true).
Proof.
  intros Hgr Hset. induction ids as [|k ids IH]; intros Hin acc.
  - exists acc. split; [reflexivity|]. split; [auto|]. intros k r n [].
  - destruct (in_keys_get k (nodes gr) (Hin k (or_introl eq_refl))) as [r Hr].
    destruct (Hset k r Hr) as (n & cs & ps & Hn & Hcs & Hps & _).
    assert (Hin' : forall k', In k' ids -> In k' (PyDict.keys (nodes gr)))
      by (intros k' Hk'; apply Hin; now right).
    cbn [BoolCirc.sinks]. unfold BoolCirc.node_at.
    rewrite (bind_done _ _ _ _ _ (get_node_by_id_at _ _ _ _ _ Hgr Hr)).
    rewrite (bind_done _ _ _ _ _ (outdegree_at _ _ _ _ Hn Hcs)).
    destruct (Z.eqb_spec (PyDict.len cs) 0) as [Hz|Hnz].
    + destruct (IH Hin' (OpenDigraph.set_add k acc))
        as (outs & Hrun & Hacc & Hsink).
      exists outs. split; [exact Hrun|]. split.
      * intros k' Hk'. apply Hacc. rewrite mem_set_add, Hk'.
        apply orb_true_r.
      * intros k' r' n' [<-|Hk'] Hr' Hn' Hc'.
        -- apply Hacc. rewrite mem_set_add, Z.eqb_refl. reflexivity.
        -- now apply (Hsink k' r' n').
    + destruct (IH Hin' acc) as (outs & Hrun & Hacc & Hsink).
      exists outs. split; [exact Hrun|]. split; [exact Hacc|].
      intros k' r' n' [<-|Hk'] Hr' Hn' Hc'.
      * exfalso. rewrite Hr in Hr'. inversion Hr'; subst r'.
        rewrite Hn in Hn'. inversion Hn'; subst n'.
        rewrite Hcs in Hc'. inversion Hc'; subst cs. now apply Hnz.
      * now apply (Hsink k' r' n').
Qed.

Lemma pass_idle (h : heap) (self : BoolCirc.t) (gr : graph_obj)
  (outs ids : list Z) :
  nth_error (h_graphs h) (BoolCirc.g self) = Some gr ->
  settled h gr ->
  (forall k r n, PyDict.get k (nodes gr) = Some r ->
     nth_error (h_nodes h) r = Some n ->
     nth_error (h_dicts h) (node_children n) = Some [] ->
     mem k outs = true) ->
  (forall k, In k ids -> In k (PyDict.keys (nodes gr))) ->
  BoolCirc.pass self outs ids false h = Done false h.
Proof.
  intros Hgr Hset Hsinks. induction ids as [|k ids IH]; intro Hin;
    [reflexivity|].
  destruct (in_keys_get k (nodes gr) (Hin k (or_introl eq_refl))) as [r Hr].
  destruct (Hset k r Hr) as (n & cs & ps & Hn & Hcs & Hps & Hcase).
  assert (Hin' : forall k', In k' ids -> In k' (PyDict.keys (nodes gr)))
    by (intros k' Hk'; apply Hin; now right).
  cbn [BoolCirc.pass]. unfold BoolCirc.node_at.
  rewrite (bind_done _ _ _ _ _ (get_node_by_id_at _ _ _ _ _ Hgr Hr)).
  destruct (mem k outs) eqn:Hmem; cbn [negb]; [now apply IH|].
  assert (Hsink : PyDict.len cs <> 0).
  { intro Hz. destruct cs; [|discriminate Hz].
    rewrite (Hsinks k r n Hr Hn Hcs) in Hmem. discriminate. }
  destruct Hcase as [->|(Hnot & Hand & Hor & Hxor & Hdeg)];
    [now elim Hsink|].
  rewrite (bind_done _ _ _ _ _ (get_label_at _ _ _ Hn)).
  rewrite (bind_done _ _ _ _ _ (indegree_at _ _ _ _ Hn Hps)).
  rewrite (bind_done _ _ _ _ _ (outdegree_at _ _ _ _ Hn Hcs)).
  apply String.eqb_neq in Hnot, Hand, Hor, Hxor.
  rewrite Hnot, Hand, Hor, Hxor.
  apply Z.eqb_neq in Hsink. rewrite Hsink, andb_false_r.
  replace ((PyDict.len ps =? 1) && (PyDict.len cs =? 1)) with false.
  2:{ symmetry. apply andb_false_iff.
      destruct (Z.eqb_spec (PyDict.len ps) 1) as [Hi|]; [|now left].
      destruct (Z.eqb_spec (PyDict.len cs) 1) as [Ho|]; [|now right].
      now elim Hdeg. }
  cbn [andb]. now apply IH.
Qed.

(** X22.  On a circuit in which every node is a sink, or carries no gate
    sign and does not have exactly one parent together with exactly one
    child, [evaluate] stops after its first pass and leaves the heap as it
    was: the nodes without children are set aside before the loop, so
    neither a gate that is a sink nor the copy rule is ever reached. *)
Theorem evaluate_stops_on_settled_circuits
  (fuel : nat) (h : heap) (self : BoolCirc.t) (gr : graph_obj) :
  nth_error (h_graphs h) (BoolCirc.g self) = Some gr ->
  settled h gr ->
  BoolCirc.evaluate (S fuel) self h = Done tt h.
Proof.
  intros Hgr Hset. unfold BoolCirc.evaluate.
  rewrite (bind_done _ _ _ _ _ (get_node_ids_at _ _ _ Hgr)).
  destruct (sinks_spec h self gr (PyDict.keys (nodes gr)) Hgr Hset
              (fun k Hk => Hk) []) as (outs & Hrun & _ & Hsinks).
  rewrite (bind_done _ _ _ _ _ Hrun).
  cbn [BoolCirc.passes].
  rewrite (bind_done _ _ _ _ _ (get_node_ids_at _ _ _ Hgr)).
  erewrite bind_done.
  2:{ apply (pass_idle h self gr outs _ Hgr Hset); [|auto].
      intros k r n Hr Hn Hc. apply (Hsinks k r n); try assumption.
      apply in_map_iff. exists (k, r). split; [reflexivity|].
      now apply get_In. }
  reflexivity.
Qed.

Lemma and_circuit_is_settled :
  settled (heap_of and_circuit)
    (mk_graph [] [] [(0, 0%nat); (1, 1%nat); (2, 2%nat)]).
Proof.
  intros k r Hr. cbn [nodes PyDict.get] in Hr.
  destruct (0 =? k).
  { injection Hr as <-. eexists _, _, _.
    repeat (split; [reflexivity|]). right.
    repeat split; try discriminate. intros [Hi _]. discriminate Hi. }
  destruct (1 =? k).
  { injection Hr as <-. eexists _, _, _.
    repeat (split; [reflexivity|]). right.
    repeat split; try discriminate. intros [Hi _]. discriminate Hi. }
  destruct (2 =? k); [|discriminate].
  injection Hr as <-. eexists _, _, _.
  repeat (split; [reflexivity|]). now left.
Defined.

(** X22 on the circuit A("1"), B("0"), C("&") with A -> C and B -> C, whose
    only gate is a sink. *)
Lemma evaluate_settled_witness :
  BoolCirc.evaluate 1 (BoolCirc.mk 0%nat 0%nat) (heap_of and_circuit)
  = Done tt (heap_of and_circuit).
Proof.
  apply (evaluate_stops_on_settled_circuits 0 (heap_of and_circuit)
           (BoolCirc.mk 0%nat 0%nat)
           (mk_graph [] [] [(0, 0%nat); (1, 1%nat); (2, 2%nat)])).
  - reflexivity.
  - exact and_circuit_is_settled.
Defined.

(** *** Removing a node *)

Lemma distinct_del {V} (k : Z) (d : PyDict.t V) :
  distinct (PyDict.keys d) = true ->
  distinct (PyDict.keys (PyDict.del k d)) = true.
Proof.
  induction d as [|[k0 v0] d IH]; [reflexivity|].
  cbn [PyDict.del PyDict.keys map fst distinct]. intro H.
  apply andb_true_iff in H. destruct H as [Hfresh Hrest].
  destruct (Z.eqb_spec k0 k) as [->|Hne]; [exact Hrest|].
  cbn [PyDict.keys map fst distinct].
  fold (PyDict.keys (PyDict.del k d)). fold (PyDict.keys d) in Hfresh.
  rewrite IH by exact Hrest. rewrite andb_true_r.
  rewrite mem_keys in *. unfold PyDict.contains in *.
  rewrite get_del_other by congruence. exact Hfresh.
Qed.

Lemma get_del_sub {V} (k k' : Z) (v : V) (d : PyDict.t V) :
  distinct (PyDict.keys d) = true ->
  PyDict.get k' (PyDict.del k d) = Some v -> PyDict.get k' d = Some v.
Proof.
  intros Hd H. destruct (Z.eq_dec k k') as [<-|Hne].
  - rewrite get_del_same in H by exact Hd. discriminate.
  - now rewrite get_del_other in H.
Qed.

Lemma contains_del_same {V} (k : Z) (d : PyDict.t V) :
  distinct (PyDict.keys d) = true ->
  PyDict.contains k (PyDict.del k d) = false.
Proof.
  intro Hd. unfold PyDict.contains. now rewrite get_del_same.
Qed.

Lemma pruned_refl (identity : Z) (own : list ref) (h : heap) :
  tidy h -> pruned identity own h h.
Proof.
  intro Ht. repeat split; try assumption.
  intros d m Hm. exists m. repeat split; auto.
Qed.

Lemma pruned_trans (identity : Z) (own : list ref) (h h1 h2 : heap) :
  pruned identity own h h1 -> pruned identity own h1 h2 ->
  pruned identity own h h2.
Proof.
  intros (Eg1 & En1 & _ & H1) (Eg2 & En2 & Ht2 & H2).
  split; [congruence|]. split; [congruence|]. split; [exact Ht2|].
  intros d m Hm.
  destruct (H1 d m Hm) as (m1 & Hm1 & Hsub1 & Hfr1).
  destruct (H2 d m1 Hm1) as (m2 & Hm2 & Hsub2 & Hfr2).
  exists m2. split; [exact Hm2|]. split.
  - intros k v Hk. now apply Hsub1, Hsub2.
  - intros Hown k Hk. rewrite (Hfr2 Hown k Hk). now apply Hfr1.
Qed.

Lemma pruned_absent (identity : Z) (own : list ref) (h h' : heap)
  (d : ref) (m : PyDict.t Z) (k : Z) :
  pruned identity own h h' ->
  nth_error (h_dicts h) d = Some m ->
  PyDict.contains k m = false ->
  exists m', nth_error (h_dicts h') d = Some m' /\
             PyDict.contains k m' = false.
Proof.
  intros (_ & _ & _ & H) Hm Hk.
  destruct (H d m Hm) as (m' & Hm' & Hsub & _).
  exists m'. split; [exact Hm'|].
  unfold PyDict.contains in *.
  destruct (PyDict.get k m') as [v|] eqn:Hv; [|reflexivity].
  now rewrite (Hsub k v Hv) in Hk.
Qed.

Lemma drop_pruned (identity : Z) (own : list ref) (h : heap) (d : ref)
  (m : PyDict.t Z) (k : Z) :
  tidy h ->
  nth_error (h_dicts h) d = Some m ->
  k = identity \/ In d own ->
  exists h',
    Node.drop d k h = Done tt h' /\
    pruned identity own h h' /\
    exists m', nth_error (h_dicts h') d = Some m' /\
               PyDict.contains k m' = false.
Proof.
  intros Ht Hm Hok. rewrite (drop_at _ _ _ _ Hm).
  destruct (PyDict.contains k m) eqn:Hk.
  2:{ exists h. split; [reflexivity|]. split; [now apply pruned_refl|].
      now exists m. }
  exists (with_dict d (PyDict.del k m) h). split; [reflexivity|].
  assert (Hd : distinct (PyDict.keys m) = true) by now apply (Ht d).
  split.
  - split; [reflexivity|]. split; [reflexivity|]. split.
    + intros d0 m0. cbn [with_dict h_dicts].
      destruct (Nat.eq_dec d d0) as [<-|Hne].
      * rewrite (nth_error_update_eq _ _ _ _ Hm). intro E.
        injection E as <-. now apply distinct_del.
      * rewrite (nth_error_update_neq _ _ _ _ Hne). apply Ht.
    + intros d0 m0 Hm0. cbn [with_dict h_dicts].
      destruct (Nat.eq_dec d d0) as [<-|Hne].
      * rewrite Hm in Hm0. injection Hm0 as <-.
        exists (PyDict.del k m).
        split; [now apply nth_error_update_eq with m|]. split.
        -- intros k' v. now apply get_del_sub.
        -- intros Hown k' Hk'. apply get_del_other.
           destruct Hok as [->|Hin]; [congruence | contradiction].
      * exists m0. rewrite (nth_error_update_neq _ _ _ _ Hne).
        repeat split; auto.
  - exists (PyDict.del k m).
    split; [now apply dict_after_write with m|].
    now apply contains_del_same.
Qed.

Lemma remove_parallel_edges_pruned (identity : Z) (own : list ref)
  (h : heap) (self : ref) (gr : graph_obj) (src tgt : Z) (rs rt : ref)
  (ns nt : node_obj) (dp dc : PyDict.t Z) :
  tidy h ->
  nth_error (h_graphs h) self = Some gr ->
  PyDict.get src (nodes gr) = Some rs ->
  PyDict.get tgt (nodes gr) = Some rt ->
  nth_error (h_nodes h) rs = Some ns ->
  nth_error (h_nodes h) rt = Some nt ->
  nth_error (h_dicts h) (node_parents nt) = Some dp ->
  nth_error (h_dicts h) (node_children ns) = Some dc ->
  src = identity \/ In (node_parents nt) own ->
  tgt = identity \/ In (node_children ns) own ->
  exists h',
    OpenDigraph.remove_parallel_edges self src tgt h = Done tt h' /\
    pruned identity own h h' /\
    (exists m, nth_error (h_dicts h') (node_parents nt) = Some m /\
               PyDict.contains src m = false) /\
    (exists m, nth_error (h_dicts h') (node_children ns) = Some m /\
               PyDict.contains tgt m = false).
Proof.
  intros Ht Hgr Hsrc Htgt Hns Hnt Hdp Hdc Hp Hc.
  unfold OpenDigraph.remove_parallel_edges.
  rewrite (bind_done _ _ _ _ _ (get_node_ids_at _ _ _ Hgr)).
  rewrite !mem_keys. unfold PyDict.contains at 1 2.
  rewrite Hsrc, Htgt. cbn [andb].
  rewrite (bind_done _ _ _ _ _ (get_node_by_id_at _ _ _ _ _ Hgr Htgt)).
  destruct (drop_pruned identity own h _ dp src Ht Hdp Hp)
    as (h1 & Hrun1 & Hpr1 & m1 & Hm1 & Habs1).
  assert (Hrun1' : Node.remove_parent_id rt src h = Done tt h1).
  { unfold Node.remove_parent_id.
    now rewrite (bind_done _ _ _ _ _ (get_parents_at _ _ _ Hnt)). }
  unfold bind at 1. rewrite Hrun1'.
  destruct Hpr1 as (Eg1 & En1 & Ht1 & Hd1).
  assert (Hgr1 : nth_error (h_graphs h1) self = Some gr) by now rewrite Eg1.
  assert (Hns1 : nth_error (h_nodes h1) rs = Some ns) by now rewrite En1.
  rewrite (bind_done _ _ _ _ _ (get_node_by_id_at _ _ _ _ _ Hgr1 Hsrc)).
  destruct (Hd1 _ _ Hdc) as (dc1 & Hdc1 & _).
  destruct (drop_pruned identity own h1 _ dc1 tgt Ht1 Hdc1 Hc)
    as (h2 & Hrun2 & Hpr2 & m2 & Hm2 & Habs2).
  exists h2. split.
  { unfold Node.remove_child_id.
    now rewrite (bind_done _ _ _ _ _ (get_children_at _ _ _ Hns1)). }
  split.
  { apply pruned_trans with h1; [|exact Hpr2]. now repeat split. }
  split; [|now exists m2].
  now apply (pruned_absent identity own h1 h2 _ m1).
Qed.

Lemma wired_pruned (identity : Z) (own : list ref) (h h' : heap)
  (gr : graph_obj) (k : Z) :
  pruned identity own h h' -> wired h gr k -> wired h' gr k.
Proof.
  intros (_ & En & _ & Hd) (r & n & ps & cs & Hr & Hn & Hps & Hcs).
  destruct (Hd _ _ Hps) as (ps' & Hps' & _).
  destruct (Hd _ _ Hcs) as (cs' & Hcs' & _).
  exists r, n, ps', cs'. repeat split; try assumption. now rewrite En.
Qed.

Section RemoveId.
Variables (self : ref) (gr : graph_obj) (identity : Z) (r : ref)
  (n : node_obj).
Hypothesis Hr : PyDict.get identity (nodes gr) = Some r.

Let own := [node_parents n; node_children n].

(** The two loops of [remove_id]: [towards] is [true] for the loop over
    the parents. *)
Let unlink (towards : bool) (k : Z) : M unit :=
  if towards then OpenDigraph.remove_parallel_edges self k identity
  else OpenDigraph.remove_parallel_edges self identity k.

Let far_side (towards : bool) (nk : node_obj) : ref :=
  if towards then node_children nk else node_parents nk.

Let near_side (towards : bool) : ref :=
  if towards then node_parents n else node_children n.

Lemma unlink_loop (towards : bool) (l : list Z) :
  forall h,
    tidy h ->
    nth_error (h_graphs h) self = Some gr ->
    nth_error (h_nodes h) r = Some n ->
    wired h gr identity ->
    (forall k, In k l -> wired h gr k) ->
    exists h',
      for_each l (unlink towards) h = Done tt h' /\
      pruned identity own h h' /\
      (forall k rk nk, In k l ->
         PyDict.get k (nodes gr) = Some rk ->
         nth_error (h_nodes h) rk = Some nk ->
         exists m, nth_error (h_dicts h') (far_side towards nk) = Some m /\
                   PyDict.contains identity m = false) /\
      (forall k, In k l ->
         exists m, nth_error (h_dicts h') (near_side towards) = Some m /\
                   PyDict.contains k m = false).
Proof.
  induction l as [|k l IH]; intros h Ht Hgr Hn Hself Hl.
  { exists h. split; [reflexivity|]. split; [now apply pruned_refl|].
    split; [intros k rk nk [] | intros k []]. }
  destruct (Hl k (or_introl eq_refl))
    as (rk & nk & psk & csk & Hrk & Hnk & Hpsk & Hcsk).
  destruct Hself as (r0 & n0 & ps & cs & Hr0 & Hn0 & Hps & Hcs).
  rewrite Hr in Hr0. injection Hr0 as <-.
  rewrite Hn in Hn0. injection Hn0 as <-.
  assert (Hstep : exists h1,
    unlink towards k h = Done tt h1 /\
    pruned identity own h h1 /\
    (exists m, nth_error (h_dicts h1) (far_side towards nk) = Some m /\
               PyDict.contains identity m = false) /\
    (exists m, nth_error (h_dicts h1) (near_side towards) = Some m /\
               PyDict.contains k m = false)).
  { destruct towards; cbn [unlink far_side near_side].
    - destruct (remove_parallel_edges_pruned identity own h self gr
                  k identity rk r nk n ps csk Ht Hgr Hrk Hr Hnk Hn Hps Hcsk)
        as (h1 & Hrun & Hpr & Hnear & Hfar).
      + right. now left.
      + now left.
      + exists h1. auto.
    - destruct (remove_parallel_edges_pruned identity own h self gr
                  identity k r rk n nk psk cs Ht Hgr Hr Hrk Hn Hnk Hpsk Hcs)
        as (h1 & Hrun & Hpr & Hfar & Hnear).
      + now left.
      + right. right. now left.
      + exists h1. auto. }
  destruct Hstep as (h1 & Hrun1 & Hpr1 & (mf & Hmf & Hfar) & (mn & Hmn & Hnear)).
  assert (Hpr1' := Hpr1). destruct Hpr1' as (Eg1 & En1 & Ht1 & _).
  destruct (IH h1 Ht1) as (h2 & Hrun2 & Hpr2 & Hfar2 & Hnear2).
  { now rewrite Eg1. }
  { now rewrite En1. }
  { apply (wired_pruned identity own h h1); [exact Hpr1|].
    now exists r, n, ps, cs. }
  { intros k' Hk'. apply (wired_pruned identity own h h1); [exact Hpr1|].
    apply Hl. now right. }
  exists h2. split.
  { cbn [for_each]. unfold bind. now rewrite Hrun1. }
  split; [now apply pruned_trans with h1|]. split.
  - intros k' rk' nk' [<-|Hk'] Hrk' Hnk'.
    + rewrite Hrk in Hrk'. injection Hrk' as <-.
      rewrite Hnk in Hnk'. injection Hnk' as <-.
      now apply (pruned_absent identity own h1 h2 _ mf).
    + apply (Hfar2 k' rk' nk' Hk' Hrk'). now rewrite En1.
  - intros k' [<-|Hk'].
    + now apply (pruned_absent identity own h1 h2 _ mn).
    + now apply Hnear2.
Qed.

End RemoveId.

Lemma sub_empty {V} (m m' : PyDict.t V) :
  (forall k v, PyDict.get k m' = Some v -> PyDict.get k m = Some v) ->
  (forall k, In k (PyDict.keys m) -> PyDict.contains k m' = false) ->
  m' = [].
Proof.
  intros Hsub Habs. destruct m' as [|[k v] m']; [reflexivity|].
  assert (Hk : PyDict.get k ((k, v) :: m') = Some v)
    by (simpl; now rewrite Z.eqb_refl).
  assert (Hin : In k (PyDict.keys m)).
  { apply in_map_iff. exists (k, v). split; [reflexivity|].
    now apply get_In, Hsub. }
  specialize (Habs k Hin). unfold PyDict.contains in Habs.
  now rewrite Hk in Habs.
Qed.

Lemma forallb_filter_del {V} (identity : Z) (d : PyDict.t V) (l : list Z) :
  (forall i, In i l -> PyDict.contains i d = true) ->
  forallb (fun i => PyDict.contains i (PyDict.del identity d))
    (filter (fun node => negb (node =? identity)) l) = true.
Proof.
  intro H. apply forallb_forall. intros i Hi.
  apply filter_In in Hi. destruct Hi as [Hi Hne].
  apply negb_true_iff, Z.eqb_neq in Hne.
  unfold PyDict.contains. rewrite get_del_other by congruence.
  now apply H.
Qed.

Lemma with_graph_twice (h : heap) (r : ref) (g1 g2 : graph_obj) :
  with_graph r g2 (with_graph r g1 h) = with_graph r g2 h.
Proof. unfold with_graph. cbn. now rewrite update_update. Qed.

Lemma set_inputs_at (h : heap) (self : ref) (gr : graph_obj) (l : list Z) :
  nth_error (h_graphs h) self = Some gr ->
  forallb (fun i => PyDict.contains i (nodes gr)) l = true ->
  OpenDigraph.set_inputs self l h
  = Done tt (with_graph self (mk_graph l (outputs gr) (nodes gr)) h).
Proof.
  intros Hgr Hall. unfold OpenDigraph.set_inputs.
  rewrite (bind_done _ _ _ _ _ (get_node_ids_at _ _ _ Hgr)).
  unfold bind at 1. rewrite for_each_check, forallb_mem_keys, Hall.
  now rewrite (bind_done _ _ _ _ _ (read_graph_at _ _ _ Hgr)).
Qed.

(** X23.  [remove_id] on a node all of whose recorded neighbours are nodes
    of the graph (in a graph whose interface ids are nodes) returns
    normally.  Afterwards the id is deleted from the node map; the input
    list is filtered when the id was an input, replaced by the filtered
    output list when it was an output only, and the output list is never
    changed.  Dictionaries only lose entries: outside the removed node's
    own two dictionaries nothing but the entry for the removed id is lost;
    no recorded parent keeps it as a child and no recorded child keeps it
    as a parent; the removed node's own dictionaries end up empty. *)
Theorem remove_id_unlinks_and_unregisters
  (h : heap) (self : ref) (gr : graph_obj) (identity : Z) (r : ref)
  (n : node_obj) (ps cs : PyDict.t Z) :
  tidy h ->
  nth_error (h_graphs h) self = Some gr ->
  PyDict.get identity (nodes gr) = Some r ->
  nth_error (h_nodes h) r = Some n ->
  nth_error (h_dicts h) (node_parents n) = Some ps ->
  nth_error (h_dicts h) (node_children n) = Some cs ->
  (forall k, In k (PyDict.keys ps) \/ In k (PyDict.keys cs) ->
     wired h gr k) ->
  (forall i, In i (inputs gr) \/ In i (outputs gr) ->
     PyDict.contains i (nodes gr) = true) ->
  exists h',
    OpenDigraph.remove_id self identity h
    = Done tt
        (with_graph self
           (mk_graph (inputs_without identity gr) (outputs gr)
              (PyDict.del identity (nodes gr))) h') /\
    pruned identity [node_parents n; node_children n] h h' /\
    (forall p rp np, In p (PyDict.keys ps) ->
       PyDict.get p (nodes gr) = Some rp ->
       nth_error (h_nodes h) rp = Some np ->
       exists m, nth_error (h_dicts h') (node_children np) = Some m /\
                 PyDict.contains identity m = false) /\
    (forall c rc nc, In c (PyDict.keys cs) ->
       PyDict.get c (nodes gr) = Some rc ->
       nth_error (h_nodes h) rc = Some nc ->
       exists m, nth_error (h_dicts h') (node_parents nc) = Some m /\
                 PyDict.contains identity m = false) /\
    nth_error (h_dicts h') (node_parents n) = Some [] /\
    nth_error (h_dicts h') (node_children n) = Some [].
Proof.
  intros Ht Hgr Hr Hn Hps Hcs Hnb Hif.
  set (own := [node_parents n; node_children n]).
  assert (Hself : wired h gr identity) by now exists r, n, ps, cs.
  destruct (unlink_loop self gr identity r n Hr true (PyDict.keys ps)
              h Ht Hgr Hn Hself) as (h1 & Hrun1 & Hpr1 & Hfar1 & Hnear1).
  { intros k Hk. apply Hnb. now left. }
  assert (Hpr1' := Hpr1). destruct Hpr1' as (Eg1 & En1 & Ht1 & Hd1).
  destruct (unlink_loop self gr identity r n Hr false (PyDict.keys cs) h1 Ht1)
    as (h2 & Hrun2 & Hpr2 & Hfar2 & Hnear2).
  { now rewrite Eg1. }
  { now rewrite En1. }
  { now apply (wired_pruned identity own h h1). }
  { intros k Hk. apply (wired_pruned identity own h h1); [exact Hpr1|].
    apply Hnb. now right. }
  assert (Hpr : pruned identity own h h2) by now apply pruned_trans with h1.
  assert (Hpr' := Hpr). destruct Hpr' as (Eg2 & En2 & Ht2 & Hd2).
  assert (Hgr2 : nth_error (h_graphs h2) self = Some gr) by now rewrite Eg2.
  exists h2. split; [|split; [exact Hpr|split; [|split; [|split]]]].
  - unfold OpenDigraph.remove_id.
    rewrite (bind_done _ _ _ _ _ (get_node_ids_at _ _ _ Hgr)).
    rewrite mem_keys. unfold PyDict.contains at 1. rewrite Hr.
    rewrite (bind_done _ _ _ _ _ (parents_of_at _ _ _ _ _ _ _ Hgr Hr Hn Hps)).
    rewrite (bind_done _ _ _ _ _ (children_of_at _ _ _ _ _ _ _ Hgr Hr Hn Hcs)).
    unfold bind at 1. cbv beta in Hrun1. rewrite Hrun1.
    unfold bind at 1. cbv beta in Hrun2. rewrite Hrun2.
    set (gr1 := mk_graph (inputs gr) (outputs gr)
                  (PyDict.del identity (nodes gr))).
    assert (Hpop : OpenDigraph.pop_node self identity h2
                   = Done tt (with_graph self gr1 h2)).
    { unfold OpenDigraph.pop_node.
      rewrite (bind_done _ _ _ _ _ (read_graph_at _ _ _ Hgr2)).
      unfold PyDict.contains. now rewrite Hr. }
    unfold bind at 1. rewrite Hpop.
    assert (Hgr3 : nth_error (h_graphs (with_graph self gr1 h2)) self
                   = Some gr1) by now apply graph_after_write with gr.
    rewrite (bind_done _ _ _ _ _ (get_input_ids_at _ _ _ Hgr3)).
    rewrite (bind_done _ _ _ _ _ (get_output_ids_at _ _ _ Hgr3)).
    unfold inputs_without. cbn [gr1 inputs outputs].
    destruct (mem identity (inputs gr)).
    { rewrite (set_inputs_at _ _ _ _ Hgr3).
      - now rewrite with_graph_twice.
      - apply forallb_filter_del. auto. }
    destruct (mem identity (outputs gr)).
    { rewrite (set_inputs_at _ _ _ _ Hgr3).
      - now rewrite with_graph_twice.
      - apply forallb_filter_del. auto. }
    reflexivity.
  - intros p rp np Hp Hrp Hnp.
    destruct (Hfar1 p rp np Hp Hrp Hnp) as (m & Hm & Habs).
    now apply (pruned_absent identity own h1 h2 _ m).
  - intros c rc nc Hc Hrc Hnc. apply (Hfar2 c rc nc Hc Hrc).
    now rewrite En1.
  - destruct (Hd2 _ _ Hps) as (m & Hm & Hsub & _). rewrite Hm. f_equal.
    apply (sub_empty ps m Hsub). intros k Hk.
    destruct (Hnear1 k Hk) as (m1 & Hm1 & Habs1).
    destruct (pruned_absent identity own h1 h2 _ m1 k Hpr2 Hm1 Habs1)
      as (m2 & Hm2 & Habs2).
    cbn in Hm2. rewrite Hm in Hm2. now injection Hm2 as <-.
  - destruct (Hd2 _ _ Hcs) as (m & Hm & Hsub & _). rewrite Hm. f_equal.
    apply (sub_empty cs m Hsub). intros k Hk.
    destruct (Hnear2 k Hk) as (m2 & Hm2 & Habs2).
    cbn in Hm2. rewrite Hm in Hm2. now injection Hm2 as <-.
Qed.

Lemma sample_heap_is_tidy : tidy sample_heap.
Proof.
  intros d m H.
  do 6 (destruct d as [|d]; [injection H as <-; reflexivity|]).
  destruct d; discriminate H.
Defined.

(** X23 on the graph 0 -> 3 -> 7 with input 0 and output 7, removing the
    input node 0. *)
Lemma remove_id_witness :
  exists h',
    OpenDigraph.remove_id 0%nat 0 sample_heap
    = Done tt
        (with_graph 0%nat
           (mk_graph (inputs_without 0 sample_graph) (outputs sample_graph)
              (PyDict.del 0 (nodes sample_graph))) h') /\
    pruned 0 [0%nat; 1%nat] sample_heap h' /\
    (forall p rp np, In p (PyDict.keys (@nil (Z * Z))) ->
       PyDict.get p (nodes sample_graph) = Some rp ->
       nth_error (h_nodes sample_heap) rp = Some np ->
       exists m, nth_error (h_dicts h') (node_children np) = Some m /\
                 PyDict.contains 0 m = false) /\
    (forall c rc nc, In c (PyDict.keys [(3, 1)]) ->
       PyDict.get c (nodes sample_graph) = Some rc ->
       nth_error (h_nodes sample_heap) rc = Some nc ->
       exists m, nth_error (h_dicts h') (node_parents nc) = Some m /\
                 PyDict.contains 0 m = false) /\
    nth_error (h_dicts h') 0%nat = Some [] /\
    nth_error (h_dicts h') 1%nat = Some [].
Proof.
  apply (remove_id_unlinks_and_unregisters sample_heap 0%nat sample_graph 0
           0%nat (mk_node 0 "" 0%nat 1%nat) [] [(3, 1)]).
  - exact sample_heap_is_tidy.
  - reflexivity.
  - reflexivity.
  - reflexivity.
  - reflexivity.
  - reflexivity.
  - intros k [[]|[<-|[]]].
    exists 1%nat, (mk_node 3 "" 2%nat 3%nat), [(0, 1)], [(7, 1)].
    repeat split.
  - intros i [[<-|[]]|[<-|[]]]; reflexivity.
Defined.

(** *** Shifting the indices *)

Lemma shifted_acc (n k : Z) (d acc : PyDict.t Z) :
  distinct (PyDict.keys d) = true ->
  PyDict.get (k + n)
    (fold_left (fun acc kv => PyDict.set (fst kv + n) (snd kv) acc) d acc)
  = match PyDict.get k d with
    | Some v => Some v
    | None => PyDict.get (k + n) acc
    end.
Proof.
  revert acc. induction d as [|[k0 v0] d IH]; intros acc Hd; [reflexivity|].
  cbn [PyDict.keys map fst distinct] in Hd.
  apply andb_true_iff in Hd. destruct Hd as [Hfresh Hd].
  cbn [fold_left fst snd PyDict.get]. rewrite IH by exact Hd.
  destruct (Z.eqb_spec k0 k) as [->|Hne].
  - apply negb_true_iff in Hfresh. fold (PyDict.keys d) in Hfresh.
    rewrite mem_keys in Hfresh. unfold PyDict.contains in Hfresh.
    destruct (PyDict.get k d); [discriminate|].
    apply get_set_same.
  - destruct (PyDict.get k d); [reflexivity|].
    apply get_set_other. lia.
Qed.

Lemma shifted_get (n k : Z) (d : PyDict.t Z) :
  distinct (PyDict.keys d) = true ->
  PyDict.get (k + n) (OpenDigraph.shifted n d) = PyDict.get k d.
Proof.
  intro Hd. unfold OpenDigraph.shifted. rewrite shifted_acc by exact Hd.
  now destruct (PyDict.get k d).
Qed.

Lemma shift_node_at (n : Z) (h : heap) (r : ref) (nd : node_obj)
  (ps cs : PyDict.t Z) :
  nth_error (h_nodes h) r = Some nd ->
  nth_error (h_dicts h) (node_parents nd) = Some ps ->
  nth_error (h_dicts h) (node_children nd) = Some cs ->
  shift_node n r h
  = Done tt
      (mk_heap
         ((h_dicts h ++ [OpenDigraph.shifted n ps])
            ++ [OpenDigraph.shifted n cs])
         (update r (mk_node (node_id nd + n) (node_label nd)
                      (List.length (h_dicts h))
                      (S (List.length (h_dicts h))))
            (h_nodes h))
         (h_graphs h)).
Proof.
  intros Hnd Hps Hcs. unfold shift_node.
  rewrite (bind_done _ _ _ _ _ (get_id_at _ _ _ Hnd)).
  unfold Node.set_id, Node.get_parents, Node.get_children.
  unfold bind, read_node, write_node, read_dict, new_dict, of_option, ret.
  cbn [h_nodes h_dicts h_graphs].
  rewrite Hnd. cbn [h_nodes h_dicts h_graphs node_id node_label
                      node_parents node_children].
  rewrite (nth_error_update_eq _ _ _ _ Hnd).
  cbn [h_nodes h_dicts h_graphs node_id node_label
         node_parents node_children].
  rewrite Hps. cbn [h_nodes h_dicts h_graphs].
  rewrite (nth_error_update_eq _ _ _ _ Hnd).
  cbn [h_nodes h_dicts h_graphs node_id node_label
         node_parents node_children].
  rewrite update_update.
  rewrite (nth_error_update_eq _ _ _ _ Hnd).
  cbn [h_nodes h_dicts h_graphs node_id node_label
         node_parents node_children].
  rewrite (nth_error_old _ [OpenDigraph.shifted n ps] _ _ Hcs).
  cbn [h_nodes h_dicts h_graphs].
  rewrite (nth_error_update_eq _ _ _ _ Hnd).
  cbn [h_nodes h_dicts h_graphs node_id node_label
         node_parents node_children].
  rewrite update_update, length_app, Nat.add_1_r. reflexivity.
Qed.

Lemma shift_loop (n : Z) (l : list ref) :
  forall h,
    NoDup l ->
    (forall r, In r l -> allocated h r) ->
    exists h',
      for_each l (shift_node n) h = Done tt h' /\
      h_graphs h' = h_graphs h /\
      (forall d m, nth_error (h_dicts h) d = Some m ->
         nth_error (h_dicts h') d = Some m) /\
      (forall r, ~ In r l ->
         nth_error (h_nodes h') r = nth_error (h_nodes h) r) /\
      (forall r nd ps cs, In r l ->
         nth_error (h_nodes h) r = Some nd ->
         nth_error (h_dicts h) (node_parents nd) = Some ps ->
         nth_error (h_dicts h) (node_children nd) = Some cs ->
         exists p' c',
           nth_error (h_nodes h') r
           = Some (mk_node (node_id nd + n) (node_label nd) p' c') /\
           (List.length (h_dicts h) <= p')%nat /\
           (List.length (h_dicts h) <= c')%nat /\
           nth_error (h_dicts h') p' = Some (OpenDigraph.shifted n ps) /\
           nth_error (h_dicts h') c' = Some (OpenDigraph.shifted n cs)).
Proof.
  induction l as [|r l IH]; intros h Hnodup Hall.
  { exists h. split; [reflexivity|]. split; [reflexivity|].
    split; [auto|]. split; [auto|]. intros r nd ps cs []. }
  inversion Hnodup as [|? ? Hfresh Hnodup']; subst.
  destruct (Hall r (or_introl eq_refl)) as (nd & ps & cs & Hnd & Hps & Hcs).
  set (L := List.length (h_dicts h)).
  set (h1 := mk_heap
               ((h_dicts h ++ [OpenDigraph.shifted n ps])
                  ++ [OpenDigraph.shifted n cs])
               (update r (mk_node (node_id nd + n) (node_label nd) L (S L))
                  (h_nodes h))
               (h_graphs h)).
  assert (Hrun : shift_node n r h = Done tt h1)
    by now apply shift_node_at.
  assert (Hext : forall d m, nth_error (h_dicts h) d = Some m ->
                   nth_error (h_dicts h1) d = Some m).
  { intros d m Hm. cbn [h1 h_dicts]. now apply nth_error_old, nth_error_old. }
  assert (Hkeep : forall r', r' <> r ->
                    nth_error (h_nodes h1) r' = nth_error (h_nodes h) r').
  { intros r' Hne. cbn [h1 h_nodes]. apply nth_error_update_neq. congruence. }
  assert (Hlen : List.length (h_dicts h1) = S (S L)).
  { cbn [h1 h_dicts]. rewrite !length_app. cbn [List.length]. fold L. lia. }
  destruct (IH h1 Hnodup') as (h' & Hrun' & Eg & Hext' & Hout & Hin).
  { intros r' Hr'.
    destruct (Hall r' (or_intror Hr')) as (nd' & ps' & cs' & H1 & H2 & H3).
    exists nd', ps', cs'. split; [|split; now apply Hext].
    rewrite Hkeep; [exact H1|]. intros ->. contradiction. }
  exists h'. split.
  { cbn [for_each]. unfold bind. now rewrite Hrun. }
  split; [exact Eg|]. split; [auto|]. split.
  { intros r' Hr'. rewrite Hout.
    - apply Hkeep. intros ->. apply Hr'. now left.
    - intro H. apply Hr'. now right. }
  intros r' nd' ps' cs' [<-|Hr'] Hnd' Hps' Hcs'.
  - rewrite Hnd in Hnd'. injection Hnd' as <-.
    rewrite Hps in Hps'. injection Hps' as <-.
    rewrite Hcs in Hcs'. injection Hcs' as <-.
    exists L, (S L). rewrite (Hout r Hfresh). split.
    { cbn [h1 h_nodes]. now apply nth_error_update_eq with nd. }
    split; [lia|]. split; [lia|]. split; apply Hext'; cbn [h1 h_dicts].
    + apply nth_error_old. apply nth_error_last.
    + replace (S L)
        with (List.length (h_dicts h ++ [OpenDigraph.shifted n ps]))
        by (rewrite length_app; cbn [List.length]; fold L; lia).
      apply nth_error_last.
  - assert (Hne : r' <> r) by (intros ->; contradiction).
    destruct (Hin r' nd' ps' cs' Hr') as (p' & c' & H1 & H2 & H3 & H4 & H5).
    { now rewrite Hkeep. }
    { now apply Hext. }
    { now apply Hext. }
    exists p', c'. repeat split; try assumption; lia.
Qed.

(** X24.  [shift_indices n] on a graph whose nodes are distinct objects
    shifts the two interface lists and, for every node, its id and the keys
    of two freshly made neighbour dictionaries (each key keeps its
    multiplicity); it does not rename the keys of the node map, so a node
    stays filed under its old id, and it leaves every dictionary that
    existed as it was. *)
Theorem shift_indices_keeps_the_node_map_keys
  (n : Z) (h : heap) (self : ref) (gr : graph_obj) :
  tidy h ->
  nth_error (h_graphs h) self = Some gr ->
  NoDup (PyDict.values (nodes gr)) ->
  (forall r, In r (PyDict.values (nodes gr)) -> allocated h r) ->
  exists h',
    OpenDigraph.shift_indices self n h = Done tt h' /\
    nth_error (h_graphs h') self
    = Some (mk_graph (map (fun i => i + n) (inputs gr))
                     (map (fun i => i + n) (outputs gr)) (nodes gr)) /\
    (forall d m, nth_error (h_dicts h) d = Some m ->
       nth_error (h_dicts h') d = Some m) /\
    (forall k r nd ps cs,
       PyDict.get k (nodes gr) = Some r ->
       nth_error (h_nodes h) r = Some nd ->
       nth_error (h_dicts h) (node_parents nd) = Some ps ->
       nth_error (h_dicts h) (node_children nd) = Some cs ->
       exists p' c',
         nth_error (h_nodes h') r
         = Some (mk_node (node_id nd + n) (node_label nd) p' c') /\
         (List.length (h_dicts h) <= p')%nat /\
         (List.length (h_dicts h) <= c')%nat /\
         nth_error (h_dicts h') p' = Some (OpenDigraph.shifted n ps) /\
         nth_error (h_dicts h') c' = Some (OpenDigraph.shifted n cs) /\
         (forall i, PyDict.get (i + n) (OpenDigraph.shifted n ps)
                    = PyDict.get i ps) /\
         (forall i, PyDict.get (i + n) (OpenDigraph.shifted n cs)
                    = PyDict.get i cs)).
Proof.
  intros Ht Hgr Hnodup Hall.
  set (g2 := mk_graph (map (fun i => i + n) (inputs gr))
                      (map (fun i => i + n) (outputs gr)) (nodes gr)).
  destruct (shift_loop n (PyDict.values (nodes gr)) (with_graph self g2 h)
              Hnodup Hall) as (h' & Hrun & Eg & Hext & _ & Hin).
  exists h'. split; [|split; [|split]].
  - unfold OpenDigraph.shift_indices.
    rewrite (bind_done _ _ _ _ _ (read_graph_at _ _ _ Hgr)).
    unfold bind at 1, write_graph at 1.
    change (mk_heap (h_dicts h) (h_nodes h) (update self ?g (h_graphs h)))
      with (with_graph self g h).
    erewrite bind_done.
    2:{ apply read_graph_at. now apply graph_after_write with gr. }
    cbn [inputs outputs nodes].
    unfold bind at 1, write_graph at 1.
    match goal with
    | |- context [mk_heap (h_dicts ?x) (h_nodes ?x)
                    (update self ?g (h_graphs ?x))] =>
        change (mk_heap (h_dicts x) (h_nodes x) (update self g (h_graphs x)))
          with (with_graph self g x)
    end.
    rewrite with_graph_twice. fold g2.
    erewrite bind_done.
    2:{ unfold OpenDigraph.get_nodes.
        erewrite bind_done; [reflexivity|].
        apply read_graph_at. now apply graph_after_write with gr. }
    exact Hrun.
  - rewrite Eg. now apply graph_after_write with gr.
  - exact Hext.
  - intros k r nd ps cs Hk Hnd Hps Hcs.
    assert (Hr : In r (PyDict.values (nodes gr))).
    { apply in_map_iff. exists (k, r). split; [reflexivity|].
      now apply get_In. }
    destruct (Hin r nd ps cs Hr Hnd Hps Hcs)
      as (p' & c' & H1 & H2 & H3 & H4 & H5).
    exists p', c'. repeat split; try assumption.
    + intro i. apply shifted_get. now apply (Ht _ _ Hps).
    + intro i. apply shifted_get. now apply (Ht _ _ Hcs).
Qed.

Lemma sample_nodes_allocated :
  forall r, In r (PyDict.values (nodes sample_graph)) ->
    allocated sample_heap r.
Proof.
  intros r [<-|[<-|[<-|[]]]]; eexists _, _, _; repeat split.
Defined.

Lemma sample_nodes_distinct : NoDup (PyDict.values (nodes sample_graph)).
Proof.
  repeat constructor; cbn; intuition discriminate.
Defined.

(** X24 on the graph 0 -> 3 -> 7 with input 0 and output 7, shifted
    by 10. *)
Lemma shift_indices_witness :
  exists h',
    OpenDigraph.shift_indices 0%nat 10 sample_heap = Done tt h' /\
    nth_error (h_graphs h') 0%nat
    = Some (mk_graph (map (fun i => i + 10) (inputs sample_graph))
                     (map (fun i => i + 10) (outputs sample_graph))
                     (nodes sample_graph)) /\
    (forall d m, nth_error (h_dicts sample_heap) d = Some m ->
       nth_error (h_dicts h') d = Some m) /\
    (forall k r nd ps cs,
       PyDict.get k (nodes sample_graph) = Some r ->
       nth_error (h_nodes sample_heap) r = Some nd ->
       nth_error (h_dicts sample_heap) (node_parents nd) = Some ps ->
       nth_error (h_dicts sample_heap) (node_children nd) = Some cs ->
       exists p' c',
         nth_error (h_nodes h') r
         = Some (mk_node (node_id nd + 10) (node_label nd) p' c') /\
         (List.length (h_dicts sample_heap) <= p')%nat /\
         (List.length (h_dicts sample_heap) <= c')%nat /\
         nth_error (h_dicts h') p' = Some (OpenDigraph.shifted 10 ps) /\
         nth_error (h_dicts h') c' = Some (OpenDigraph.shifted 10 cs) /\
         (forall i, PyDict.get (i + 10) (OpenDigraph.shifted 10 ps)
                    = PyDict.get i ps) /\
         (forall i, PyDict.get (i + 10) (OpenDigraph.shifted 10 cs)
                    = PyDict.get i cs)).
Proof.
  apply (shift_indices_keeps_the_node_map_keys 10 sample_heap 0%nat
           sample_graph).
  - exact sample_heap_is_tidy.
  - reflexivity.
  - exact sample_nodes_distinct.
  - exact sample_nodes_allocated.
Defined.

(** *** Copy and equality *)

Lemma distinct_NoDup (l : list Z) : distinct l = true -> NoDup l.
Proof.
  induction l as [|x l IH]; cbn [distinct]; intro H; [constructor|].
  apply andb_true_iff in H. destruct H as [Hx Hl].
  constructor; [|now apply IH].
  intro Hin. apply mem_In in Hin. now rewrite Hin in Hx.
Qed.

Lemma in_get_NoDup {V} (k : Z) (v : V) (d : PyDict.t V) :
  NoDup (PyDict.keys d) -> In (k, v) d -> PyDict.get k d = Some v.
Proof.
  induction d as [|[k0 v0] d IH]; [intros _ []|].
  cbn [PyDict.keys map fst]. intros Hnd [Heq|Hin].
  - injection Heq as -> ->. simpl. now rewrite Z.eqb_refl.
  - inversion Hnd as [|? ? Hfresh Hnd']; subst. simpl.
    destruct (Z.eqb_spec k0 k) as [->|Hne]; [|now apply IH].
    exfalso. apply Hfresh. apply in_map_iff. now exists (k, v).
Qed.

Lemma list_eqb_refl (l : list Z) : list_eqb l l = true.
Proof.
  induction l as [|x l IH]; [reflexivity|].
  simpl. now rewrite Z.eqb_refl.
Qed.

Lemma dict_eqb_refl (d : PyDict.t Z) :
  distinct (PyDict.keys d) = true -> PyDict.eqb d d = true.
Proof.
  intro Hd. apply distinct_NoDup in Hd. unfold PyDict.eqb.
  rewrite Z.eqb_refl. cbn [andb]. apply forallb_forall.
  intros [k v] Hin. cbn [fst snd].
  rewrite (in_get_NoDup k v d Hd Hin). apply Z.eqb_refl.
Qed.

Lemma select_all (d d' : PyDict.t ref) :
  (forall k r, In (k, r) d' -> PyDict.get k d = Some r) ->
  OpenDigraph.select_nodes d (PyDict.keys d') = PyDict.values d'.
Proof.
  induction d' as [|[k r] d' IH]; intro H; [reflexivity|].
  cbn [PyDict.keys PyDict.values map fst snd OpenDigraph.select_nodes].
  rewrite (H k r (or_introl eq_refl)). f_equal.
  apply IH. intros k' r' Hin. apply H. now right.
Qed.

Lemma index_nodes_rebuilds (h : heap) (d' : PyDict.t ref) :
  forall acc,
    (forall k r, In (k, r) d' ->
       exists nd, nth_error (h_nodes h) r = Some nd /\ node_id nd = k) ->
    NoDup (PyDict.keys (acc ++ d')) ->
    OpenDigraph.index_nodes (PyDict.values d') acc h = Done (acc ++ d') h.
Proof.
  induction d' as [|[k r] d' IH]; intros acc Hfiled Hnd.
  { cbn. now rewrite app_nil_r. }
  destruct (Hfiled k r (or_introl eq_refl)) as (nd & Hn & Hid).
  cbn [PyDict.values map snd OpenDigraph.index_nodes].
  rewrite (bind_done _ _ _ _ _ (get_id_at _ _ _ Hn)). rewrite Hid.
  assert (Hfresh : PyDict.get k acc = None).
  { apply get_absent. unfold PyDict.keys in *. rewrite map_app in Hnd.
    cbn [map fst] in Hnd. apply NoDup_remove_2 in Hnd.
    intro Hin. apply Hnd. apply in_or_app. now left. }
  rewrite (set_absent _ _ _ Hfresh).
  replace (acc ++ (k, r) :: d') with ((acc ++ [(k, r)]) ++ d')
    by now rewrite <- app_assoc.
  apply IH.
  - intros k' r' Hin. apply Hfiled. now right.
  - now rewrite <- app_assoc.
Qed.

Lemma node_eq_refl (h : heap) (r : ref) :
  tidy h -> allocated h r -> Node.eq r r h = Done true h.
Proof.
  intros Ht (nd & ps & cs & Hn & Hps & Hcs). unfold Node.eq.
  rewrite !(bind_done _ _ _ _ _ (read_node_at _ _ _ Hn)).
  rewrite Z.eqb_refl, String.eqb_refl. cbn [negb].
  rewrite !(bind_done _ _ _ _ _ (read_dict_at _ _ _ Hps)).
  rewrite (dict_eqb_refl ps (Ht _ _ Hps)). cbn [negb].
  rewrite !(bind_done _ _ _ _ _ (read_dict_at _ _ _ Hcs)).
  now rewrite (dict_eqb_refl cs (Ht _ _ Hcs)).
Qed.

Lemma nodes_eq_refl (h : heap) (l : list ref) :
  tidy h -> (forall r, In r l -> allocated h r) ->
  OpenDigraph.nodes_eq l l h = Done true h.
Proof.
  intros Ht. induction l as [|r l IH]; intro Hall; [reflexivity|].
  cbn [OpenDigraph.nodes_eq].
  rewrite (bind_done _ _ _ _ _
             (node_eq_refl h r Ht (Hall r (or_introl eq_refl)))).
  apply IH. intros r' Hr'. apply Hall. now right.
Qed.

Lemma graph_eq_same_content (h : heap) (a b : ref) (gr : graph_obj) :
  tidy h ->
  nth_error (h_graphs h) a = Some gr ->
  nth_error (h_graphs h) b = Some gr ->
  (forall r, In r (PyDict.values (nodes gr)) -> allocated h r) ->
  OpenDigraph.eq a b h = Done true h.
Proof.
  intros Ht Ha Hb Hall. unfold OpenDigraph.eq.
  rewrite (bind_done _ _ _ _ _ (read_graph_at _ _ _ Ha)).
  rewrite (bind_done _ _ _ _ _ (read_graph_at _ _ _ Hb)).
  rewrite !list_eqb_refl, Nat.eqb_refl. cbn [negb].
  now apply nodes_eq_refl.
Qed.

Lemma get_nodes_by_ids_at (h : heap) (self : ref) (gr : graph_obj)
  (ids : list Z) :
  nth_error (h_graphs h) self = Some gr ->
  OpenDigraph.get_nodes_by_ids self ids h
  = Done (OpenDigraph.select_nodes (nodes gr) ids) h.
Proof.
  intro H. unfold OpenDigraph.get_nodes_by_ids.
  now rewrite (bind_done _ _ _ _ _ (read_graph_at _ _ _ H)).
Qed.

(** X25.  On a graph whose nodes are each filed under the id they carry,
    [copy] returns a new graph object with equal interface lists and the
    same node map over the same node objects, leaving everything that
    existed untouched; the copy and the original then compare equal with
    [==] in both directions. *)
Theorem copy_compares_equal
  (h : heap) (self : ref) (gr : graph_obj) :
  tidy h ->
  nth_error (h_graphs h) self = Some gr ->
  distinct (PyDict.keys (nodes gr)) = true ->
  filed h gr ->
  let c := List.length (h_graphs h) in
  let h' := with_new_graph gr h in
  OpenDigraph.copy self h = Done c h' /\
  OpenDigraph.eq self c h' = Done true h' /\
  OpenDigraph.eq c self h' = Done true h'.
Proof.
  intros Ht Hgr Hd Hfiled c h'. apply distinct_NoDup in Hd.
  assert (Hcopy : OpenDigraph.copy self h = Done c h').
  { unfold OpenDigraph.copy.
    rewrite (bind_done _ _ _ _ _ (get_input_ids_at _ _ _ Hgr)).
    rewrite (bind_done _ _ _ _ _ (get_output_ids_at _ _ _ Hgr)).
    rewrite (bind_done _ _ _ _ _ (get_node_ids_at _ _ _ Hgr)).
    rewrite (bind_done _ _ _ _ _ (get_nodes_by_ids_at _ _ _ _ Hgr)).
    rewrite select_all by (intros k r; now apply in_get_NoDup).
    unfold OpenDigraph.init.
    erewrite bind_done.
    2:{ apply (index_nodes_rebuilds h (nodes gr) []); [|exact Hd].
        intros k r Hin.
        destruct (Hfiled k r Hin) as (nd & _ & _ & Hn & Hid & _).
        now exists nd. }
    cbn [app]. unfold new_graph, h', with_new_graph, c.
    now destruct gr. }
  assert (Ht' : tidy h') by exact Ht.
  assert (Hself : nth_error (h_graphs h') self = Some gr)
    by (cbn [h' with_new_graph h_graphs]; now apply nth_error_old).
  assert (Hc : nth_error (h_graphs h') c = Some gr)
    by (cbn [h' with_new_graph h_graphs]; apply nth_error_last).
  assert (Hall : forall r, In r (PyDict.values (nodes gr)) -> allocated h' r).
  { intros r Hr. apply in_map_iff in Hr. destruct Hr as ([k r'] & <- & Hin).
    destruct (Hfiled k r' Hin) as (nd & ps & cs & Hn & _ & Hps & Hcs).
    now exists nd, ps, cs. }
  split; [exact Hcopy|].
  split; now apply graph_eq_same_content with gr.
Qed.

Lemma sample_is_filed : filed sample_heap sample_graph.
Proof.
  intros k r [Heq|[Heq|[Heq|[]]]]; injection Heq as <- <-;
    eexists _, _, _; repeat split.
Defined.

(** X25 on the graph 0 -> 3 -> 7 with input 0 and output 7. *)
Lemma copy_witness :
  let c := List.length (h_graphs sample_heap) in
  let h' := with_new_graph sample_graph sample_heap in
  OpenDigraph.copy 0%nat sample_heap = Done c h' /\
  OpenDigraph.eq 0%nat c h' = Done true h' /\
  OpenDigraph.eq c 0%nat h' = Done true h'.
Proof.
  apply (copy_compares_equal sample_heap 0%nat sample_graph).
  - exact sample_heap_is_tidy.
  - reflexivity.
  - reflexivity.
  - exact sample_is_filed.
Defined.
